(** * The file lifecycle engine of vpconnect

    A shallow embedding of the version manager ([AwsStorage.handleFileVersioning],
    [getFilesByOriginalName], [getFileVersions], [updateFileStatus]), of the
    trash handlers of [server/trash.ts] ([moveFileToTrash], [moveFolderToTrash],
    [restoreFile], [restoreFolder], [permanentlyDeleteFile], [getTrashItems],
    [cleanupExpiredItems]) with their permission middleware and the role
    table of [server/roleAuth.ts], of the file store ([createFile],
    [updateFile], [getFiles], and the file part of the fallback [MemStorage]),
    of the version-history and move routes, and of the shareable link
    storage with its public and administrative routes in [server/routes.ts].

    Conventions of the embedding.
    - An instant is a [Z], the milliseconds since the epoch ([Date.getTime]);
      an ISO string written by [toISOString] stands for the instant it denotes.
      Consecutive [new Date()] reads inside one synchronous block of a handler
      are one instant [now]; the [updatedAt] attribute, which no property
      below reads, is written with that instant too.  A calendar day is
      [msPerDay] milliseconds.
    - A JavaScript string is a [string]; the empty string is the falsy one, and
      an absent ([undefined]/[null]) attribute is [None].
    - Counters and numeric ids are [Z]; [0] is the falsy number.
    - A table of the document store is the list of its items in scan order;
      an item is addressed by its key.  Store calls succeed unless a failure
      oracle is passed explicitly.
    - [storage] (the document store, or the fallback store) and [db] (the
      relational database) are two stores: a handler that goes through one
      of them does not see what is written through the other. *)

From Stdlib Require Import ZArith List String Ascii Bool Lia Permutation Sorted.
From Stdlib Require Import QArith DecimalString DecimalPos DecimalZ.
Import ListNotations.
Close Scope Q_scope.
Open Scope string_scope.
Open Scope Z_scope.

(** ** JavaScript primitives used by the handlers *)

Module Js.

(** [a || b] on strings. *)
Definition or_else (a b : string) : string :=
  if (a =? "")%string then b else a.

Definition truthy (s : string) : bool := negb (s =? "")%string.

(** [x ? Number(x) : undefined] for a numeric attribute. *)
Definition truthy_num (x : option Z) : option Z :=
  match x with
  | Some 0 => None
  | _ => x
  end.

(** [x ? String(x) : undefined] for a string attribute. *)
Definition truthy_str (x : option string) : option string :=
  match x with
  | Some s => if truthy s then Some s else None
  | None => None
  end.

(** [String(x)] of an attribute that may be [undefined]. *)
Definition String_ (x : option string) : string :=
  match x with
  | Some s => s
  | None => "undefined"
  end.

(** Template-literal printing of a length and of an integer id. *)
Definition string_of_nat (n : nat) : string :=
  NilZero.string_of_uint (Nat.to_uint n).

Definition string_of_Z (z : Z) : string :=
  NilZero.string_of_int (Z.to_int z).

(** [s.includes(sub)]; also DynamoDB's [contains(s, sub)] on strings. *)
Fixpoint includes (s sub : string) : bool :=
  if String.prefix sub s then true
  else match s with
       | EmptyString => false
       | String _ s' => includes s' sub
       end.

Definition lower_ascii (c : ascii) : ascii :=
  let n := nat_of_ascii c in
  if ((65 <=? n) && (n <=? 90))%nat then ascii_of_nat (n + 32) else c.

Fixpoint toLowerCase (s : string) : string :=
  match s with
  | EmptyString => EmptyString
  | String c s' => String (lower_ascii c) (toLowerCase s')
  end.

Definition is_space (c : ascii) : bool :=
  let n := nat_of_ascii c in
  ((n =? 32) || ((9 <=? n) && (n <=? 13)))%nat.

Fixpoint trimStart (s : string) : string :=
  match s with
  | String c s' => if is_space c then trimStart s' else s
  | EmptyString => EmptyString
  end.

Definition reverse (s : string) : string :=
  string_of_list_ascii (rev (list_ascii_of_string s)).

(** [s.trim()] (ASCII white space). *)
Definition trim (s : string) : string :=
  reverse (trimStart (reverse (trimStart s))).

(** [s.replace(c, '')] for a one-character pattern: the first occurrence goes. *)
Fixpoint remove_first (c : ascii) (s : string) : string :=
  match s with
  | EmptyString => EmptyString
  | String d s' => if Ascii.eqb c d then s' else String d (remove_first c s')
  end.

Definition digit_of (c : ascii) : option Z :=
  let n := nat_of_ascii c in
  if ((48 <=? n) && (n <=? 57))%nat then Some (Z.of_nat (n - 48)) else None.

(** Reads a run of decimal digits: the accumulated value, how many digits were
    read, and the rest of the string. *)
Fixpoint digits (acc : Z) (cnt : nat) (s : string) : Z * nat * string :=
  match s with
  | String c s' =>
      match digit_of c with
      | Some d => digits (10 * acc + d) (S cnt) s'
      | None => (acc, cnt, s)
      end
  | EmptyString => (acc, cnt, s)
  end.

Definition sign_of (s : string) : bool * string :=
  match s with
  | String "-"%char r => (true, r)
  | String "+"%char r => (false, r)
  | _ => (false, s)
  end.

(** An IEEE 754 double that is not [NaN]: a finite one, given by the
    rational it equals, or an infinity. *)
Inductive double : Type :=
| Finite (q : Q)
| Infinity (negative : bool).

(** The position of the leading binary digit of [n / d]. *)
Definition binade (n d : positive) : Z :=
  let e := Z.log2 (Z.pos n) - Z.log2 (Z.pos d) in
  if (if 0 <=? e then Z.pos d * 2 ^ e <=? Z.pos n
      else Z.pos d <=? Z.pos n * 2 ^ (- e))
  then e else e - 1.

(** [num / den] rounded to the nearest integer, a tie to the even one. *)
Definition roundHalfEven (num den : Z) : Z :=
  let m := num / den in
  let r := num mod den in
  if 2 * r <? den then m
  else if den <? 2 * r then m + 1
  else if Z.even m then m else m + 1.

(** The double nearest to [n / d], with the sign given: 53 significant bits,
    a last place no finer than [2 ^ -1074], and an infinity from [2 ^ 1024]
    on. *)
Definition nearestDouble (negative : bool) (n d : positive) : double :=
  let p := Z.max (binade n d - 52) (- 1074) in
  let m := if 0 <=? p then roundHalfEven (Z.pos n) (Z.pos d * 2 ^ p)
           else roundHalfEven (Z.pos n * 2 ^ (- p)) (Z.pos d) in
  if ((971 <? p) || ((p =? 971) && (2 ^ 53 <=? m)))%bool then Infinity negative
  else
    let q := if 0 <=? p then Qmake (m * 2 ^ p) 1
             else Qmake m (Z.to_pos (2 ^ (- p))) in
    Finite (if negative then Qopp q else q).

(** The [Number] value of an exact decimal: round to nearest, ties to even. *)
Definition toDouble (q : Q) : double :=
  match Qnum q with
  | 0 => Finite 0
  | Z.pos n => nearestDouble false n (Qden q)
  | Z.neg n => nearestDouble true n (Qden q)
  end.

(** The sign of [x - y]; [Eq] also when the difference is [NaN] (two
    infinities of one sign). *)
Definition compareDouble (x y : double) : comparison :=
  match x, y with
  | Finite a, Finite b => Qcompare a b
  | Finite _, Infinity negative => if negative then Gt else Lt
  | Infinity negative, Finite _ => if negative then Lt else Gt
  | Infinity s, Infinity t =>
      if Bool.eqb s t then Eq else if s then Lt else Gt
  end.

(** [x <= y] on doubles. *)
Definition leDouble (x y : double) : Prop :=
  match x, y with
  | Finite a, Finite b => (a <= b)%Q
  | Infinity true, _ => True
  | _, Infinity false => True
  | _, _ => False
  end.

(** [parseFloat]: the longest prefix that is a decimal literal or the word
    [Infinity], after white space and a sign; [None] for [NaN].  The value is
    the double nearest to the decimal the literal denotes. *)
Definition parseFloat (s : string) : option double :=
  let '(neg, s1) := sign_of (trimStart s) in
  if String.prefix "Infinity" s1 then Some (Infinity neg)
  else
  let '(ip, n1, s2) := digits 0 0 s1 in
  let '(m, n2, s3) :=
    match s2 with
    | String "."%char r => digits ip 0 r
    | _ => (ip, 0%nat, s2)
    end in
  if (n1 + n2 =? 0)%nat then None
  else
    let e :=
      match s3 with
      | String c r =>
          if (Ascii.eqb c "e" || Ascii.eqb c "E")%bool then
            let '(eneg, r1) := sign_of r in
            let '(ev, n3, _) := digits 0 0 r1 in
            if (n3 =? 0)%nat then 0 else if eneg then - ev else ev
          else 0
      | EmptyString => 0
      end in
    let scale := Z.of_nat n2 - e in
    let q := if 0 <=? scale
             then Qmake m (Z.to_pos (10 ^ scale))
             else Qmake (m * 10 ^ (- scale)) 1 in
    Some (toDouble (if neg then Qopp q else q)).

(** [/^[a-f0-9]{32}$/.test(s)] *)
Definition is_lower_hex (c : ascii) : bool :=
  let n := nat_of_ascii c in
  (((48 <=? n) && (n <=? 57)) || ((97 <=? n) && (n <=? 102)))%nat.

Definition is_hex32 (s : string) : bool :=
  ((String.length s =? 32)%nat && forallb is_lower_hex (list_ascii_of_string s))%bool.

End Js.

(** 60 days, as [setDate(getDate() + 60)] moves an instant. *)
Definition msPerDay : Z := 86400000.

Definition plus60days (t : Z) : Z := t + 60 * msPerDay.

(** ** Records of the store *)

(** [deletionStatusEnum] of the schema. *)
Inductive DeletionStatus : Type :=
| active
| deleted
| permanently_deleted.

(** [x.deletionStatus === 'deleted'] on an attribute that may be absent. *)
Definition is_deleted (d : option DeletionStatus) : bool :=
  match d with
  | Some deleted => true
  | _ => false
  end.

(** A file record: an item of the [FILES] partition (key [FILE#id]) of the
    document store, a value of the map of the fallback store, or a row of
    the relation [files] of the database.  Only the attributes the lifecycle
    engine reads or writes are kept. *)
Module File.

Record t : Type := mk {
  id : Z;
  name : string;
  originalName : string;
  version : string;
  status : string;
  projectId : option Z;
  taskId : option Z;
  parentFolderId : option string;
  deletionStatus : option DeletionStatus;
  deletedAt : option Z;
  deletedBy : option string;
  scheduledDeletionAt : option Z;
  createdAt : Z;
  updatedAt : Z
}.

Definition set_status (s : string) (now : Z) (f : t) : t :=
  mk (id f) (name f) (originalName f) (version f) s (projectId f) (taskId f)
     (parentFolderId f) (deletionStatus f) (deletedAt f) (deletedBy f)
     (scheduledDeletionAt f) (createdAt f) now.

(** The lifecycle attributes written together by the trash handlers. *)
Definition set_lifecycle (d : option DeletionStatus) (at_ : option Z)
    (by_ : option string) (sched : option Z) (now : Z) (f : t) : t :=
  mk (id f) (name f) (originalName f) (version f) (status f) (projectId f)
     (taskId f) (parentFolderId f) d at_ by_ sched (createdAt f) now.

Definition set_deletionStatus (d : DeletionStatus) (now : Z) (f : t) : t :=
  set_lifecycle (Some d) (deletedAt f) (deletedBy f) (scheduledDeletionAt f) now f.

Definition set_name (n : string) (f : t) : t :=
  mk (id f) n (originalName f) (version f) (status f) (projectId f) (taskId f)
     (parentFolderId f) (deletionStatus f) (deletedAt f) (deletedBy f)
     (scheduledDeletionAt f) (createdAt f) (updatedAt f).

Definition trim_opt (x : option string) : option string :=
  match x with
  | Some s => Js.truthy_str (Some (Js.trim s))
  | None => None
  end.

(** [serializeForDynamoDB] on a file object: strings are trimmed, and an
    attribute whose value is [null], [undefined] or blank is dropped. *)
Definition serialize (f : t) : t :=
  mk (id f) (Js.trim (name f)) (Js.trim (originalName f)) (Js.trim (version f))
     (Js.trim (status f)) (projectId f) (taskId f) (trim_opt (parentFolderId f))
     (deletionStatus f) (deletedAt f) (trim_opt (deletedBy f))
     (scheduledDeletionAt f) (createdAt f) (updatedAt f).

End File.

(** The upload descriptor [newFileData] that [createFile] receives and
    [handleFileVersioning] mutates. *)
Module NewFileData.

Record t : Type := mk {
  name : string;
  originalName : string;
  version : string;
  status : string;
  projectId : option Z;
  taskId : option Z;
  parentFolderId : option string;
  createdAt : option Z;
  versionHistory : option (list string);
  timelineReset : bool;
  containerGeneration : option Z;
  previousContainerDeleted : bool
}.

Definition set_version_status (v s : string) (d : t) : t :=
  mk (name d) (originalName d) v s (projectId d) (taskId d) (parentFolderId d)
     (createdAt d) (versionHistory d) (timelineReset d) (containerGeneration d)
     (previousContainerDeleted d).

(** The assignments of the fresh-container branch. *)
Definition fresh (now : Z) (d : t) : t :=
  mk (name d) (originalName d) "1.0" "Current" (projectId d) (taskId d)
     (parentFolderId d) (Some now) (Some []) true (Some 1) true.

End NewFileData.

(** The two stores [StorageFactory] can hand out. *)
Inductive StorageType : Type :=
| aws
| memory.

(** ** The version manager ([AwsStorage], file part) *)

Module AwsStorage.

(** The scan [PK = FILES AND Type = File AND originalName = :originalName]
    over the file items. *)
Definition scanByOriginalName (table : list File.t) (originalName : string)
  : list File.t :=
  filter (fun f => (File.originalName f =? originalName)%string) table.

Definition not_deleted (f : File.t) : bool :=
  negb (is_deleted (File.deletionStatus f)).

(** [Number(f.projectId) === Number(projectId)]: an absent attribute is [NaN]
    and equals nothing. *)
Definition number_matches (attr : option Z) (wanted : Z) : bool :=
  match attr with
  | Some n => n =? wanted
  | None => false
  end.

Definition getFilesByOriginalName (table : list File.t) (originalName : string)
    (projectId taskId : option Z) (parentFolderId : option string)
  : list File.t :=
  let files := scanByOriginalName table originalName in
  let files := filter not_deleted files in
  let files :=
    match projectId with
    | Some p => filter (fun f => number_matches (File.projectId f) p) files
    | None => files
    end in
  let files :=
    match taskId with
    | Some k => filter (fun f => number_matches (File.taskId f) k) files
    | None => files
    end in
  match parentFolderId with
  | Some d =>
      filter (fun f => (Js.String_ (File.parentFolderId f) =? d)%string) files
  | None => files
  end.

(** [handleFileVersioning]: the descriptor after the call, and the ids handed
    to the [setImmediate] callback (empty when no callback is scheduled). *)
Definition handleFileVersioning (table : list File.t) (now : Z)
    (newFileData : NewFileData.t) : NewFileData.t * list Z :=
  let d :=
    NewFileData.set_version_status
      (Js.or_else (NewFileData.version newFileData) "1.0")
      (Js.or_else (NewFileData.status newFileData) "Current") newFileData in
  if negb (Js.truthy (NewFileData.originalName d)) then (d, [])
  else
    let existingFiles :=
      getFilesByOriginalName table (NewFileData.originalName d)
        (Js.truthy_num (NewFileData.projectId d))
        (Js.truthy_num (NewFileData.taskId d))
        (Js.truthy_str (NewFileData.parentFolderId d)) in
    let activeFiles := filter not_deleted existingFiles in
    match activeFiles with
    | [] => (NewFileData.fresh now d, [])
    | _ :: _ =>
        let nextVersionNumber := (List.length activeFiles + 1)%nat in
        (NewFileData.set_version_status
           (Js.string_of_nat nextVersionNumber ++ ".0") "Current" d,
         map File.id activeFiles)
    end.

(** [GetItem] on the key [FILE#id]. *)
Definition getFile (table : list File.t) (id : Z) : option File.t :=
  find (fun f => File.id f =? id) table.

(** The item an [UpdateItem] creates under a key that holds none: the key,
    [status] and [updatedAt], and no other attribute (an item without
    [createdAt] is read by its [updatedAt], as [getFiles] does). *)
Definition statusOnly (fileId : Z) (status : string) (now : Z) : File.t :=
  File.mk fileId "" "" "" status None None None None None None None now now.

(** [updateFileStatus]: one [UpdateItem] on the key [FILE#fileId], which
    sets [status] and [updatedAt] of the item under the key and, when the key
    holds no item, creates one with these attributes alone; an error of the
    store is caught and logged.  [fails] tells for which keys the store call
    raises. *)
Definition updateFileStatus (fails : Z -> bool) (now : Z) (table : list File.t)
    (fileId : Z) (status : string) : list File.t :=
  if fails fileId then table
  else
    match getFile table fileId with
    | Some _ =>
        map (fun f => if File.id f =? fileId then File.set_status status now f
                      else f) table
    | None => (table ++ [statusOnly fileId status now])%list
    end.

(** The body of the [setImmediate] callback of [handleFileVersioning]. *)
Definition supersedeInBackground (fails : Z -> bool) (now : Z)
    (table : list File.t) (ids : list Z) : list File.t :=
  fold_left (fun t i => updateFileStatus fails now t i "Superseded") ids table.

(** [PutItem]: the item replaces the one stored under its key. *)
Fixpoint putFile (item : File.t) (table : list File.t) : list File.t :=
  match table with
  | [] => [item]
  | f :: table' =>
      if File.id f =? File.id item then item :: table'
      else f :: putFile item table'
  end.

(** [createFile]: the stored item, the table after the [PutItem], and the ids
    left to the background callback.  [Date.now()] is the new id. *)
Definition createFile (table : list File.t) (now : Z)
    (fileData : NewFileData.t) : File.t * list File.t * list Z :=
  let '(d, background) := handleFileVersioning table now fileData in
  let item :=
    File.serialize
      (File.mk now
         (NewFileData.name d)
         (Js.or_else (NewFileData.originalName d) (NewFileData.name d))
         (Js.or_else (NewFileData.version d) "1.0")
         (Js.or_else (NewFileData.status d) "Current")
         (Js.truthy_num (NewFileData.projectId d))
         (Js.truthy_num (NewFileData.taskId d))
         (Js.truthy_str (NewFileData.parentFolderId d))
         None None None None now now) in
  (item, putFile item table, background).

(** [updateFile]: [None] when the call throws (an id that is not positive, or
    no item under the key); otherwise the merged object it returns and the
    table after the [PutItem] of its serialized form.  [updates] is the
    partial object spread over the existing item. *)
Definition updateFile (table : list File.t) (now : Z) (id : Z)
    (updates : File.t -> File.t) : option (File.t * list File.t) :=
  if id <=? 0 then None
  else
    match getFile table id with
    | None => None
    | Some existingFile =>
        let u := updates existingFile in
        let mergedFile :=
          File.mk id (File.name u) (File.originalName u) (File.version u)
            (File.status u) (File.projectId u) (File.taskId u)
            (File.parentFolderId u) (File.deletionStatus u) (File.deletedAt u)
            (File.deletedBy u) (File.scheduledDeletionAt u) (File.createdAt u)
            now in
        Some (mergedFile, putFile (File.serialize mergedFile) table)
    end.

(** The object [getFileVersions] builds from an unmarshalled item. *)
Definition versionView (f : File.t) : File.t :=
  File.mk (File.id f)
    (Js.or_else (File.originalName f) (File.name f))
    (File.originalName f)
    (Js.or_else (File.version f) "1.0")
    (Js.or_else (File.status f) "Current")
    (Js.truthy_num (File.projectId f))
    (Js.truthy_num (File.taskId f))
    (Js.truthy_str (File.parentFolderId f))
    (File.deletionStatus f) (File.deletedAt f) (File.deletedBy f)
    (File.scheduledDeletionAt f) (File.createdAt f) (File.updatedAt f).

(** [Number(f.projectId || 0) === Number(projectId)] *)
Definition number_or_zero_matches (attr : option Z) (wanted : Z) : bool :=
  match attr with
  | Some n => n =? wanted
  | None => 0 =? wanted
  end.

(** The folder test of [getFileVersions]; [null] and the string ['null'] (both
    [Some "null"] here) ask for the files without a parent folder. *)
Definition folder_matches (attr : option string) (wanted : string) : bool :=
  if (wanted =? "null")%string
  then match attr with None => true | Some _ => false end
  else (match attr with Some s => s | None => "" end =? wanted)%string.

(** The numeric value [parseFloat(String(v || '1.0').replace('v', ''))]. *)
Definition versionNumber (f : File.t) : option Js.double :=
  Js.parseFloat (Js.remove_first "v"%char (Js.or_else (File.version f) "1.0")).

(** The comparator [(a, b) => versionB - versionA] by its sign; a [NaN]
    difference counts as zero. *)
Definition compareVersions (a b : File.t) : comparison :=
  match versionNumber a, versionNumber b with
  | Some va, Some vb => Js.compareDouble vb va
  | _, _ => Eq
  end.

(** [Array.prototype.sort] is stable; for a comparator that is a total
    preorder every stable sort returns the same array, here by insertion.
    (With a label that has no number the comparator is not one, and the order
    is left to the engine.) *)
Fixpoint insertSorted {A : Type} (cmp : A -> A -> comparison) (a : A)
    (l : list A) : list A :=
  match l with
  | [] => [a]
  | b :: l' =>
      match cmp a b with
      | Gt => b :: insertSorted cmp a l'
      | _ => a :: l
      end
  end.

Fixpoint sortBy {A : Type} (cmp : A -> A -> comparison) (l : list A) : list A :=
  match l with
  | [] => []
  | a :: l' => insertSorted cmp a (sortBy cmp l')
  end.

(** [getFileVersions]; a blank [originalName] serializes to [undefined], the
    scan command cannot be built and the [catch] branch answers [[]]. *)
Definition getFileVersions (table : list File.t) (originalName : string)
    (projectId taskId : option Z) (parentFolderId : option string)
  : list File.t :=
  let safeOriginalName := Js.trim originalName in
  if negb (Js.truthy safeOriginalName) then []
  else
    let files := map versionView (scanByOriginalName table safeOriginalName) in
    let files := filter not_deleted files in
    let files :=
      match projectId with
      | Some p =>
          filter (fun f => number_or_zero_matches (File.projectId f) p) files
      | None => files
      end in
    let files :=
      match taskId with
      | Some k =>
          filter (fun f => number_or_zero_matches (File.taskId f) k) files
      | None => files
      end in
    let files :=
      match parentFolderId with
      | Some d =>
          filter (fun f => folder_matches (File.parentFolderId f) d) files
      | None => files
      end in
    sortBy compareVersions files.

End AwsStorage.

(** [MemStorage.updateFile]: the spread of [updates] over the stored object;
    [None] when no file has this id. *)
Module MemStorage.

Definition updateFile (table : list File.t) (now : Z) (id : Z)
    (updates : File.t -> File.t) : option (File.t * list File.t) :=
  match AwsStorage.getFile table id with
  | None => None
  | Some existing =>
      let u := updates existing in
      let updated :=
        File.mk (File.id u) (File.name u) (File.originalName u) (File.version u)
          (File.status u) (File.projectId u) (File.taskId u)
          (File.parentFolderId u) (File.deletionStatus u) (File.deletedAt u)
          (File.deletedBy u) (File.scheduledDeletionAt u) (File.createdAt u)
          now in
      Some (updated, AwsStorage.putFile updated table)
  end.

End MemStorage.

(** What a handler answers: [res.json(body)], or [res.status(code)] with an
    error message. *)
Inductive Response (A : Type) : Type :=
| Json (body : A)
| Fail (code : Z) (error : string).

Arguments Json {A} body.
Arguments Fail {A} code error.

Definition succeeded {A : Type} (r : Response A) : bool :=
  match r with
  | Json _ => true
  | Fail _ _ => false
  end.

(** A raw item of the document table, as [moveFolderToTrash] scans, writes and
    deletes them: the composite key and the attributes that handler touches. *)
Module Item.

Record t : Type := mk {
  PK : string;
  SK : string;
  Type_ : string;
  name : option string;
  parentFolderId : option string;
  deletionStatus : option DeletionStatus;
  deletedAt : option Z;
  deletedBy : option string;
  scheduledDeletionAt : option Z
}.

Definition same_key (a b : t) : bool :=
  ((PK a =? PK b) && (SK a =? SK b))%string.

(** The table item that holds a file. *)
Definition of_file (f : File.t) : t :=
  mk "FILES" ("FILE#" ++ Js.string_of_Z (File.id f)) "File"
     (Js.truthy_str (Some (File.name f))) (File.parentFolderId f)
     (File.deletionStatus f) (File.deletedAt f) (File.deletedBy f)
     (File.scheduledDeletionAt f).

End Item.

(** ** The trash handlers ([server/trash.ts]) *)

Module Trash.

Import AwsStorage.

Record TrashedFile : Type := mkTrashedFile {
  file : File.t;
  versionsDeleted : nat;
  recoveryDeadline : Z
}.

(** The [SET] clause of the [UpdateCommand] of [moveFileToTrash], which is
    also its [updateData]. *)
Definition trashStamp (now : Z) (userId : string) (f : File.t) : File.t :=
  File.set_lifecycle (Some deleted) (Some now) (Some userId)
    (Some (plus60days now)) now f.

(** One [UpdateCommand] on the key of [containerFile]. *)
Definition updateItem (stamp : File.t -> File.t) (table : list File.t)
    (containerFile : File.t) : list File.t :=
  map (fun f => if File.id f =? File.id containerFile then stamp f else f) table.

(** [moveFileToTrash].  [fileId] is the [:fileId] parameter as [parseInt]
    reads it; [None] stands for a parameter that is missing or is the string
    ['undefined'].  (A parameter that is present and is not a number is
    answered 400 with another message, before any store call; it has no
    counterpart here.)  In the cloud branch a file with neither [originalName]
    nor [name] puts an undefined value into the scan command: the command
    throws, nothing is written and the outer [catch] answers 500. *)
Definition moveFileToTrash (storageType : StorageType) (table : list File.t)
    (now : Z) (fileId : option Z) (userId : string)
  : Response TrashedFile * list File.t :=
  match fileId with
  | None => (Fail 400 "Valid file ID required", table)
  | Some fileIdNum =>
      match getFile table fileIdNum with
      | None => (Fail 404 "File not found", table)
      | Some file =>
          let scheduledDeletion := plus60days now in
          match storageType with
          | aws =>
              let containerName :=
                Js.or_else (File.originalName file) (File.name file) in
              if negb (Js.truthy containerName)
              then (Fail 500 "Failed to move file to trash", table)
              else
              let containerFiles := scanByOriginalName table containerName in
              let activeContainerFiles := filter not_deleted containerFiles in
              let table' :=
                fold_left (updateItem (trashStamp now userId))
                  activeContainerFiles table in
              (Json (mkTrashedFile (trashStamp now userId file)
                       (List.length activeContainerFiles) scheduledDeletion),
               table')
          | memory =>
              match MemStorage.updateFile table now fileIdNum
                      (trashStamp now userId) with
              | Some (updatedFile, table') =>
                  (Json (mkTrashedFile updatedFile 1 scheduledDeletion), table')
              | None => (Fail 500 "Failed to move file to trash", table)
              end
          end
      end
  end.

(** The filename repair of [restoreFile]: the display name is a 32-character
    lower-case hexadecimal hash and the original name has a dot. *)
Definition needsNameRepair (file : File.t) : bool :=
  (Js.truthy (File.name file) && Js.truthy (File.originalName file)
   && negb (File.name file =? File.originalName file)%string
   && Js.is_hex32 (File.name file)
   && Js.includes (File.originalName file) ".")%bool.

Definition restoreUpdate (file : File.t) (now : Z) (f : File.t) : File.t :=
  let f' := File.set_lifecycle (Some active) None None None now f in
  if needsNameRepair file then File.set_name (File.originalName file) f' else f'.

Definition storageUpdateFile (storageType : StorageType) :=
  match storageType with
  | aws => AwsStorage.updateFile
  | memory => MemStorage.updateFile
  end.

(** [restoreFile]: the restored file it answers with, and the table;
    [fileId] as for [moveFileToTrash]. *)
Definition restoreFile (storageType : StorageType) (table : list File.t)
    (now : Z) (fileId : option Z) : Response File.t * list File.t :=
  match fileId with
  | None => (Fail 400 "Valid file ID required", table)
  | Some fileIdNum =>
      match getFile table fileIdNum with
      | None => (Fail 404 "File not found", table)
      | Some file =>
          if negb (is_deleted (File.deletionStatus file))
          then (Fail 400 "File is not in trash", table)
          else
            match storageUpdateFile storageType table now fileIdNum
                    (restoreUpdate file now) with
            | Some (restoredFile, table') => (Json restoredFile, table')
            | None => (Fail 500 "Failed to restore file", table)
            end
      end
  end.

(** *** The handlers that go through [db] *)

(** The rows of the relation [files] of the relational database, which the
    handlers below reach through [db].  [storage], which the handlers above
    use, keeps its own file table and neither reads nor writes this relation.
    The column [id] is a [serial], a 32-bit integer. *)
Definition Db : Type := list File.t.

Definition int4 (n : Z) : bool := ((- 2 ^ 31 <=? n) && (n <? 2 ^ 31))%bool.

(** [!id || id === 'undefined'] on a route parameter. *)
Definition missing (id : string) : bool :=
  (negb (Js.truthy id) || (id =? "undefined")%string)%bool.

(** [moveFolderToTrashOld].  [server/trash.ts] binds no [folders]: its import
    from the schema names [files] alone, and the schema declares no such
    relation.  After the test of the parameter, evaluating
    [db.update(folders)] raises a [ReferenceError] before any statement is
    sent, and the [catch] answers 500: no row is written and the success
    answer is never built. *)
Definition moveFolderToTrashOld (db : Db) (now : Z) (folderId : string)
    (userId : string) : Response Empty_set * Db :=
  if missing folderId then (Fail 400 "Valid folder ID required", db)
  else (Fail 500 "Failed to move folder to trash", db).

(** [restoreFolder]: its first statement is [db.update(folders)] too. *)
Definition restoreFolder (db : Db) (now : Z) (folderId : string)
  : Response Empty_set * Db :=
  if missing folderId then (Fail 400 "Valid folder ID required", db)
  else (Fail 500 "Failed to restore folder", db).

(** The [:fileId] parameter as [permanentlyDeleteFile] reads it: missing (or
    the string ['undefined']), a string for which [BigInt] throws, or the
    integer [BigInt] gives. *)
Inductive IdParam : Type :=
| Missing
| Malformed
| Integer (n : Z).

(** [permanentlyDeleteFile].  An integer outside the range of the column is
    refused by the database, and the [catch] answers 500 as it does for a
    malformed one.  The [UPDATE] then goes by the id alone; the answer carries
    the first row it returns. *)
Definition permanentlyDeleteFile (db : Db) (now : Z) (fileId : IdParam)
  : Response (option File.t) * Db :=
  match fileId with
  | Missing => (Fail 400 "Valid file ID required", db)
  | Malformed => (Fail 500 "Failed to permanently delete file", db)
  | Integer n =>
      if negb (int4 n) then (Fail 500 "Failed to permanently delete file", db)
      else
        match filter (fun f => (File.id f =? n)
                               && is_deleted (File.deletionStatus f))%bool db with
        | [] => (Fail 404 "File not found in trash", db)
        | _ :: _ =>
            let purge := File.set_deletionStatus permanently_deleted now in
            (Json (option_map purge (find (fun g => File.id g =? n) db)),
             map (fun g => if File.id g =? n then purge g else g) db)
        end
  end.

(** The [WHERE] clause of the sweep:
    [deletionStatus = 'deleted' AND scheduledDeletionAt < now]; a [NULL]
    deadline satisfies no comparison. *)
Definition isExpired (now : Z) (d : option DeletionStatus) (sched : option Z)
  : bool :=
  (is_deleted d && match sched with Some t => t <? now | None => false end)%bool.

Definition pastDeadline (now : Z) (f : File.t) : bool :=
  isExpired now (File.deletionStatus f) (File.scheduledDeletionAt f).

Definition sweepFile (now : Z) (f : File.t) : File.t :=
  if pastDeadline now f
  then File.set_deletionStatus permanently_deleted now f else f.

(** What [cleanupExpiredItems] would return. *)
Record Cleanup : Type := mkCleanup {
  filesDeleted : nat;
  foldersDeleted : nat
}.

(** What an asynchronous function settles with. *)
Inductive Outcome (A : Type) : Type :=
| Returned (value : A)
| Thrown (error : string).

Arguments Returned {A} value.
Arguments Thrown {A} error.

(** [cleanupExpiredItems].  The [UPDATE] of [files] runs and is awaited.
    The next statement starts with [db.update(folders)], which raises the
    [ReferenceError] (see [moveFolderToTrashOld]); the [catch] logs it and
    throws it again, so the function never returns its counts. *)
Definition cleanupExpiredItems (db : Db) (now : Z) : Outcome Cleanup * Db :=
  (Thrown "folders is not defined", map (sweepFile now) db).

End Trash.

(** ** [moveFolderToTrash], on the raw document table *)

Module FolderTrash.

Record DeletedFolder : Type := mkDeletedFolder {
  id : string;
  name : string;
  deletionStatus : DeletionStatus;
  deletedAt : Z;
  deletedBy : string;
  scheduledDeletionAt : Z;
  entriesRemoved : nat
}.

(** [PutCommand] *)
Fixpoint putItem (item : Item.t) (table : list Item.t) : list Item.t :=
  match table with
  | [] => [item]
  | i :: table' =>
      if Item.same_key i item then item :: table' else i :: putItem item table'
  end.

(** [DeleteCommand] on a key. *)
Definition deleteItem (table : list Item.t) (item : Item.t) : list Item.t :=
  filter (fun i => negb (Item.same_key i item)) table.

(** The filter [contains(SK, :folderId) AND attribute_exists(#name)]. *)
Definition scanMatches (folderId : string) (i : Item.t) : bool :=
  (Js.includes (Item.SK i) folderId
   && match Item.name i with Some _ => true | None => false end)%bool.

(** The name found in the root-folder listing, or the default one. *)
Definition folderNameOf (listing : list (string * string)) (folderId : string)
  : string :=
  match find (fun f => (fst f =? folderId)%string) listing with
  | Some f => snd f
  | None => "Folder_" ++ folderId
  end.

(** The [trashItem] object of [moveFolderToTrash]. *)
Definition trashItemFor (folderName folderId userId : string) (now : Z)
  : Item.t :=
  Item.mk "TRASH" ("FOLDER#" ++ folderId) "TrashItem" (Some folderName) None
    (Some deleted) (Some now) (Some userId) (Some (plus60days now)).

(** [moveFolderToTrash].  [listing] is what [storage.getFolders(null)] returns
    as (id, name) pairs (empty when that call throws).  A scan of the document
    store is eventually consistent: [scanSeesPut] tells whether it already
    observes the trash item written just before it.  The answer reads the
    clock again, after the store calls: [answeredAt]. *)
Definition moveFolderToTrash (table : list Item.t)
    (listing : list (string * string)) (scanSeesPut : bool)
    (now answeredAt : Z) (folderId : string) (userId : string)
  : DeletedFolder * list Item.t :=
  let folderName := folderNameOf listing folderId in
  let scheduledDeletion := plus60days now in
  let trashItem := trashItemFor folderName folderId userId now in
  let table1 := putItem trashItem table in
  let scanned :=
    filter (scanMatches folderId) (if scanSeesPut then table1 else table) in
  let table2 := fold_left deleteItem scanned table1 in
  (mkDeletedFolder folderId folderName deleted answeredAt userId
     scheduledDeletion (List.length scanned),
   table2).

End FolderTrash.

(** ** Shareable links: storage ([AwsStorage]) and the two public routes *)

Module ShareableLink.

(** The attributes of a link that creation and resolution read.
    [createdAt], [updatedAt] and [metadata] are not kept: no check of a
    route reads them ([updatedAt] is rewritten by every update of a link).
    [expiresAt] is the instant the stored string denotes; a string that
    denotes none compares false with every instant, as an absent expiry
    does. *)
Record t : Type := mk {
  id : string;
  resourceType : string;
  resourceId : string;
  linkType : string;
  isPublic : bool;
  password : option string;
  expiresAt : option Z;
  maxUses : option Z;
  currentUses : Z;
  createdBy : string;
  isActive : bool
}.

Definition set_currentUses (n : Z) (l : t) : t :=
  mk (id l) (resourceType l) (resourceId l) (linkType l) (isPublic l)
     (password l) (expiresAt l) (maxUses l) n (createdBy l) (isActive l).

(** [serializeForDynamoDB] on a link object: strings are trimmed, and an
    attribute that is [null] or blank is dropped (reads back as empty). *)
Definition serialize (l : t) : t :=
  mk (Js.trim (id l)) (Js.trim (resourceType l)) (Js.trim (resourceId l))
     (Js.trim (linkType l)) (isPublic l) (File.trim_opt (password l))
     (expiresAt l) (maxUses l) (currentUses l) (Js.trim (createdBy l))
     (isActive l).

End ShareableLink.

Module Links.

(** The [SHAREABLE_LINKS] partition: the items under their keys [LINK#id]. *)
Definition Store : Type := list (string * ShareableLink.t).

Definition lookup (store : Store) (key : string) : option ShareableLink.t :=
  match find (fun kv => (fst kv =? key)%string) store with
  | Some kv => Some (snd kv)
  | None => None
  end.

(** The request body of link creation, after the route's conversions. *)
Record LinkData : Type := mkLinkData {
  resourceType : string;
  resourceId : string;
  linkType : string;
  isPublic : bool;
  password : option string;
  expiresAt : option Z;
  maxUses : option Z;
  createdBy : string;
  isActive : option bool
}.

Definition invalidId (s : string) : bool :=
  (negb (Js.truthy s) || (s =? "undefined") || (s =? "null"))%string%bool.

Fixpoint putLink (key : string) (item : ShareableLink.t) (store : Store)
  : Store :=
  match store with
  | [] => [(key, item)]
  | kv :: store' =>
      if (fst kv =? key)%string then (key, item) :: store'
      else kv :: putLink key item store'
  end.

(** [createShareableLink]: the sanitized link it returns and the store after
    the [PutCommand] of its serialized form; [Fail] when a validation throws.
    [linkId] is the generated id. *)
Definition createShareableLink (store : Store) (linkId : string)
    (linkData : LinkData) : Response ShareableLink.t * Store :=
  let sanitizedLink :=
    ShareableLink.mk linkId
      (Js.toLowerCase (Js.or_else (resourceType linkData) "file"))
      (resourceId linkData)
      (Js.toLowerCase (Js.or_else (linkType linkData) "view"))
      (isPublic linkData)
      (match Js.truthy_str (password linkData) with
       | Some p => Some (Js.trim p)
       | None => None
       end)
      (expiresAt linkData)
      (Js.truthy_num (maxUses linkData))
      0
      (Js.trim (Js.or_else (createdBy linkData) "system"))
      (match isActive linkData with Some false => false | _ => true end) in
  if invalidId (ShareableLink.resourceId sanitizedLink)
  then (Fail 500 "Valid resource ID is required", store)
  else if negb ((ShareableLink.resourceType sanitizedLink =? "file")
                || (ShareableLink.resourceType sanitizedLink =? "folder"))%string
  then (Fail 500 "Valid resource type (file or folder) is required", store)
  else (Json sanitizedLink,
        putLink linkId (ShareableLink.serialize sanitizedLink) store).

(** [getShareableLink]: the normalized link, [None] for [null] (no item, or a
    validation of the stored data that throws). *)
Definition getShareableLink (store : Store) (linkId : string)
  : option ShareableLink.t :=
  if invalidId linkId then None
  else
    match lookup store linkId with
    | None => None
    | Some item =>
        let linkData :=
          ShareableLink.mk
            (Js.or_else (ShareableLink.id item) linkId)
            (Js.toLowerCase (Js.or_else (ShareableLink.resourceType item) "file"))
            (ShareableLink.resourceId item)
            (Js.toLowerCase (Js.or_else (ShareableLink.linkType item) "view"))
            (ShareableLink.isPublic item)
            (Js.truthy_str (ShareableLink.password item))
            (ShareableLink.expiresAt item)
            (Js.truthy_num (ShareableLink.maxUses item))
            (ShareableLink.currentUses item)
            (Js.or_else (ShareableLink.createdBy item) "system")
            (ShareableLink.isActive item) in
        if (negb (Js.truthy (ShareableLink.id linkData))
            || (ShareableLink.id linkData =? "undefined")%string)%bool then None
        else if (negb (Js.truthy (ShareableLink.resourceId linkData))
                 || (ShareableLink.resourceId linkData =? "undefined")%string)%bool
        then None
        else Some linkData
    end.

(** [updateShareableLink(linkId, { currentUses })]: the [UpdateCommand] sets
    the counter of the item under the key (and its [updatedAt], which these
    records do not carry).  The routes call it for a link they have just
    read, so the item is there; the store is left alone when the id is
    refused. *)
Definition updateCurrentUses (store : Store) (linkId : string) (n : Z) : Store :=
  if invalidId linkId then store
  else map (fun kv => if (fst kv =? linkId)%string
                      then (fst kv, ShareableLink.set_currentUses n (snd kv))
                      else kv) store.

(** [link.expiresAt && new Date(link.expiresAt) < new Date()] *)
Definition expired (now : Z) (link : ShareableLink.t) : bool :=
  match ShareableLink.expiresAt link with
  | Some t => t <? now
  | None => false
  end.

(** [link.maxUses && link.currentUses >= link.maxUses] *)
Definition exhausted (link : ShareableLink.t) : bool :=
  match ShareableLink.maxUses link with
  | Some 0 => false
  | Some m => m <=? ShareableLink.currentUses link
  | None => false
  end.

(** [link.password && password !== link.password]; a supplied value that is
    not a string is [None] and equals no password. *)
Definition passwordMismatch (supplied : option string) (link : ShareableLink.t)
  : bool :=
  match ShareableLink.password link with
  | Some p =>
      if Js.truthy p
      then match supplied with
           | Some s => negb (s =? p)%string
           | None => true
           end
      else false
  | None => false
  end.

Record Resolved : Type := mkResolved {
  r_id : string;
  r_resourceType : string;
  r_resourceId : string;
  r_linkType : string;
  r_isPublic : bool;
  r_expiresAt : option Z;
  r_maxUses : option Z;
  r_currentUses : Z
}.

(** [GET /api/shared-link/:linkId] *)
Definition sharedLinkApi (store : Store) (now : Z) (linkId : string)
    (password : option string) : Response Resolved * Store :=
  if (negb (Js.truthy linkId) || (linkId =? "undefined")%string)%bool
  then (Fail 400 "Invalid link ID", store)
  else
    match getShareableLink store linkId with
    | None => (Fail 404 "Link not found or inactive", store)
    | Some link =>
        if negb (ShareableLink.isActive link)
        then (Fail 404 "Link not found or inactive", store)
        else if expired now link then (Fail 410 "Link has expired", store)
        else if exhausted link
        then (Fail 410 "Link usage limit exceeded", store)
        else if passwordMismatch password link
        then (Fail 401 "Password required", store)
        else
          (Json (mkResolved (ShareableLink.id link)
                   (ShareableLink.resourceType link)
                   (ShareableLink.resourceId link)
                   (ShareableLink.linkType link)
                   (ShareableLink.isPublic link)
                   (ShareableLink.expiresAt link)
                   (ShareableLink.maxUses link)
                   (ShareableLink.currentUses link + 1)),
           updateCurrentUses store linkId (ShareableLink.currentUses link + 1))
    end.

(** What the browser route sends on success. *)
Inductive Page : Type :=
| Redirect (url : string)
| SharedView (resourceTypeName : string).

(** [GET /s/:linkId] *)
Definition sharedLinkBrowser (store : Store) (now : Z) (linkId : string)
  : Response Page * Store :=
  if (negb (Js.truthy linkId) || (linkId =? "undefined")%string)%bool
  then (Fail 400 "Invalid link ID", store)
  else
    match getShareableLink store linkId with
    | None => (Fail 404 "Link not found or inactive", store)
    | Some link =>
        if negb (ShareableLink.isActive link)
        then (Fail 404 "Link not found or inactive", store)
        else if expired now link then (Fail 410 "Link has expired", store)
        else if exhausted link
        then (Fail 410 "Link usage limit exceeded", store)
        else
          let store' :=
            updateCurrentUses store linkId (ShareableLink.currentUses link + 1) in
          if ((ShareableLink.linkType link =? "download")
              && (ShareableLink.resourceType link =? "file"))%string%bool
          then (Json (Redirect ("/api/files/" ++ ShareableLink.resourceId link
                                ++ "/download")), store')
          else (Json (SharedView
                        (if (ShareableLink.resourceType link =? "file")%string
                         then "File" else "Folder")), store')
    end.

End Links.

(** ** Lineages *)

Module Lineage.

Import AwsStorage.

(** The three context tests of [getFilesByOriginalName], as one predicate on
    the arguments the version manager passes. *)
Definition scopeMatches (projectId taskId : option Z)
    (parentFolderId : option string) (f : File.t) : bool :=
  (match projectId with
   | Some p => number_matches (File.projectId f) p
   | None => true
   end
   && match taskId with
      | Some k => number_matches (File.taskId f) k
      | None => true
      end
   && match parentFolderId with
      | Some d => (Js.String_ (File.parentFolderId f) =? d)%string
      | None => true
      end)%bool.

(** The records the version manager resolves for an upload, whatever their
    lifecycle status. *)
Definition resolvedFor (table : list File.t) (d : NewFileData.t) : list File.t :=
  filter (fun f =>
            (File.originalName f =? NewFileData.originalName d)%string
            && scopeMatches (Js.truthy_num (NewFileData.projectId d))
                 (Js.truthy_num (NewFileData.taskId d))
                 (Js.truthy_str (NewFileData.parentFolderId d)) f)%bool
         table.

(** The set [handleFileVersioning] counts: the resolved records that are not
    soft-deleted. *)
Definition countedFor (table : list File.t) (d : NewFileData.t) : list File.t :=
  filter not_deleted (resolvedFor table d).

Definition option_eqb {A : Type} (eqb : A -> A -> bool) (a b : option A) : bool :=
  match a, b with
  | Some x, Some y => eqb x y
  | None, None => true
  | _, _ => false
  end.

(** In the words of the specification: a lineage is the set of records that
    share one original filename within one (project, task, folder) scope. *)
Definition sameScope (p k : option Z) (d : option string) (f : File.t) : bool :=
  (option_eqb Z.eqb p (File.projectId f)
   && option_eqb Z.eqb k (File.taskId f)
   && option_eqb String.eqb d (File.parentFolderId f))%bool.

Definition sameLineage (a b : File.t) : bool :=
  ((File.originalName a =? File.originalName b)%string
   && sameScope (File.projectId a) (File.taskId a) (File.parentFolderId a) b)%bool.

(** An active record: lifecycle status [active], the default of a record
    that carries no status. *)
Definition isActive (f : File.t) : bool :=
  match File.deletionStatus f with
  | None | Some active => true
  | Some _ => false
  end.

(** The active members of the lineage an upload goes into, in the words of
    the specification. *)
Definition activeMembersFor (table : list File.t) (d : NewFileData.t)
  : list File.t :=
  filter (fun f =>
            (File.originalName f =? NewFileData.originalName d)%string
            && sameScope (Js.truthy_num (NewFileData.projectId d))
                 (Js.truthy_num (NewFileData.taskId d))
                 (Js.truthy_str (NewFileData.parentFolderId d)) f
            && isActive f)%bool
         table.

(** The active members of the lineage of a key, in the words of the
    specification. *)
Definition activeMembersOf (table : list File.t) (originalName : string)
    (p k : option Z) (d : option string) : list File.t :=
  filter (fun f =>
            (File.originalName f =? originalName)%string
            && sameScope p k d f && isActive f)%bool
         table.

(** The store compares a scope component only when the request names it.
    [covers wanted attr]: the record carries no component that the request
    leaves out. *)
Definition covers {A : Type} (wanted attr : option A) : bool :=
  match wanted, attr with
  | None, Some _ => false
  | _, _ => true
  end.

(** A record that a resolution by name and named components reads as the
    specification does: it is not purged, and it carries no project, task or
    folder that the request leaves out. *)
Definition plain (p k : option Z) (d : option string) (f : File.t) : Prop :=
  isActive f = true
  /\ covers p (File.projectId f) = true
  /\ covers k (File.taskId f) = true
  /\ covers d (File.parentFolderId f) = true.


(** The same for a lineage key given to [getFileVersions]: the project and
    the task of the key are not 0, its folder is neither empty nor the word
    ['null'], and every record with the filename of the key that is not
    soft-deleted is plain for the key. *)
Definition keyResolvesLineage (table : list File.t) (originalName : string)
    (p k : option Z) (d : option string) : Prop :=
  p <> Some 0 /\ k <> Some 0 /\ d <> Some "" /\ d <> Some "null"
  /\ forall f, In f table ->
       File.originalName f = originalName ->
       is_deleted (File.deletionStatus f) = false ->
       plain p k d f.

(** How many records of a table are soft-deleted. *)
Definition deletedCount (table : list File.t) : nat :=
  List.length (filter (fun f => is_deleted (File.deletionStatus f)) table).

(** The lineage key [getFileVersions] is called with, as one predicate on the
    objects it builds. *)
Definition keyMatches (projectId taskId : option Z)
    (parentFolderId : option string) (f : File.t) : bool :=
  (match projectId with
   | Some p => number_or_zero_matches (File.projectId f) p
   | None => true
   end
   && match taskId with
      | Some k => number_or_zero_matches (File.taskId f) k
      | None => true
      end
   && match parentFolderId with
      | Some d => folder_matches (File.parentFolderId f) d
      | None => true
      end)%bool.

(** The descriptor after the first two assignments of
    [handleFileVersioning], which set the defaults. *)
Definition defaulted (d : NewFileData.t) : NewFileData.t :=
  NewFileData.set_version_status
    (Js.or_else (NewFileData.version d) "1.0")
    (Js.or_else (NewFileData.status d) "Current") d.

End Lineage.

(** ** Concrete stores and requests *)

Module Examples.

(** An upload of [name] as the upload route builds it. *)
Definition upload (name : string) (projectId taskId : option Z)
    (folderId : option string) : NewFileData.t :=
  NewFileData.mk name name "1.0" "Current" projectId taskId folderId
    None None false None false.

Definition stored (id : Z) (name version status : string)
    (projectId : option Z) (d : option DeletionStatus) : File.t :=
  File.mk id name name version status projectId None None d
    (match d with Some active | None => None | Some _ => Some 100 end)
    (match d with Some active | None => None | Some _ => Some "u1" end)
    (match d with Some active | None => None | Some _ => Some (plus60days 100) end)
    id id.

(** One active ["plan.pdf"] that belongs to project 5. *)
Definition otherProject : list File.t :=
  [stored 10 "plan.pdf" "1.0" "Current" (Some 5) None].


(** Two soft-deleted versions of ["plan.pdf"] in project 1. *)
Definition trashedContainer : list File.t :=
  [stored 10 "plan.pdf" "1.0" "Superseded" (Some 1) (Some deleted);
   stored 20 "plan.pdf" "2.0" "Current" (Some 1) (Some deleted)].

(** Two active versions of ["plan.pdf"] in project 1. *)
Definition twoVersions : list File.t :=
  [stored 10 "plan.pdf" "1.0" "Superseded" (Some 1) None;
   stored 20 "plan.pdf" "2.0" "Current" (Some 1) None].

(** ["plan.pdf"] uploaded twice into project 1 with the in-memory store,
    which numbers its records and assigns no version. *)
Definition uploadedTwiceInMemory : list File.t :=
  [stored 1 "plan.pdf" "1.0" "Current" (Some 1) None;
   stored 2 "plan.pdf" "1.0" "Current" (Some 1) None].

(** A purged ["plan.pdf"]. *)
Definition purgedFile : list File.t :=
  [stored 7 "plan.pdf" "3.0" "Current" (Some 1) (Some permanently_deleted)].

End Examples.

(** ** Orders on version labels *)

Module VersionOrder.

Import AwsStorage.

(** [a] is listed before [b] rightly: the number its label starts with is at
    least the one of [b]. *)
Definition numericallyAbove (a b : File.t) : Prop :=
  match versionNumber a, versionNumber b with
  | Some va, Some vb => Js.leDouble vb va
  | _, _ => False
  end.

(** The comparator does not ask for [b] before [a]. *)
Definition inOrder (a b : File.t) : Prop := compareVersions a b <> Gt.

Definition hasNumber (f : File.t) : Prop := versionNumber f <> None.

(** Versions "2.0", "10.0" and "1.0" of ["plan.pdf"] in project 1, and a
    soft-deleted "11.0". *)
Definition manyVersions : list File.t :=
  [Examples.stored 10 "plan.pdf" "2.0" "Superseded" (Some 1) None;
   Examples.stored 20 "plan.pdf" "10.0" "Current" (Some 1) None;
   Examples.stored 30 "plan.pdf" "1.0" "Superseded" (Some 1) (Some active);
   Examples.stored 40 "plan.pdf" "11.0" "Superseded" (Some 1) (Some deleted);
   Examples.stored 50 "other.pdf" "3.0" "Current" (Some 1) None].

End VersionOrder.

(** ** More concrete stores *)

Module TrashExamples.

(** ["plan.pdf"] in project 1 and another ["plan.pdf"] in project 2. *)
Definition twoProjects : list File.t :=
  [Examples.stored 10 "plan.pdf" "1.0" "Current" (Some 1) None;
   Examples.stored 30 "plan.pdf" "1.0" "Current" (Some 2) None].

(** A soft-deleted file whose display name became a hash. *)
Definition corrupted : File.t :=
  File.mk 42 "0123456789abcdef0123456789abcdef" "site-plan.dwg" "1.0" "Current"
    (Some 1) None None (Some deleted) (Some 100) (Some "u1")
    (Some (plus60days 100)) 42 100.

End TrashExamples.

(** ** A folder and its content in the raw table *)

Module FolderExamples.

Definition plansFolder : Item.t :=
  Item.mk "ROOT_FOLDERS" "FOLDER#f1" "Folder" (Some "Plans") None
    None None None None.

(** A file of the folder [f1]. *)
Definition fileInPlans : Item.t :=
  Item.of_file
    (File.mk 7 "a.pdf" "a.pdf" "1.0" "Current" None None (Some "f1")
       None None None None 7 7).

Definition rawTable : list Item.t := [plansFolder; fileInPlans].

End FolderExamples.

(** ** Rules of link resolution, in the words of the specification *)

Module LinkRules.

Import Links.

(** The permission tier and the kind of resource of a stored link: the
    stored words in lower case, [view] and [file] when there is none. *)
Definition tier (item : ShareableLink.t) : string :=
  Js.toLowerCase (Js.or_else (ShareableLink.linkType item) "view").

Definition resourceKind (item : ShareableLink.t) : string :=
  Js.toLowerCase (Js.or_else (ShareableLink.resourceType item) "file").

(** The stored link cannot be read: it carries no resource reference, or the
    word ['undefined'] in its place or as its id. *)
Definition unreadable (item : ShareableLink.t) : Prop :=
  ShareableLink.resourceId item = ""
  \/ ShareableLink.resourceId item = "undefined"
  \/ ShareableLink.id item = "undefined".

(** Two records of a link agree on every attribute a route reads, but for
    the counter. *)
Definition sameButCounter (a b : ShareableLink.t) : Prop :=
  ShareableLink.id a = ShareableLink.id b
  /\ ShareableLink.resourceType a = ShareableLink.resourceType b
  /\ ShareableLink.resourceId a = ShareableLink.resourceId b
  /\ ShareableLink.linkType a = ShareableLink.linkType b
  /\ ShareableLink.isPublic a = ShareableLink.isPublic b
  /\ ShareableLink.password a = ShareableLink.password b
  /\ ShareableLink.expiresAt a = ShareableLink.expiresAt b
  /\ ShareableLink.maxUses a = ShareableLink.maxUses b
  /\ ShareableLink.createdBy a = ShareableLink.createdBy b
  /\ ShareableLink.isActive a = ShareableLink.isActive b.

(** Resolution of the stored link must be refused: the link is inactive, or
    cannot be read, or its expiry is set and in the past, or its cap is set
    (not 0) and reached, or it has a password (not empty) and the supplied
    one is not that password. *)
Definition refused (now : Z) (supplied : option string)
    (item : ShareableLink.t) : Prop :=
  ShareableLink.isActive item = false
  \/ unreadable item
  \/ (exists t, ShareableLink.expiresAt item = Some t /\ t < now)
  \/ (exists m, ShareableLink.maxUses item = Some m /\ m <> 0
                /\ m <= ShareableLink.currentUses item)
  \/ (exists p, ShareableLink.password item = Some p /\ p <> ""
                /\ supplied <> Some p).

(** [currentUses <= maxUses] when [maxUses] is set. *)
Definition withinCap (link : ShareableLink.t) : Prop :=
  match ShareableLink.maxUses link with
  | Some m => ShareableLink.currentUses link <= m
  | None => True
  end.

(** One resolution of a link, through either public route. *)
Inductive Access : Type :=
| ViaApi (now : Z) (password : option string)
| ViaBrowser (now : Z).

Definition access (linkId : string) (store : Store) (a : Access) : Store :=
  match a with
  | ViaApi now password => snd (sharedLinkApi store now linkId password)
  | ViaBrowser now => snd (sharedLinkBrowser store now linkId)
  end.

(** Resolutions one after the other. *)
Definition accesses (linkId : string) (store : Store) (l : list Access) : Store :=
  fold_left (access linkId) l store.

Definition request (resourceId : string) (password : option string)
    (expiresAt maxUses : option Z) : LinkData :=
  mkLinkData "file" resourceId "view" true password expiresAt maxUses "u1" None.

(** A stored link with a password. *)
Definition protectedStore : Store :=
  snd (createShareableLink [] "L1" (request "42" (Some "s3cret") None None)).

(** A stored link with [maxUses = 1]. *)
Definition singleUseStore : Store :=
  snd (createShareableLink [] "L1" (request "42" None None (Some 1))).

(** The cap and the range of the counter, as read back from a store. *)
Definition capped (m : Z) (linkId : string) (store : Store) : Prop :=
  forall stored, getShareableLink store linkId = Some stored ->
    ShareableLink.maxUses stored = Some m
    /\ 0 <= ShareableLink.currentUses stored <= m.

End LinkRules.

(** ** Link administration ([AwsStorage.deleteShareableLink] and its route) *)

Module LinkAdmin.

Import Links.

(** [deleteShareableLink]: [None] when the id is refused and the call
    throws; otherwise the store after the [DeleteCommand] on the key. *)
Definition deleteShareableLink (store : Store) (linkId : string)
  : option Store :=
  if invalidId linkId then None
  else Some (filter (fun kv => negb (fst kv =? linkId)%string) store).

(** [DELETE /api/shareable-links/:linkId]: the status code it answers with,
    and the store. *)
Definition processDeleteShareableLink (store : Store) (linkId : string)
  : Z * Store :=
  if (negb (Js.truthy linkId) || (linkId =? "undefined")%string)%bool
  then (400, store)
  else
    match deleteShareableLink store linkId with
    | Some store' => (204, store')
    | None => (500, store)
    end.

(** [GET /api/shareable-links/:linkId], without the [url] it adds. *)
Definition processGetShareableLink (store : Store) (linkId : string)
  : Response ShareableLink.t :=
  if (negb (Js.truthy linkId) || (linkId =? "undefined")%string)%bool
  then Fail 400 "Invalid link ID"
  else
    match getShareableLink store linkId with
    | None => Fail 404 "Shareable link not found"
    | Some link => Json link
    end.

End LinkAdmin.

(** ** Roles and permissions ([server/roleAuth.ts]) *)

Module RoleAuth.

Record RoleConfig : Type := mkRole {
  level : Z;
  permissions : list string
}.

Definition ROLES : list (string * RoleConfig) :=
  [("admin", mkRole 100 ["*"]);
   ("executive", mkRole 90
      ["view_dashboard"; "view_financials"; "view_reports"; "view_projects";
       "view_clients"; "view_tasks"; "view_files"; "download_files";
       "view_analytics"; "view_settings"; "create_projects"; "edit_projects";
       "delete_projects"; "manage_team"; "approve_tasks"; "escalate_issues";
       "delete_files"; "delete_folders"; "view_trash"; "restore_items";
       "permanent_delete"]);
   ("project_manager", mkRole 80
      ["view_dashboard"; "view_projects"; "view_clients"; "view_tasks";
       "view_files"; "upload_files"; "download_files"; "view_analytics";
       "create_projects"; "edit_projects"; "create_tasks"; "edit_tasks";
       "assign_tasks"; "manage_team"; "approve_tasks"; "comment_files";
       "direct_messaging"; "group_conversations"; "escalate_issues"]);
   ("drafter", mkRole 60
      ["view_dashboard"; "view_projects"; "view_tasks"; "view_files";
       "upload_files"; "download_files"; "access_file_history";
       "mark_task_complete"; "comment_files"; "direct_messaging";
       "group_conversations"; "receive_notifications"]);
   ("qc1", mkRole 50
      ["view_dashboard"; "view_projects"; "view_tasks"; "view_files";
       "upload_files"; "download_files"; "access_file_history";
       "mark_task_complete"; "submit_qc_review"; "comment_files";
       "direct_messaging"; "group_conversations"; "escalate_issues"]);
   ("qc2", mkRole 45
      ["view_dashboard"; "view_projects"; "view_tasks"; "view_files";
       "upload_files"; "download_files"; "access_file_history";
       "mark_task_complete"; "submit_qc_review"; "comment_files";
       "direct_messaging"; "group_conversations"; "escalate_issues"]);
   ("client", mkRole 20
      ["view_dashboard"; "view_projects"; "view_tasks"; "view_files";
       "download_files"; "comment_files"; "direct_messaging";
       "receive_notifications"])].

(** The property names every object literal inherits from
    [Object.prototype]: for them [ROLES[userRole]] is a truthy value that
    has neither [permissions] nor [level]. *)
Definition inherited : list string :=
  ["constructor"; "__proto__"; "hasOwnProperty"; "isPrototypeOf";
   "propertyIsEnumerable"; "toLocaleString"; "toString"; "valueOf";
   "__defineGetter__"; "__defineSetter__"; "__lookupGetter__";
   "__lookupSetter__"].

(** [ROLES[userRole]] on an own key. *)
Definition ownConfig (userRole : string) : option RoleConfig :=
  match find (fun r => (fst r =? userRole)%string) ROLES with
  | Some r => Some (snd r)
  | None => None
  end.

(** [list.includes(s)] *)
Definition includes (l : list string) (s : string) : bool :=
  existsb (fun x => (x =? s)%string) l.

(** [hasPermission]; [None] when the call throws (the role names an
    inherited property, and [permissions.includes] is read off
    [undefined]). *)
Definition hasPermission (userRole permission : string) : option bool :=
  match ownConfig userRole with
  | Some roleConfig =>
      Some (includes (permissions roleConfig) "*"
            || includes (permissions roleConfig) permission)%bool
  | None => if includes inherited userRole then None else Some false
  end.

(** [getUserPermissions] *)
Definition getUserPermissions (userRole : string) : list string :=
  match ownConfig userRole with
  | Some roleConfig => permissions roleConfig
  | None => []
  end.

(** What a middleware does: it calls [next()], or answers with a status. *)
Inductive Gate : Type :=
| Next
| Deny (code : Z) (error : string).

(** [req.session?.userRole || 'client'] *)
Definition sessionRole (userRole : option string) : string :=
  Js.or_else (match userRole with Some r => r | None => "" end) "client".

(** [requirePermission(requiredPermissions)] on the role of the session. *)
Definition requirePermission (required : list string)
    (userRole : option string) : Gate :=
  let userRole := sessionRole userRole in
  match ownConfig userRole with
  | None =>
      if includes inherited userRole
      then Deny 500 "Authorization system error"
      else Deny 403 "Invalid user role"
  | Some roleConfig =>
      if includes (permissions roleConfig) "*" then Next
      else if forallb (includes (permissions roleConfig)) required then Next
      else Deny 403 "Insufficient permissions"
  end.

(** [ROLES[role]?.level || 0] *)
Definition levelOf (role : string) : Z :=
  match ownConfig role with
  | Some roleConfig => level roleConfig
  | None => 0
  end.

(** [requireRole(requiredRoles)] on the role of the session. *)
Definition requireRole (roles : list string) (userRole : option string)
  : Gate :=
  let userRole := sessionRole userRole in
  if includes roles userRole then Next
  else
    let userLevel := levelOf userRole in
    if existsb (fun role => levelOf role <=? userLevel) roles then Next
    else Deny 403 "Insufficient permissions".

(** [req.user], as the trash middleware reads it. *)
Record User : Type := mkUser {
  id : string;
  role : option string
}.

(** [requireTrashPermission(permission)] of [server/trash.ts]. *)
Definition requireTrashPermission (permission : string) (user : option User)
  : Gate :=
  match user with
  | None => Deny 401 "Authentication required"
  | Some u =>
      let userRole :=
        Js.or_else (match role u with Some r => r | None => "" end) "client" in
      match hasPermission userRole permission with
      | None => Deny 500 "Permission check failed"
      | Some true => Next
      | Some false =>
          Deny 403 ("Access denied. Required permission: " ++ permission)
      end
  end.

(** The permissions the trash routes ask for. *)
Definition trashPermissions : list string :=
  ["delete_files"; "delete_folders"; "view_trash"; "restore_items";
   "permanent_delete"].

End RoleAuth.

(** ** The trash listing ([getTrashItems]) *)

Module TrashListing.

Import AwsStorage.

(** An entry of [safeFiles]. *)
Record TrashItem : Type := mkTrashItem {
  id : string;
  name : string;
  originalName : string;
  version : string;
  deletionStatus : string;
  deletedAt : Z;
  deletedBy : string;
  scheduledDeletionAt : Z;
  createdAt : Z
}.

(** The comparator [(a, b) => dateB - dateA], by its sign. *)
Definition byDateDesc {A : Type} (date : A -> Z) (a b : A) : comparison :=
  Z.compare (date b) (date a).

(** [new Date(a.deletedAt || 0).getTime()] *)
Definition deletedAtOrEpoch (f : File.t) : Z :=
  match File.deletedAt f with
  | Some t => t
  | None => 0
  end.

(** [String(file.deletionStatus || 'deleted')] *)
Definition statusName (d : option DeletionStatus) : string :=
  match d with
  | Some active => "active"
  | Some permanently_deleted => "permanently_deleted"
  | Some deleted | None => "deleted"
  end.

(** The object built for a file in the second [map]; an absent date is
    replaced by the instant of the request. *)
Definition safeFile (now : Z) (f : File.t) : TrashItem :=
  mkTrashItem
    (if File.id f =? 0 then "" else Js.string_of_Z (File.id f))
    (File.name f)
    (Js.or_else (File.originalName f) (File.name f))
    (Js.or_else (File.version f) "1.0")
    (statusName (File.deletionStatus f))
    (match File.deletedAt f with Some t => t | None => now end)
    (match File.deletedBy f with Some s => s | None => "" end)
    (match File.scheduledDeletionAt f with Some t => t | None => now end)
    (File.createdAt f).

Record Listing : Type := mkListing {
  items : list TrashItem;
  totalFiles : nat;
  totalFolders : nat
}.

(** [getTrashItems].  Both stores give the handler the soft-deleted files of
    the table (the cloud branch by a query with the filter
    [deletionStatus = 'deleted'], the fallback by filtering [getFiles()]);
    the conversions of the cloud branch leave the attributes kept here as
    they are. *)
Definition getTrashItems (table : list File.t) (now : Z) : Listing :=
  let deletedFiles :=
    sortBy (byDateDesc deletedAtOrEpoch)
      (filter (fun f => is_deleted (File.deletionStatus f)) table) in
  let safeFiles :=
    filter (fun item => (Js.truthy (id item)
                         && negb (id item =? "undefined")%string)%bool)
      (map (safeFile now) deletedFiles) in
  let trashItems := sortBy (byDateDesc deletedAt) safeFiles in
  mkListing trashItems (List.length safeFiles) 0.

End TrashListing.

(** ** The file listing ([AwsStorage.getFiles]) *)

Module FileListing.

Import AwsStorage.

(** [file.originalName || file.name] *)
Definition containerKey (f : File.t) : string :=
  Js.or_else (File.originalName f) (File.name f).

(** The task test: [file.taskId] must be there and equal. *)
Definition taskIs (attr : option Z) (taskId : Z) : bool :=
  match attr with
  | Some t => t =? taskId
  | None => false
  end.

(** The folder test; [null] and the string ['null'] (both ["null"] here) ask
    for the files without a parent folder. *)
Definition folderIs (attr : option string) (folderId : string) : bool :=
  if (folderId =? "null")%string
  then match attr with None => true | Some _ => false end
  else match attr with Some s => (s =? folderId)%string | None => false end.

(** One turn of the loop over [allFiles] on the map [latestFiles], kept in
    insertion order.  The map key is the container key followed by a suffix
    that is the same for every file of one call, so two keys are equal
    exactly when the container keys are. *)
Fixpoint upsert (file : File.t) (latestFiles : list (string * File.t))
  : list (string * File.t) :=
  match latestFiles with
  | [] => [(containerKey file, file)]
  | (key, existing) :: rest =>
      if (key =? containerKey file)%string
      then (key,
            if File.createdAt existing <? File.createdAt file
            then File.set_name (containerKey file) file
            else existing) :: rest
      else (key, existing) :: upsert file rest
  end.

(** [getFiles], on the items of the partition it queries: [FILES], or
    [PROJECT#projectId] when a project id is given. *)
Definition getFiles (partition : list File.t) (taskId : option Z)
    (folderId : option string) : list File.t :=
  let allFiles :=
    match Js.truthy_num taskId with
    | Some k => filter (fun f => taskIs (File.taskId f) k) partition
    | None => partition
    end in
  let allFiles := filter not_deleted allFiles in
  let allFiles :=
    match folderId with
    | Some d => filter (fun f => folderIs (File.parentFolderId f) d) allFiles
    | None => allFiles
    end in
  map snd (fold_left (fun latestFiles file => upsert file latestFiles)
             allFiles []).

(** The files [getFiles] groups: those that pass its three filters. *)
Definition listed (taskId : option Z) (folderId : option string)
    (f : File.t) : bool :=
  (match Js.truthy_num taskId with
   | Some k => taskIs (File.taskId f) k
   | None => true
   end
   && not_deleted f
   && match folderId with
      | Some d => folderIs (File.parentFolderId f) d
      | None => true
      end)%bool.

End FileListing.

(** ** The two version-history routes of [server/routes.ts] *)

Module VersionRoutes.

Import AwsStorage.

(** [String(file.originalName || file.name)], the name
    [getFilesByOriginalName] scans for: a file with neither name passes
    [undefined], which the store prints as ['undefined']. *)
Definition scanName (file : File.t) : string :=
  Js.String_
    (Js.truthy_str (Some (Js.or_else (File.originalName file) (File.name file)))).

(** [GET /api/files/:fileId/versions]: the versions found by
    [getFilesByOriginalName] in the context of the stored file, sorted with
    the comparator of the route (the one of [getFileVersions]). *)
Definition fileVersions (table : list File.t) (fileId : Z)
  : Response (list File.t) :=
  match getFile table fileId with
  | None => Fail 404 "File not found"
  | Some file =>
      let versions :=
        getFilesByOriginalName table (scanName file)
          (File.projectId file) (File.taskId file)
          (File.parentFolderId file) in
      Json (sortBy compareVersions versions)
  end.

(** An entry of [safeVersions]. *)
Record VersionEntry : Type := mkVersionEntry {
  id : string;
  fileId : string;
  version : string;
  isBackup : bool;
  name : string;
  originalName : string
}.

(** [String(v.status).toLowerCase() === 'superseded'] *)
Definition isSuperseded (v : File.t) : bool :=
  (Js.toLowerCase (File.status v) =? "superseded")%string.

Definition safeVersion (fileId : Z) (v : File.t) : VersionEntry :=
  mkVersionEntry
    (if File.id v =? 0 then "" else Js.string_of_Z (File.id v))
    (Js.string_of_Z fileId)
    (Js.or_else (File.version v) "1.0")
    (isSuperseded v)
    (File.name v)
    (Js.or_else (File.originalName v) (File.name v)).

(** [GET /api/file-versions/:fileId], for a [:fileId] that is a number in
    decimal notation, so that [String(fileId)] prints it back. *)
Definition fileVersionHistory (table : list File.t) (fileId : Z)
  : Response (list VersionEntry) :=
  match getFile table fileId with
  | None => Fail 404 "File not found"
  | Some currentFile =>
      let originalName :=
        Js.or_else (File.originalName currentFile) (File.name currentFile) in
      let allVersions :=
        getFileVersions table originalName (File.projectId currentFile)
          (File.taskId currentFile) (File.parentFolderId currentFile) in
      let previousVersions :=
        filter (fun v => (negb (File.id v =? fileId) && isSuperseded v)%bool)
          allVersions in
      Json (map (safeVersion fileId) previousVersions)
  end.

End VersionRoutes.

(** ** The fallback store ([MemStorage], file part) *)

Module MemFiles.

Import AwsStorage.

(** The map [files], in insertion order, and the counter [nextId] from
    which every [create] method of the class draws its id. *)
Record t : Type := mk {
  files : list File.t;
  nextId : Z
}.

Definition getFile (s : t) (id : Z) : option File.t :=
  AwsStorage.getFile (files s) id.

(** [createFile]: the file gets the next id; no version is computed and no
    parent folder is kept. *)
Definition createFile (s : t) (now : Z) (file : NewFileData.t) : File.t * t :=
  let id := nextId s in
  let newFile :=
    File.mk id (NewFileData.name file) (NewFileData.originalName file)
      (Js.or_else (NewFileData.version file) "1.0")
      (Js.or_else (NewFileData.status file) "draft")
      (NewFileData.projectId file) (NewFileData.taskId file)
      None None None None None now now in
  (newFile, mk (putFile newFile (files s)) (id + 1)).

(** [updateFile]; [None] when it throws. *)
Definition updateFile (s : t) (now id : Z) (updates : File.t -> File.t)
  : option (File.t * t) :=
  match MemStorage.updateFile (files s) now id updates with
  | Some (updated, files') => Some (updated, mk files' (nextId s))
  | None => None
  end.

(** [deleteFile] *)
Definition deleteFile (s : t) (id : Z) : t :=
  mk (filter (fun f => negb (File.id f =? id)) (files s)) (nextId s).

(** [getFiles(projectId?, taskId?)] *)
Definition getFiles (s : t) (projectId taskId : option Z) : list File.t :=
  filter (fun file =>
            (match Js.truthy_num projectId with
             | Some p => number_matches (File.projectId file) p
             | None => true
             end
             && match taskId with
                | Some k => number_matches (File.taskId file) k
                | None => true
                end)%bool) (files s).

(** A call on the store: one of the three writes on files, or a [create] of
    another kind of record, which draws an id too. *)
Inductive Op : Type :=
| Create (now : Z) (file : NewFileData.t)
| Update (now id : Z) (updates : File.t -> File.t)
| Delete (id : Z)
| CreateOther.

Definition step (s : t) (o : Op) : t :=
  match o with
  | Create now file => snd (createFile s now file)
  | Update now id updates =>
      match updateFile s now id updates with
      | Some (_, s') => s'
      | None => s
      end
  | Delete id => deleteFile s id
  | CreateOther => mk (files s) (nextId s + 1)
  end.

Definition run (s : t) (ops : list Op) : t := fold_left step ops s.

(** An update object has no [id] field. *)
Definition keepsId (o : Op) : Prop :=
  match o with
  | Update _ _ updates => forall f, File.id (updates f) = File.id f
  | _ => True
  end.

(** No two files share an id, and every id in use was drawn already. *)
Definition wellFormed (s : t) : Prop :=
  NoDup (map File.id (files s))
  /\ forall f, In f (files s) -> File.id f < nextId s.

End MemFiles.

(** ** [PATCH /api/files/:id/move] *)

Module MoveRoute.

Import AwsStorage.

(** The update object [{ parentFolderId: targetFolderId || null }]. *)
Definition intoFolder (targetFolderId : option string) (f : File.t) : File.t :=
  File.mk (File.id f) (File.name f) (File.originalName f) (File.version f)
    (File.status f) (File.projectId f) (File.taskId f)
    (Js.truthy_str targetFolderId)
    (File.deletionStatus f) (File.deletedAt f) (File.deletedBy f)
    (File.scheduledDeletionAt f) (File.createdAt f) (File.updatedAt f).

(** The route, through the store in use; [fileId] is [None] when [:id] is
    not a number.  [updateFile] throws for a file it does not find, so the
    branch that answers 404 is never taken. *)
Definition moveFile (storageType : StorageType) (table : list File.t)
    (now : Z) (fileId : option Z) (targetFolderId : option string)
  : Response File.t * list File.t :=
  match fileId with
  | None => (Fail 400 "Invalid file ID format", table)
  | Some numericFileId =>
      match Trash.storageUpdateFile storageType table now numericFileId
              (intoFolder targetFolderId) with
      | Some (updatedFile, table') => (Json updatedFile, table')
      | None => (Fail 500 "Failed to move file", table)
      end
  end.

End MoveRoute.

(** ** The two stores together, and the requests that write file records *)

Module Engine.

(** The file table of the store the factory hands out, the id counter of the
    fallback store, and the rows of the relation [files] of the database. *)
Record State : Type := mk {
  storage : list File.t;
  nextId : Z;
  db : Trash.Db
}.

(** A request that reaches a handler which writes file records.  An upload
    comes with the failures of its background callback and the instant at
    which that callback runs. *)
Inductive Request : Type :=
| Upload (d : NewFileData.t) (fails : Z -> bool) (later : Z)
| MoveFile (fileId : option Z) (targetFolderId : option string)
| SoftDelete (fileId : option Z) (userId : string)
| RestoreFile (fileId : option Z)
| RestoreFolder (folderId : string)
| PermanentDelete (fileId : Trash.IdParam)
| Sweep.

(** The state after a request served at the instant [now]. *)
Definition step (storageType : StorageType) (s : State) (served : Z * Request)
  : State :=
  let now := fst served in
  match snd served with
  | Upload d fails later =>
      match storageType with
      | aws =>
          let r := AwsStorage.createFile (storage s) now d in
          mk (AwsStorage.supersedeInBackground fails later (snd (fst r)) (snd r))
             (nextId s) (db s)
      | memory =>
          let m :=
            snd (MemFiles.createFile (MemFiles.mk (storage s) (nextId s)) now d) in
          mk (MemFiles.files m) (MemFiles.nextId m) (db s)
      end
  | MoveFile fileId targetFolderId =>
      mk (snd (MoveRoute.moveFile storageType (storage s) now fileId
                 targetFolderId))
         (nextId s) (db s)
  | SoftDelete fileId userId =>
      mk (snd (Trash.moveFileToTrash storageType (storage s) now fileId userId))
         (nextId s) (db s)
  | RestoreFile fileId =>
      mk (snd (Trash.restoreFile storageType (storage s) now fileId))
         (nextId s) (db s)
  | RestoreFolder folderId =>
      mk (storage s) (nextId s) (snd (Trash.restoreFolder (db s) now folderId))
  | PermanentDelete fileId =>
      mk (storage s) (nextId s)
         (snd (Trash.permanentlyDeleteFile (db s) now fileId))
  | Sweep =>
      mk (storage s) (nextId s) (snd (Trash.cleanupExpiredItems (db s) now))
  end.

Definition run (storageType : StorageType) (s : State)
    (requests : list (Z * Request)) : State :=
  fold_left (step storageType) requests s.

Definition purged (f : File.t) : Prop :=
  File.deletionStatus f = Some permanently_deleted.

(** No record of the table is purged. *)
Definition noPurged (table : list File.t) : Prop :=
  forall f, In f table -> ~ purged f.

(** Row by row: the row is still there, under its id, and a purged one is
    still purged. *)
Definition purgedStay (before after : Trash.Db) : Prop :=
  Forall2 (fun row row' => File.id row' = File.id row
                           /\ (purged row -> purged row')) before after.

(** The sweep may purge the row: it is soft-deleted and its deadline is
    strictly before the instant. *)
Definition due (now : Z) (row : File.t) : Prop :=
  File.deletionStatus row = Some deleted
  /\ exists t, File.scheduledDeletionAt row = Some t /\ t < now.

(** A database with a soft-deleted row past its deadline, one whose deadline
    is to come, and a purged row; and requests served one after the other. *)
Definition rows : Trash.Db :=
  [Examples.stored 1 "a.pdf" "1.0" "Current" None (Some deleted);
   File.mk 2 "b.pdf" "b.pdf" "1.0" "Current" None None None (Some deleted)
     (Some 9000000000) (Some "u1") (Some (plus60days 9000000000)) 2 2;
   Examples.stored 3 "c.pdf" "1.0" "Current" None (Some permanently_deleted)].

Definition requests : list (Z * Request) :=
  [(6000000000, SoftDelete (Some 20) "u9");
   (6000000001, Sweep);
   (6000000002, RestoreFile (Some 20));
   (6000000003, PermanentDelete (Trash.Integer 2));
   (6000000004, Upload (Examples.upload "plan.pdf" (Some 1) None None)
                  (fun _ => false) 6000000005);
   (6000000006, Sweep)].

End Engine.

(** * Properties *)

(** ** Lists and strings *)

Section ListFacts.

Context {A : Type}.

Lemma filter_and (p q : A -> bool) (l : list A) :
  filter q (filter p l) = filter (fun x => (p x && q x)%bool) l.
Proof.
  induction l as [|a l IH]; simpl; [reflexivity|].
  destruct (p a); simpl; [destruct (q a)|]; rewrite IH; reflexivity.
Qed.

Lemma filter_nil_iff (p : A -> bool) (l : list A) :
  filter p l = [] <-> forall x, In x l -> p x = false.
Proof.
  induction l as [|a l IH]; simpl.
  - split; [intros _ x []|reflexivity].
  - destruct (p a) eqn:Ea; split.
    + discriminate.
    + intros H. rewrite (H a) in Ea by (left; reflexivity). discriminate.
    + intros H x [<-|Hx]; [assumption|]. now apply IH.
    + intros H. apply IH. intros x Hx. apply H. now right.
Qed.

Lemma find_map_keyed (key : A -> bool) (g : A -> A) (l : list A) :
  (forall x, key (g x) = key x) ->
  find key (map g l) = option_map g (find key l).
Proof.
  intros Hk. induction l as [|a l IH]; simpl; [reflexivity|].
  rewrite Hk. destruct (key a); [reflexivity|exact IH].
Qed.

End ListFacts.

Lemma filter_map_comm {A B : Type} (p : B -> bool) (f : A -> B) (l : list A) :
  filter p (map f l) = map f (filter (fun x => p (f x)) l).
Proof.
  induction l as [|a l IH]; simpl; [reflexivity|].
  destruct (p (f a)); simpl; now rewrite IH.
Qed.


Module JsFacts.

Import Js.

Lemma truthy_or_else (a b : string) :
  truthy a = true -> or_else a b = a.
Proof.
  unfold truthy, or_else. destruct (a =? "")%string; [discriminate|reflexivity].
Qed.

Lemma truthy_key (a b : string) :
  truthy a = true -> truthy (or_else a b) = true.
Proof. intros H. now rewrite (truthy_or_else a b H). Qed.

Lemma reverse_involutive (s : string) : reverse (reverse s) = s.
Proof.
  unfold reverse.
  rewrite list_ascii_of_string_of_list_ascii, rev_involutive.
  apply string_of_list_ascii_of_string.
Qed.




(** The sign of a difference of doubles is the order of the doubles. *)
Lemma compareDouble_le (x y : double) :
  compareDouble x y <> Gt <-> leDouble x y.
Proof.
  destruct x as [a|[]], y as [b|[]]; simpl.
  - symmetry. apply Qle_alt.
  - split; [intros H; now apply H|intros []].
  - split; [intros _; exact I|discriminate].
  - split; [intros _; exact I|discriminate].
  - split; [intros _; exact I|discriminate].
  - split; [intros _; exact I|discriminate].
  - split; [intros H; now apply H|intros []].
  - split; [intros H; now apply H|intros []].
  - split; [intros _; exact I|discriminate].
Qed.

Lemma compareDouble_antisym (x y : double) :
  compareDouble y x = CompOpp (compareDouble x y).
Proof.
  destruct x as [a|[]], y as [b|[]]; simpl; try reflexivity.
  symmetry. apply Qcompare_antisym.
Qed.

Lemma leDouble_trans (x y z : double) :
  leDouble x y -> leDouble y z -> leDouble x z.
Proof.
  destruct x as [a|[]], y as [b|[]], z as [c|[]]; simpl; auto;
    try contradiction.
  apply Qle_trans.
Qed.

End JsFacts.

(** ** The version manager *)

Module VersionFacts.

Import AwsStorage.

(** The lookup of the version manager is one filter over the table. *)
Lemma getFilesByOriginalName_filter table originalName p k d :
  getFilesByOriginalName table originalName p k d =
  filter (fun f => ((File.originalName f =? originalName)%string
                    && Lineage.scopeMatches p k d f && not_deleted f)%bool) table.
Proof.
  unfold getFilesByOriginalName, scanByOriginalName, Lineage.scopeMatches.
  destruct p, k, d; rewrite ?filter_and; apply filter_ext; intros f;
    destruct ((File.originalName f =? originalName)%string); simpl;
    rewrite ?andb_true_r; try reflexivity;
    repeat match goal with
           | |- context [number_matches ?a ?b] => destruct (number_matches a b); simpl
           | |- context [(?a =? ?b)%string] => destruct (a =? b)%string; simpl
           | |- context [not_deleted ?a] => destruct (not_deleted a); simpl
           end; reflexivity.
Qed.

Lemma counted_is_lookup table d :
  filter not_deleted
    (getFilesByOriginalName table (NewFileData.originalName d)
       (Js.truthy_num (NewFileData.projectId d))
       (Js.truthy_num (NewFileData.taskId d))
       (Js.truthy_str (NewFileData.parentFolderId d)))
  = Lineage.countedFor table d.
Proof.
  rewrite getFilesByOriginalName_filter.
  unfold Lineage.countedFor, Lineage.resolvedFor.
  rewrite !filter_and. apply filter_ext. intros f.
  destruct (not_deleted f); rewrite ?andb_true_r, ?andb_false_r; reflexivity.
Qed.

Lemma handleFileVersioning_cases table now d :
  Js.truthy (NewFileData.originalName d) = true ->
  handleFileVersioning table now d =
  match Lineage.countedFor table d with
  | [] => (NewFileData.fresh now (Lineage.defaulted d), [])
  | _ :: _ =>
      (NewFileData.set_version_status
         (Js.string_of_nat (List.length (Lineage.countedFor table d) + 1) ++ ".0")
         "Current" (Lineage.defaulted d),
       map File.id (Lineage.countedFor table d))
  end.
Proof.
  intros Hn. unfold handleFileVersioning. fold (Lineage.defaulted d).
  change (NewFileData.originalName (Lineage.defaulted d)) with (NewFileData.originalName d).
  change (NewFileData.projectId (Lineage.defaulted d)) with (NewFileData.projectId d).
  change (NewFileData.taskId (Lineage.defaulted d)) with (NewFileData.taskId d).
  change (NewFileData.parentFolderId (Lineage.defaulted d)) with (NewFileData.parentFolderId d).
  rewrite Hn. simpl negb. cbv iota. rewrite counted_is_lookup.
  destruct (Lineage.countedFor table d); reflexivity.
Qed.

End VersionFacts.

(** ** The lineage the store resolves and the lineage of the specification *)

Module LineageFacts.

Import AwsStorage.




Lemma not_deleted_active f :
  is_deleted (File.deletionStatus f) = true -> Lineage.isActive f = false.
Proof.
  unfold Lineage.isActive. destruct (File.deletionStatus f) as [[]|];
    try discriminate; reflexivity.
Qed.


Lemma key_number_test (wanted attr : option Z) :
  wanted <> Some 0 ->
  Lineage.covers wanted attr = true ->
  match wanted with
  | Some p => number_or_zero_matches (Js.truthy_num attr) p
  | None => true
  end = Lineage.option_eqb Z.eqb wanted attr.
Proof.
  unfold Lineage.covers, Lineage.option_eqb, number_or_zero_matches,
    Js.truthy_num.
  destruct wanted as [p|], attr as [n|]; try reflexivity; try discriminate.
  - intros Hp _. destruct n; apply Z.eqb_sym.
  - intros Hp _. apply Z.eqb_neq. congruence.
Qed.

Lemma key_folder_test (wanted attr : option string) :
  wanted <> Some "" -> wanted <> Some "null" ->
  Lineage.covers wanted attr = true ->
  match wanted with
  | Some d => folder_matches (Js.truthy_str attr) d
  | None => true
  end = Lineage.option_eqb String.eqb wanted attr.
Proof.
  unfold Lineage.covers, Lineage.option_eqb, folder_matches, Js.truthy_str,
    Js.truthy.
  destruct wanted as [d|], attr as [s|]; try reflexivity; try discriminate.
  - intros He Hn _.
    assert (E : (d =? "null")%string = false)
      by (apply String.eqb_neq; congruence).
    rewrite E.
    destruct (String.eqb_spec s "") as [->|Hs]; cbn [negb];
      apply String.eqb_sym.
  - intros He Hn _.
    assert (E : (d =? "null")%string = false)
      by (apply String.eqb_neq; congruence).
    rewrite E. apply String.eqb_neq. congruence.
Qed.

Lemma keyMatches_sameScope p k d f :
  p <> Some 0 -> k <> Some 0 -> d <> Some "" -> d <> Some "null" ->
  Lineage.plain p k d f ->
  Lineage.keyMatches p k d (versionView f) = Lineage.sameScope p k d f.
Proof.
  intros Hp Hk He Hn (_ & Cp & Ck & Cd).
  unfold Lineage.keyMatches, Lineage.sameScope.
  cbn [versionView File.projectId File.taskId File.parentFolderId].
  now rewrite (key_number_test p _ Hp Cp), (key_number_test k _ Hk Ck),
    (key_folder_test d _ He Hn Cd).
Qed.

End LineageFacts.

Module VersionManager.

Import AwsStorage.

(** The version and the status [createFile] stores are those the version
    manager assigned, when it assigned a label ["N.0"] or ["1.0"]. *)
Lemma createFile_fresh table now d :
  Js.truthy (NewFileData.originalName d) = true ->
  Lineage.countedFor table d = [] ->
  createFile table now d =
  (File.serialize
     (File.mk now (NewFileData.name d)
        (Js.or_else (NewFileData.originalName d) (NewFileData.name d))
        "1.0" "Current"
        (Js.truthy_num (NewFileData.projectId d))
        (Js.truthy_num (NewFileData.taskId d))
        (Js.truthy_str (NewFileData.parentFolderId d))
        None None None None now now),
   putFile
     (File.serialize
        (File.mk now (NewFileData.name d)
           (Js.or_else (NewFileData.originalName d) (NewFileData.name d))
           "1.0" "Current"
           (Js.truthy_num (NewFileData.projectId d))
           (Js.truthy_num (NewFileData.taskId d))
           (Js.truthy_str (NewFileData.parentFolderId d))
           None None None None now now)) table,
   []).
Proof.
  intros Hn He. unfold createFile.
  rewrite (VersionFacts.handleFileVersioning_cases _ _ _ Hn), He.
  reflexivity.
Qed.

(** C1, as amended.  Fresh-container rule: an upload that carries an original
    filename, into a lineage in which every record the version manager
    resolves (same original filename, and the project, task and folder the
    upload supplies) is soft-deleted, is stored with version "1.0" and status
    Current, whatever the number and the labels of those soft-deleted
    versions; the descriptor is marked generation 1 with an empty version
    history, and no background work is scheduled. *)
Theorem fresh_container_rule (table : list File.t) (now : Z) (d : NewFileData.t) :
  Js.truthy (NewFileData.originalName d) = true ->
  (forall f, In f (Lineage.resolvedFor table d) ->
             File.deletionStatus f = Some deleted) ->
  let r := createFile table now d in
  let d' := fst (handleFileVersioning table now d) in
  File.version (fst (fst r)) = "1.0"
  /\ File.status (fst (fst r)) = "Current"
  /\ snd r = []
  /\ NewFileData.containerGeneration d' = Some 1
  /\ NewFileData.versionHistory d' = Some [].
Proof.
  intros Hn Hall.
  assert (He : Lineage.countedFor table d = []).
  { unfold Lineage.countedFor. apply filter_nil_iff. intros f Hf.
    unfold not_deleted. rewrite (Hall f Hf). reflexivity. }
  cbv zeta. rewrite (createFile_fresh _ _ _ Hn He).
  rewrite (VersionFacts.handleFileVersioning_cases _ _ _ Hn), He.
  repeat split; reflexivity.
Qed.

Lemma fresh_container_rule_witness :
  let d := Examples.upload "plan.pdf" (Some 1) None None in
  let r := createFile Examples.trashedContainer 1000 d in
  let d' := fst (handleFileVersioning Examples.trashedContainer 1000 d) in
  File.version (fst (fst r)) = "1.0"
  /\ File.status (fst (fst r)) = "Current"
  /\ snd r = []
  /\ NewFileData.containerGeneration d' = Some 1
  /\ NewFileData.versionHistory d' = Some [].
Proof.
  apply (fresh_container_rule Examples.trashedContainer 1000
           (Examples.upload "plan.pdf" (Some 1) None None)).
  - reflexivity.
  - intros f Hf. vm_compute in Hf.
    destruct Hf as [<-|[<-|[]]]; reflexivity.
Defined.

(** C1 as stated fails: an upload that names no project goes, in the words of
    the specification, into the lineage of the records without a project,
    which has no active member here; the version manager applies no project
    test to such an upload, counts the active ["plan.pdf"] of project 5 and
    assigns "2.0". *)
Lemma fresh_container_rule_counts_other_scopes :
  let d := Examples.upload "plan.pdf" None None None in
  Lineage.activeMembersFor Examples.otherProject d = []
  /\ File.version (fst (fst (createFile Examples.otherProject 1000 d))) = "2.0"
  /\ File.version (fst (fst (createFile Examples.otherProject 1000 d))) <> "1.0".
Proof. split; [reflexivity|split; [reflexivity|vm_compute; discriminate]]. Qed.

(** The filter of the version manager tests the status against ['deleted']
    only: a purged record still counts as an existing version. *)
Lemma purged_record_is_counted :
  File.version
    (fst (fst (createFile Examples.purgedFile 1000
                 (Examples.upload "plan.pdf" (Some 1) None None)))) = "2.0".
Proof. reflexivity. Qed.

(** Scenario A and B of the specification, run on the model. *)
Example scenario_upload_twice :
  let d := Examples.upload "plan.pdf" (Some 1) None None in
  let '(first, t1, _) := createFile [] 1000 d in
  let '(second, t2, background) := createFile t1 2000 d in
  let t3 := supersedeInBackground (fun _ => false) 2001 t2 background in
  File.version first = "1.0" /\ File.version second = "2.0"
  /\ map File.status t3 = ["Superseded"; "Current"]
  /\ map File.version (getFileVersions t3 "plan.pdf" (Some 1) None None)
     = ["2.0"; "1.0"].
Proof. vm_compute. repeat split; reflexivity. Qed.

End VersionManager.

(** ** Sorting and the version listing *)

Section Sorting.

Context {A : Type}.
Variable cmp : A -> A -> comparison.

Lemma insertSorted_perm (a : A) (l : list A) :
  Permutation (AwsStorage.insertSorted cmp a l) (a :: l).
Proof.
  induction l as [|b l IH]; simpl; [reflexivity|].
  destruct (cmp a b); try reflexivity.
  rewrite IH. apply perm_swap.
Qed.

Lemma sortBy_perm (l : list A) : Permutation (AwsStorage.sortBy cmp l) l.
Proof.
  induction l as [|a l IH]; simpl; [reflexivity|].
  rewrite insertSorted_perm. now constructor.
Qed.

(** The comparator never wants both [a] after [b] and [b] after [a]. *)
Hypothesis cmp_asym : forall a b, cmp a b = Gt -> cmp b a <> Gt.

(** On elements for which the comparator is transitive, every earlier
    element is in order with every later one. *)
Variable good : A -> Prop.
Hypothesis cmp_trans : forall a b c, good a -> good b -> good c ->
  cmp a b <> Gt -> cmp b c <> Gt -> cmp a c <> Gt.

Lemma insertSorted_strongly (a : A) (l : list A) :
  good a -> Forall good l ->
  StronglySorted (fun x y => cmp x y <> Gt) l ->
  StronglySorted (fun x y => cmp x y <> Gt) (AwsStorage.insertSorted cmp a l).
Proof.
  intros Ha. induction l as [|b l IH]; simpl; intros Hg Hs.
  - repeat constructor.
  - inversion Hg as [|? ? Hb Hl]; subst.
    inversion Hs as [|? ? Hs' Hall]; subst.
    assert (Hle : cmp a b <> Gt -> Forall (fun y => cmp a y <> Gt) (b :: l)).
    { intros Hab. constructor; [assumption|].
      rewrite Forall_forall in *. intros y Hy.
      apply (cmp_trans a b y); auto. }
    destruct (cmp a b) eqn:Eab.
    + constructor; [assumption|]. apply Hle. discriminate.
    + constructor; [assumption|]. apply Hle. discriminate.
    + constructor; [now apply IH|].
      apply (Permutation_Forall (x := a :: l)).
      * symmetry. apply insertSorted_perm.
      * constructor; [now apply cmp_asym|assumption].
Qed.

Lemma sortBy_strongly (l : list A) :
  Forall good l ->
  StronglySorted (fun x y => cmp x y <> Gt) (AwsStorage.sortBy cmp l).
Proof.
  induction l as [|a l IH]; simpl; intros Hg; [constructor|].
  inversion Hg; subst. apply insertSorted_strongly; auto.
  apply (Permutation_Forall (x := l)); [symmetry; apply sortBy_perm|assumption].
Qed.

End Sorting.

Module VersionListing.

Import AwsStorage.

Lemma compareVersions_asym (a b : File.t) :
  compareVersions a b = Gt -> compareVersions b a <> Gt.
Proof.
  unfold compareVersions.
  destruct (versionNumber a) as [va|], (versionNumber b) as [vb|];
    try discriminate.
  intros H. rewrite JsFacts.compareDouble_antisym, H. discriminate.
Qed.

Lemma inOrder_above (a b : File.t) :
  VersionOrder.hasNumber a -> VersionOrder.hasNumber b ->
  (VersionOrder.inOrder a b <-> VersionOrder.numericallyAbove a b).
Proof.
  unfold VersionOrder.hasNumber, VersionOrder.inOrder,
    VersionOrder.numericallyAbove, compareVersions.
  destruct (versionNumber a) as [va|], (versionNumber b) as [vb|];
    try congruence.
  intros _ _. apply JsFacts.compareDouble_le.
Qed.

Lemma compareVersions_trans (a b c : File.t) :
  VersionOrder.hasNumber a -> VersionOrder.hasNumber b ->
  VersionOrder.hasNumber c ->
  compareVersions a b <> Gt -> compareVersions b c <> Gt ->
  compareVersions a c <> Gt.
Proof.
  intros Ha Hb Hc Hab Hbc.
  apply (inOrder_above a c Ha Hc).
  apply (inOrder_above a b Ha Hb) in Hab.
  apply (inOrder_above b c Hb Hc) in Hbc.
  unfold VersionOrder.numericallyAbove in *.
  destruct (versionNumber a), (versionNumber b), (versionNumber c);
    try contradiction.
  eapply JsFacts.leDouble_trans; eassumption.
Qed.

Lemma strongly_above (l : list File.t) :
  Forall VersionOrder.hasNumber l ->
  StronglySorted VersionOrder.inOrder l ->
  StronglySorted VersionOrder.numericallyAbove l.
Proof.
  induction l as [|a l IH]; intros Hg Hs; [constructor|].
  inversion Hg; subst. inversion Hs as [|? ? Hs' Hall]; subst.
  constructor; [now apply IH|].
  rewrite Forall_forall in *. intros y Hy.
  apply inOrder_above; auto.
Qed.

(** What [getFileVersions] sorts: the objects built from the scanned items,
    filtered by one predicate. *)
Lemma getFileVersions_filter table originalName p k d :
  Js.truthy (Js.trim originalName) = true ->
  getFileVersions table originalName p k d =
  sortBy compareVersions
    (filter (fun f => (not_deleted f && Lineage.keyMatches p k d f)%bool)
       (map versionView (scanByOriginalName table (Js.trim originalName)))).
Proof.
  intros Hn. unfold getFileVersions. rewrite Hn. simpl negb. cbv iota.
  f_equal. unfold Lineage.keyMatches.
  destruct p, k, d; rewrite ?filter_and; apply filter_ext; intros f;
    destruct (not_deleted f); simpl;
    rewrite ?andb_true_r, ?andb_assoc; reflexivity.
Qed.

(** C9, as amended.  List-versions contract, for a lineage key with a
    filename, on a table on which [getFileVersions] resolves the lineage of
    the key (the project and the task of the key are not 0, its folder is
    neither empty nor ['null'], and no record of that filename that is not
    soft-deleted is purged or carries a project, task or folder that the key
    leaves out).  The result lists exactly the active members of the
    lineage, each once, as the object built from the record, whatever the
    version status (Current and Superseded alike); no soft-deleted record is
    listed; and when every listed label starts with a number, the result is
    in descending order of these numbers, read as doubles and compared as
    numbers, not as strings. *)
Theorem list_versions_contract (table : list File.t) (originalName : string)
    (p k : option Z) (d : option string) :
  Js.truthy (Js.trim originalName) = true ->
  Lineage.keyResolvesLineage table (Js.trim originalName) p k d ->
  let result := getFileVersions table originalName p k d in
  let members := Lineage.activeMembersOf table (Js.trim originalName) p k d in
  Permutation result (map versionView members)
  /\ Forall (fun v => File.deletionStatus v <> Some deleted) result
  /\ (Forall VersionOrder.hasNumber result ->
      StronglySorted VersionOrder.numericallyAbove result).
Proof.
  intros Hn (Hp & Hk & He & Hnull & Hall). cbv zeta.
  rewrite (getFileVersions_filter _ _ _ _ _ Hn).
  set (listed := filter _ _).
  assert (Hlisted : listed
                    = map versionView
                        (Lineage.activeMembersOf table (Js.trim originalName)
                           p k d)).
  { unfold listed, scanByOriginalName, Lineage.activeMembersOf.
    rewrite filter_map_comm, filter_and. f_equal.
    apply filter_ext_in. intros f Hf.
    destruct (String.eqb_spec (File.originalName f) (Js.trim originalName))
      as [En|En]; [|reflexivity].
    cbn [andb].
    change (not_deleted (versionView f)) with (not_deleted f).
    unfold not_deleted.
    destruct (is_deleted (File.deletionStatus f)) eqn:Edel.
    - rewrite (LineageFacts.not_deleted_active f Edel).
      now rewrite andb_false_r.
    - pose proof (Hall f Hf En Edel) as Hplain.
      rewrite (LineageFacts.keyMatches_sameScope p k d f Hp Hk He Hnull Hplain).
      destruct Hplain as (Ha & _). rewrite Ha.
      cbn [negb andb]. now rewrite andb_true_r. }
  assert (Hperm : Permutation (sortBy compareVersions listed) listed)
    by apply sortBy_perm.
  split; [now rewrite <- Hlisted|]. split.
  - apply (Permutation_Forall (x := listed)); [now symmetry|].
    apply Forall_forall. intros v Hv. unfold listed in Hv.
    apply filter_In in Hv. destruct Hv as [_ Hv].
    apply andb_prop in Hv. destruct Hv as [Hv _].
    unfold not_deleted in Hv. intros E. rewrite E in Hv. discriminate.
  - intros Hg. apply strongly_above; [exact Hg|].
    apply (sortBy_strongly compareVersions compareVersions_asym
             VersionOrder.hasNumber compareVersions_trans).
    apply (Permutation_Forall (x := sortBy compareVersions listed));
      [exact Hperm|exact Hg].
Qed.

(** The labels "10.0", "2.0" and "1.0" come out in this order, the
    soft-deleted "11.0" does not come out. *)
Lemma list_versions_contract_witness :
  (let result :=
     getFileVersions VersionOrder.manyVersions "plan.pdf" (Some 1) None None in
   let members :=
     Lineage.activeMembersOf VersionOrder.manyVersions (Js.trim "plan.pdf")
       (Some 1) None None in
   Permutation result (map versionView members)
   /\ Forall (fun v => File.deletionStatus v <> Some deleted) result
   /\ (Forall VersionOrder.hasNumber result ->
       StronglySorted VersionOrder.numericallyAbove result))
  /\ map File.version
       (getFileVersions VersionOrder.manyVersions "plan.pdf" (Some 1) None None)
     = ["10.0"; "2.0"; "1.0"]
  /\ map File.id
       (Lineage.activeMembersOf VersionOrder.manyVersions "plan.pdf"
          (Some 1) None None)
     = [10; 20; 30].
Proof.
  split.
  - apply (list_versions_contract VersionOrder.manyVersions "plan.pdf"
             (Some 1) None None).
    + reflexivity.
    + repeat (split; [discriminate|]).
      intros f [<-|[<-|[<-|[<-|[<-|[]]]]]] _ Hd; try discriminate Hd;
        repeat split.
  - split; reflexivity.
Defined.

(** C9 as stated fails: a key that names no project designates, in the words
    of the specification, the lineage of the records without a project, which
    has no member here; [getFileVersions] applies no project test for such a
    key and lists the ["plan.pdf"] of project 5. *)
Lemma list_versions_lists_other_scopes :
  Lineage.activeMembersOf Examples.otherProject "plan.pdf" None None None = []
  /\ map File.id
       (getFileVersions Examples.otherProject "plan.pdf" None None None)
     = [10]
  /\ map File.projectId
       (getFileVersions Examples.otherProject "plan.pdf" None None None)
     = [Some 5].
Proof. repeat split; reflexivity. Qed.

(** Labels that differ beyond the precision of a double are equal numbers
    for the comparator and stay in scan order. *)
Remark labels_beyond_double_precision_tie :
  map File.version
    (getFileVersions
       [Examples.stored 1 "plan.pdf" "1.0" "Superseded" None None;
        Examples.stored 2 "plan.pdf" "1.00000000000000001" "Current" None None]
       "plan.pdf" None None None)
  = ["1.0"; "1.00000000000000001"].
Proof. reflexivity. Qed.

End VersionListing.

(** ** The trash handlers *)

Module StoreFacts.

Import AwsStorage.

Lemma getFile_id table id f : getFile table id = Some f -> File.id f = id.
Proof.
  unfold getFile. intros H. apply find_some in H. destruct H as [_ H].
  now apply Z.eqb_eq.
Qed.

Lemma getFile_putFile item : forall table f,
  getFile table (File.id item) = Some f ->
  getFile (putFile item table) (File.id item) = Some item.
Proof.
  unfold getFile. induction table as [|g table IH]; simpl; intros f H.
  - discriminate.
  - destruct (File.id g =? File.id item) eqn:E; simpl.
    + now rewrite Z.eqb_refl.
    + rewrite E. now apply (IH f).
Qed.

Lemma putFile_length item : forall table f,
  getFile table (File.id item) = Some f ->
  List.length (putFile item table) = List.length table.
Proof.
  unfold getFile. induction table as [|g table IH]; simpl; intros f H.
  - discriminate.
  - destruct (File.id g =? File.id item) eqn:E; simpl; [reflexivity|].
    f_equal. now apply (IH f).
Qed.

End StoreFacts.

Module Restore.

Import AwsStorage Trash.

Lemma hex32_truthy (s : string) : Js.is_hex32 s = true -> Js.truthy s = true.
Proof. destruct s; [discriminate|reflexivity]. Qed.

Lemma includes_truthy (s sub : string) :
  Js.truthy sub = true -> Js.includes s sub = true -> Js.truthy s = true.
Proof. destruct s; [destruct sub; discriminate|reflexivity]. Qed.

(** The display name after the repair step. *)
Lemma restoreUpdate_name file now :
  Js.is_hex32 (File.name file) = true ->
  Js.includes (File.originalName file) "." = true ->
  File.name (restoreUpdate file now file) = File.originalName file.
Proof.
  intros Hh Hi. unfold restoreUpdate, needsNameRepair.
  rewrite Hh, Hi, (hex32_truthy _ Hh), (includes_truthy _ "." eq_refl Hi).
  destruct (File.name file =? File.originalName file)%string eqn:E; simpl.
  - now apply String.eqb_eq.
  - reflexivity.
Qed.

Lemma restoreUpdate_lifecycle file now :
  File.deletionStatus (restoreUpdate file now file) = Some active
  /\ File.deletedAt (restoreUpdate file now file) = None
  /\ File.deletedBy (restoreUpdate file now file) = None
  /\ File.scheduledDeletionAt (restoreUpdate file now file) = None
  /\ File.originalName (restoreUpdate file now file) = File.originalName file
  /\ File.version (restoreUpdate file now file) = File.version file.
Proof.
  unfold restoreUpdate. destruct (needsNameRepair file); repeat split.
Qed.

(** C7.  Restore contract: restoring a stored file whose lifecycle status is
    not deleted fails with an error and leaves the table as it was; restoring
    one whose status is deleted answers with, and stores under the same key, a
    record whose status is active and whose deleted-at, deleted-by and
    scheduled-purge attributes are cleared; and when the display name is a
    32-character hexadecimal hash while the original filename is a proper
    filename (it has a dot), the display name of the restored record is the
    original filename.  (The cloud store refuses ids that are not positive;
    the ids it generates are.) *)
Theorem restore_contract (storageType : StorageType) (table : list File.t)
    (now fileIdNum : Z) (file : File.t) :
  getFile table fileIdNum = Some file ->
  (storageType = aws -> 0 < fileIdNum) ->
  (File.deletionStatus file <> Some deleted ->
   restoreFile storageType table now (Some fileIdNum)
   = (Fail 400 "File is not in trash", table))
  /\ (File.deletionStatus file = Some deleted ->
      exists restoredFile stored table',
        restoreFile storageType table now (Some fileIdNum)
        = (Json restoredFile, table')
        /\ getFile table' fileIdNum = Some stored
        /\ List.length table' = List.length table
        /\ File.deletionStatus restoredFile = Some active
        /\ File.deletedAt restoredFile = None
        /\ File.deletedBy restoredFile = None
        /\ File.scheduledDeletionAt restoredFile = None
        /\ File.deletionStatus stored = Some active
        /\ File.deletedAt stored = None
        /\ File.deletedBy stored = None
        /\ File.scheduledDeletionAt stored = None
        /\ (Js.is_hex32 (File.name file) = true ->
            Js.includes (File.originalName file) "." = true ->
            File.name restoredFile = File.originalName file
            /\ File.name stored
               = match storageType with
                 | aws => Js.trim (File.originalName file)
                 | memory => File.originalName file
                 end)).
Proof.
  intros Hget Hpos. unfold restoreFile. rewrite Hget.
  pose proof (StoreFacts.getFile_id _ _ _ Hget) as Hid.
  split.
  - intros Hnd.
    destruct (File.deletionStatus file) as [[]|]; try reflexivity.
    exfalso. apply Hnd. reflexivity.
  - intros Hd. rewrite Hd. simpl negb. cbv iota.
    destruct (restoreUpdate_lifecycle file now) as (L1 & L2 & L3 & L4 & _).
    destruct storageType; unfold storageUpdateFile.
    + unfold AwsStorage.updateFile.
      assert (E : (fileIdNum <=? 0) = false) by (apply Z.leb_gt; auto).
      rewrite E, Hget.
      eexists. eexists. eexists. split; [reflexivity|].
      split.
      { set (stored := File.serialize _).
        change fileIdNum with (File.id stored) at 1.
        apply (StoreFacts.getFile_putFile stored table file).
        exact Hget. }
      split.
      { set (stored := File.serialize _).
        apply (StoreFacts.putFile_length stored table file). exact Hget. }
      cbn [File.serialize File.deletionStatus File.deletedAt File.deletedBy
           File.scheduledDeletionAt File.name File.trim_opt].
      rewrite L1, L2, L3, L4. repeat split; try reflexivity.
      * now apply restoreUpdate_name.
      * f_equal. now apply restoreUpdate_name.
    + unfold MemStorage.updateFile. rewrite Hget.
      assert (Hid' : File.id (restoreUpdate file now file) = fileIdNum).
      { unfold restoreUpdate. destruct (needsNameRepair file); exact Hid. }
      eexists. eexists. eexists. split; [reflexivity|].
      split.
      { set (stored := File.mk _ _ _ _ _ _ _ _ _ _ _ _ _ _).
        assert (Hs : File.id stored = fileIdNum) by exact Hid'.
        rewrite <- Hs.
        apply (StoreFacts.getFile_putFile stored table file).
        rewrite Hs. exact Hget. }
      split.
      { set (stored := File.mk _ _ _ _ _ _ _ _ _ _ _ _ _ _).
        assert (Hs : File.id stored = fileIdNum) by exact Hid'.
        apply (StoreFacts.putFile_length stored table file).
        rewrite Hs. exact Hget. }
      cbn [File.deletionStatus File.deletedAt File.deletedBy
           File.scheduledDeletionAt File.name].
      rewrite L1, L2, L3, L4. repeat split; try reflexivity;
        now apply restoreUpdate_name.
Qed.

End Restore.

Module RestoreScenario.

Import AwsStorage Trash.

(** Scenario D of the specification. *)
Lemma restore_contract_witness :
  (File.deletionStatus TrashExamples.corrupted = Some deleted ->
   exists restoredFile stored table',
     restoreFile aws [TrashExamples.corrupted] 9000 (Some 42)
     = (Json restoredFile, table')
     /\ getFile table' 42 = Some stored
     /\ List.length table' = List.length [TrashExamples.corrupted]
     /\ File.deletionStatus restoredFile = Some active
     /\ File.deletedAt restoredFile = None
     /\ File.deletedBy restoredFile = None
     /\ File.scheduledDeletionAt restoredFile = None
     /\ File.deletionStatus stored = Some active
     /\ File.deletedAt stored = None
     /\ File.deletedBy stored = None
     /\ File.scheduledDeletionAt stored = None
     /\ (Js.is_hex32 (File.name TrashExamples.corrupted) = true ->
         Js.includes (File.originalName TrashExamples.corrupted) "." = true ->
         File.name restoredFile = File.originalName TrashExamples.corrupted
         /\ File.name stored
            = Js.trim (File.originalName TrashExamples.corrupted)))
  /\ option_map File.name
       (getFile (snd (restoreFile aws [TrashExamples.corrupted] 9000 (Some 42))) 42)
     = Some "site-plan.dwg".
Proof.
  split.
  - apply (Restore.restore_contract aws [TrashExamples.corrupted] 9000 42
             TrashExamples.corrupted).
    + reflexivity.
    + intros _. lia.
  - reflexivity.
Defined.

End RestoreScenario.

Module SoftDelete.

Import AwsStorage Trash.

(** The loop of [UpdateCommand]s stamps the records whose key is the key of a
    container file, and no other. *)
Lemma stamp_loop now userId (actives : list File.t) : forall table,
  fold_left (updateItem (trashStamp now userId)) actives table =
  map (fun f => if existsb (fun cf => File.id f =? File.id cf) actives
                then trashStamp now userId f else f) table.
Proof.
  induction actives as [|cf actives IH]; intros table; simpl.
  - symmetry. apply map_id.
  - rewrite IH. unfold updateItem. rewrite map_map. apply map_ext. intros f.
    destruct (File.id f =? File.id cf) eqn:E; simpl.
    + destruct (existsb _ actives); reflexivity.
    + reflexivity.
Qed.

Lemma unique_key (table : list File.t) (a b : File.t) :
  NoDup (map File.id table) -> In a table -> In b table ->
  File.id a = File.id b -> a = b.
Proof.
  induction table as [|c table IH]; simpl; intros Hnd Ha Hb E; [contradiction|].
  inversion Hnd as [|? ? Hnot Hnd']; subst.
  destruct Ha as [<-|Ha], Hb as [<-|Hb]; auto.
  - exfalso. apply Hnot. rewrite E. now apply in_map.
  - exfalso. apply Hnot. rewrite <- E. now apply in_map.
Qed.

Lemma getFile_unique (table : list File.t) (g : File.t) :
  NoDup (map File.id table) -> In g table -> getFile table (File.id g) = Some g.
Proof.
  intros Hnd Hg. unfold getFile.
  destruct (find (fun f => File.id f =? File.id g) table) as [f|] eqn:E.
  - apply find_some in E. destruct E as [Hf E]. apply Z.eqb_eq in E.
    f_equal. now apply (unique_key table).
  - apply (find_none _ _ E) in Hg. rewrite Z.eqb_refl in Hg. discriminate.
Qed.

Lemma getFile_map (F : File.t -> File.t) (table : list File.t) (i : Z) :
  (forall f, File.id (F f) = File.id f) ->
  getFile (map F table) i = option_map F (getFile table i).
Proof.
  intros HF. unfold getFile. apply find_map_keyed.
  intros f. now rewrite HF.
Qed.

(** The records the cloud branch stamps. *)
Lemma moveFileToTrash_aws table now fileIdNum userId file :
  getFile table fileIdNum = Some file ->
  Js.truthy (Js.or_else (File.originalName file) (File.name file)) = true ->
  NoDup (map File.id table) ->
  let key := Js.or_else (File.originalName file) (File.name file) in
  let selected f := ((File.originalName f =? key)%string && not_deleted f)%bool in
  moveFileToTrash aws table now (Some fileIdNum) userId =
  (Json (mkTrashedFile (trashStamp now userId file)
           (List.length (filter selected table)) (plus60days now)),
   map (fun f => if selected f then trashStamp now userId f else f) table).
Proof.
  intros Hget Hkey Hnd. cbv zeta. unfold moveFileToTrash. rewrite Hget, Hkey.
  cbn [negb]. unfold scanByOriginalName. rewrite filter_and, stamp_loop.
  f_equal. apply map_ext_in. intros f Hf.
  set (selected := fun x : File.t => (_ && _)%bool).
  change ((File.originalName f
           =? Js.or_else (File.originalName file) (File.name file))%string
          && not_deleted f)%bool with (selected f).
  destruct (selected f) eqn:Es.
  - assert (Hex : existsb (fun cf => File.id f =? File.id cf)
                    (filter selected table) = true).
    { apply existsb_exists. exists f. split; [|apply Z.eqb_refl].
      apply filter_In. now split. }
    now rewrite Hex.
  - destruct (existsb _ _) eqn:Hex; [|reflexivity].
    apply existsb_exists in Hex. destruct Hex as (cf & Hcf & E).
    apply filter_In in Hcf. destruct Hcf as [Hcf Hsel].
    apply Z.eqb_eq in E.
    rewrite (unique_key table f cf Hnd Hf Hcf E) in Es. congruence.
Qed.

Lemma deletedCount_map (sel : File.t -> bool) (stamp : File.t -> File.t)
    (table : list File.t) :
  (forall f, sel f = true -> is_deleted (File.deletionStatus f) = false) ->
  (forall f, is_deleted (File.deletionStatus (stamp f)) = true) ->
  Lineage.deletedCount (map (fun f => if sel f then stamp f else f) table)
  = (Lineage.deletedCount table + List.length (filter sel table))%nat.
Proof.
  intros Hsel Hst. unfold Lineage.deletedCount.
  induction table as [|f table IH]; simpl; [reflexivity|].
  destruct (sel f) eqn:Es; simpl.
  - rewrite Hst, (Hsel f Es). simpl. rewrite IH. lia.
  - destruct (is_deleted (File.deletionStatus f)); simpl; rewrite IH; lia.
Qed.

Lemma getFile_putFile_other item : forall table i,
  i <> File.id item ->
  getFile (putFile item table) i = getFile table i.
Proof.
  unfold getFile. induction table as [|g table IH]; simpl; intros i Hi.
  - destruct (File.id item =? i) eqn:E; [|reflexivity].
    apply Z.eqb_eq in E. congruence.
  - destruct (File.id g =? File.id item) eqn:E; simpl.
    + apply Z.eqb_eq in E.
      destruct (File.id item =? i) eqn:E1, (File.id g =? i) eqn:E2;
        try reflexivity;
        apply Z.eqb_eq in E1 || apply Z.eqb_eq in E2; congruence.
    + destruct (File.id g =? i); [reflexivity|]. now apply IH.
Qed.

End SoftDelete.

Module Container.

Import AwsStorage Trash.

(** C2, as amended.  Soft-deleting one version of a stored file that has an
    original filename, in a table with unique keys.  Through the cloud store:
    every member of the file's lineage that is not already soft-deleted is
    stamped, all of them, with lifecycle status deleted, the deleter's
    identity, the delete instant and one and the same purge deadline, the
    delete instant plus 60 days; a record with another original filename, or
    one already soft-deleted, is left as it was; no record is added or
    removed; and the count answered is the number of records that became
    soft-deleted.  Through the fallback store: the named record alone is
    stamped and the count answered is 1. *)
Theorem container_soft_delete (table : list File.t) (now fileIdNum : Z)
    (userId : string) (file : File.t) :
  getFile table fileIdNum = Some file ->
  Js.truthy (File.originalName file) = true ->
  NoDup (map File.id table) ->
  let stamp := trashStamp now userId in
  let cloud := moveFileToTrash aws table now (Some fileIdNum) userId in
  let fallback := moveFileToTrash memory table now (Some fileIdNum) userId in
  (forall g, In g table -> Lineage.sameLineage file g = true ->
             is_deleted (File.deletionStatus g) = false ->
             getFile (snd cloud) (File.id g) = Some (stamp g))
  /\ (forall g, File.deletionStatus (stamp g) = Some deleted
                /\ File.deletedBy (stamp g) = Some userId
                /\ File.deletedAt (stamp g) = Some now
                /\ File.scheduledDeletionAt (stamp g) = Some (now + 60 * msPerDay))
  /\ (forall g, In g table ->
                File.originalName g <> File.originalName file
                \/ is_deleted (File.deletionStatus g) = true ->
                getFile (snd cloud) (File.id g) = Some g)
  /\ map File.id (snd cloud) = map File.id table
  /\ (exists n,
         fst cloud = Json (mkTrashedFile (stamp file) n (plus60days now))
         /\ Lineage.deletedCount (snd cloud)
            = (Lineage.deletedCount table + n)%nat)
  /\ fst fallback = Json (mkTrashedFile (stamp file) 1 (plus60days now))
  /\ getFile (snd fallback) fileIdNum = Some (stamp file)
  /\ (forall g, In g table -> File.id g <> fileIdNum ->
                getFile (snd fallback) (File.id g) = Some g).
Proof.
  intros Hget Hname Hnd. cbv zeta.
  rewrite (SoftDelete.moveFileToTrash_aws _ now _ userId _ Hget
             (JsFacts.truthy_key _ _ Hname) Hnd).
  cbv zeta. rewrite (JsFacts.truthy_or_else _ (File.name file) Hname).
  cbn [fst snd].
  set (selected := fun f : File.t => (_ && _)%bool).
  set (F := fun f : File.t => if selected f then trashStamp now userId f else f).
  assert (HF : forall f, File.id (F f) = File.id f).
  { intros f. unfold F. destruct (selected f); reflexivity. }
  split; [|split; [|split; [|split; [|split]]]].
  - intros g Hg Hl Hd.
    rewrite (SoftDelete.getFile_map F table _ HF),
      (SoftDelete.getFile_unique table g Hnd Hg). simpl. f_equal.
    unfold F, selected, not_deleted. rewrite Hd.
    unfold Lineage.sameLineage in Hl. apply andb_prop in Hl.
    destruct Hl as [Hl _]. rewrite String.eqb_sym, Hl. reflexivity.
  - intros g. repeat split.
  - intros g Hg Hor.
    rewrite (SoftDelete.getFile_map F table _ HF),
      (SoftDelete.getFile_unique table g Hnd Hg). simpl. f_equal.
    unfold F, selected, not_deleted. destruct Hor as [Hne|Hd].
    + apply String.eqb_neq in Hne. rewrite Hne. reflexivity.
    + rewrite Hd, andb_false_r. reflexivity.
  - rewrite map_map. apply map_ext. exact HF.
  - eexists. split; [reflexivity|].
    apply SoftDelete.deletedCount_map.
    + intros f Hs. unfold selected, not_deleted in Hs.
      apply andb_prop in Hs. destruct Hs as [_ Hs].
      now destruct (is_deleted (File.deletionStatus f)).
    + reflexivity.
  - unfold moveFileToTrash, MemStorage.updateFile. rewrite Hget.
    pose proof (StoreFacts.getFile_id _ _ _ Hget) as Hid.
    set (updated := File.mk _ _ _ _ _ _ _ _ _ _ _ _ _ _).
    assert (Hu : updated = trashStamp now userId file) by reflexivity.
    cbn [fst snd]. rewrite Hu. split; [reflexivity|]. split.
    + rewrite <- Hid at 1.
      change (File.id file) with (File.id (trashStamp now userId file)).
      apply (StoreFacts.getFile_putFile _ table file).
      cbn [trashStamp File.set_lifecycle File.id]. now rewrite Hid.
    + intros g Hg Hne.
      rewrite SoftDelete.getFile_putFile_other.
      * now apply SoftDelete.getFile_unique.
      * cbn [trashStamp File.set_lifecycle File.id]. now rewrite Hid.
Qed.

(** Scenario B of the specification: both versions get the same deadline. *)
Lemma container_soft_delete_witness :
  let table := Examples.twoVersions in
  let file := Examples.stored 20 "plan.pdf" "2.0" "Current" (Some 1) None in
  let stamp := trashStamp 5000 "u9" in
  let cloud := moveFileToTrash aws table 5000 (Some 20) "u9" in
  let fallback := moveFileToTrash memory table 5000 (Some 20) "u9" in
  (forall g, In g table -> Lineage.sameLineage file g = true ->
             is_deleted (File.deletionStatus g) = false ->
             getFile (snd cloud) (File.id g) = Some (stamp g))
  /\ (forall g, File.deletionStatus (stamp g) = Some deleted
                /\ File.deletedBy (stamp g) = Some "u9"
                /\ File.deletedAt (stamp g) = Some 5000
                /\ File.scheduledDeletionAt (stamp g) = Some (5000 + 60 * msPerDay))
  /\ (forall g, In g table ->
                File.originalName g <> File.originalName file
                \/ is_deleted (File.deletionStatus g) = true ->
                getFile (snd cloud) (File.id g) = Some g)
  /\ map File.id (snd cloud) = map File.id table
  /\ (exists n,
         fst cloud = Json (mkTrashedFile (stamp file) n (plus60days 5000))
         /\ Lineage.deletedCount (snd cloud)
            = (Lineage.deletedCount table + n)%nat)
  /\ fst fallback = Json (mkTrashedFile (stamp file) 1 (plus60days 5000))
  /\ getFile (snd fallback) 20 = Some (stamp file)
  /\ (forall g, In g table -> File.id g <> 20 ->
                getFile (snd fallback) (File.id g) = Some g).
Proof.
  apply (container_soft_delete Examples.twoVersions 5000 20 "u9"
           (Examples.stored 20 "plan.pdf" "2.0" "Current" (Some 1) None)).
  - reflexivity.
  - reflexivity.
  - vm_compute. repeat constructor; simpl; intuition discriminate.
Defined.

(** C2 as stated fails: with the fallback store (the one the factory hands out
    unless the cloud store is asked for) the handler stamps the named record
    only; the other active version of the same lineage stays active, and the
    count answered is 1. *)
Lemma fallback_store_stamps_one_version :
  let table := Examples.uploadedTwiceInMemory in
  let r := moveFileToTrash memory table 5000 (Some 2) "u9" in
  exists named sibling,
    getFile table 2 = Some named
    /\ getFile table 1 = Some sibling
    /\ Lineage.sameLineage named sibling = true
    /\ Lineage.isActive sibling = true
    /\ getFile (snd r) 1 = Some sibling
    /\ File.deletionStatus sibling = None
    /\ option_map versionsDeleted
         (match fst r with Json b => Some b | Fail _ _ => None end) = Some 1%nat.
Proof. eexists. eexists. repeat split; reflexivity. Qed.

(** The cloud branch selects the container by original filename alone: the
    ["plan.pdf"] of project 2 is stamped when the one of project 1 is
    soft-deleted. *)
Remark cloud_store_selects_by_name_alone :
  let r := moveFileToTrash aws TrashExamples.twoProjects 5000 (Some 10) "u9" in
  option_map File.deletionStatus (getFile (snd r) 30) = Some (Some deleted)
  /\ option_map File.projectId (getFile (snd r) 30) = Some (Some 2).
Proof. split; reflexivity. Qed.

End Container.

Module FolderDelete.

Import Trash FolderTrash.

Lemma same_key_refl (i : Item.t) : Item.same_key i i = true.
Proof. unfold Item.same_key. now rewrite !String.eqb_refl. Qed.

Lemma same_key_sym (i j : Item.t) : Item.same_key i j = Item.same_key j i.
Proof.
  unfold Item.same_key.
  now rewrite (String.eqb_sym (Item.PK i)), (String.eqb_sym (Item.SK i)).
Qed.

Lemma putItem_In (item : Item.t) (table : list Item.t) :
  In item (putItem item table).
Proof.
  induction table as [|i table IH]; simpl; [now left|].
  destruct (Item.same_key i item); [now left|now right].
Qed.

(** The loop of [DeleteCommand]s removes the items that share a key with a
    scanned item. *)
Lemma delete_loop (scanned : list Item.t) : forall table,
  fold_left deleteItem scanned table =
  filter (fun i => negb (existsb (Item.same_key i) scanned)) table.
Proof.
  induction scanned as [|d scanned IH]; intros table; simpl.
  - induction table as [|i table IHt]; simpl; [reflexivity|now f_equal].
  - rewrite IH. unfold deleteItem. rewrite filter_and.
    apply filter_ext. intros i. now rewrite negb_orb.
Qed.

Lemma putItem_from (item : Item.t) (table : list Item.t) (i : Item.t) :
  In i (putItem item table) -> i = item \/ In i table.
Proof.
  induction table as [|j table IH]; cbn [putItem].
  - intros [<-|[]]. now left.
  - destruct (Item.same_key j item).
    + intros [<-|H]; [now left|right; now right].
    + intros [<-|H]; [right; now left|].
      destruct (IH H) as [->|H']; [now left|right; now right].
Qed.

(** The folder delete adds nothing to the table but its trash entry. *)
Lemma moveFolderToTrash_adds_entry_only (table : list Item.t)
    (listing : list (string * string)) (scanSeesPut : bool)
    (now answeredAt : Z) (folderId userId : string) (i : Item.t) :
  In i (snd (moveFolderToTrash table listing scanSeesPut now answeredAt
               folderId userId)) ->
  i = trashItemFor (folderNameOf listing folderId) folderId userId now
  \/ In i table.
Proof.
  unfold moveFolderToTrash. cbn [snd]. rewrite delete_loop.
  intros H. apply filter_In in H. destruct H as [H _].
  now apply putItem_from.
Qed.

(** C6, as amended.  Soft-deleting a folder.  The handler answers that the
    folder is deleted, with a purge deadline 60 days after the delete instant,
    and writes a trash entry that carries this status, the delete instant
    and this deadline; every named item of the table whose sort key contains
    the folder id, the folder's own record first, is removed from the table;
    the trash entry stays in the table when the scan does not observe it and
    no item was stored under its key. *)
Theorem folder_soft_delete (table : list Item.t)
    (listing : list (string * string)) (scanSeesPut : bool)
    (now answeredAt : Z) (folderId userId : string) :
  let r :=
    moveFolderToTrash table listing scanSeesPut now answeredAt folderId userId in
  let entry :=
    trashItemFor (folderNameOf listing folderId) folderId userId now in
  FolderTrash.deletionStatus (fst r) = deleted
  /\ FolderTrash.scheduledDeletionAt (fst r) = now + 60 * msPerDay
  /\ Item.deletionStatus entry = Some deleted
  /\ Item.deletedAt entry = Some now
  /\ Item.scheduledDeletionAt entry = Some (now + 60 * msPerDay)
  /\ (forall i, In i table -> scanMatches folderId i = true -> ~ In i (snd r))
  /\ (scanSeesPut = false ->
      (forall i, In i table -> Item.same_key i entry = false) ->
      In entry (snd r)).
Proof.
  cbv zeta.
  unfold moveFolderToTrash. cbn [fst snd FolderTrash.deletionStatus
    FolderTrash.scheduledDeletionAt].
  set (entry := trashItemFor _ _ _ _).
  rewrite delete_loop.
  split; [reflexivity|]. split; [reflexivity|].
  split; [reflexivity|]. split; [reflexivity|]. split; [reflexivity|].
  split.
  - intros i Hi Hm Hin. apply filter_In in Hin. destruct Hin as [Hin1 Hno].
    apply negb_true_iff in Hno.
    assert (Hex : existsb (Item.same_key i)
                    (filter (scanMatches folderId)
                       (if scanSeesPut then putItem entry table else table)) = true).
    { apply existsb_exists. exists i. split; [|apply same_key_refl].
      apply filter_In. split; [|assumption].
      destruct scanSeesPut; assumption. }
    congruence.
  - intros -> Hfree. apply filter_In. split; [apply putItem_In|].
    apply negb_true_iff.
    destruct (existsb _ _) eqn:Hex; [|reflexivity].
    apply existsb_exists in Hex. destruct Hex as (d & Hd & Hk).
    apply filter_In in Hd. destruct Hd as [Hd _].
    rewrite same_key_sym, (Hfree d Hd) in Hk. discriminate.
Qed.

End FolderDelete.

Module FolderScenario.

Import Trash FolderTrash.

(** The folder [f1] with a file in it: the trash entry is written and kept,
    the folder's record is gone. *)
Lemma folder_soft_delete_witness :
  (let table := FolderExamples.rawTable in
   let listing := [("f1", "Plans")] in
   let r := moveFolderToTrash table listing false 5000 5040 "f1" "u9" in
   let entry :=
     trashItemFor (folderNameOf listing "f1") "f1" "u9" 5000 in
   FolderTrash.deletionStatus (fst r) = deleted
   /\ FolderTrash.scheduledDeletionAt (fst r) = 5000 + 60 * msPerDay
   /\ Item.deletionStatus entry = Some deleted
   /\ Item.deletedAt entry = Some 5000
   /\ Item.scheduledDeletionAt entry = Some (5000 + 60 * msPerDay)
   /\ (forall i, In i table -> scanMatches "f1" i = true -> ~ In i (snd r))
   /\ (false = false ->
       (forall i, In i table -> Item.same_key i entry = false) ->
       In entry (snd r)))
  /\ snd (moveFolderToTrash FolderExamples.rawTable [("f1", "Plans")] false
            5000 5040 "f1" "u9")
     = [FolderExamples.fileInPlans;
        trashItemFor "Plans" "f1" "u9" 5000].
Proof.
  split.
  - apply (FolderDelete.folder_soft_delete FolderExamples.rawTable
             [("f1", "Plans")] false 5000 5040 "f1" "u9").
  - reflexivity.
Defined.

(** C6 as stated fails: the handler removes the folder's own record from the
    table, whether or not its scan observes the trash entry, and the file
    whose parent is the folder carries no stamp afterwards. *)
Lemma folder_record_is_removed :
  let after b :=
    snd (moveFolderToTrash FolderExamples.rawTable [("f1", "Plans")] b
           5000 5040 "f1" "u9") in
  In FolderExamples.plansFolder FolderExamples.rawTable
  /\ ~ In FolderExamples.plansFolder (after true)
  /\ ~ In FolderExamples.plansFolder (after false)
  /\ In FolderExamples.fileInPlans (after true)
  /\ In FolderExamples.fileInPlans (after false)
  /\ Item.parentFolderId FolderExamples.fileInPlans = Some "f1"
  /\ Item.deletionStatus FolderExamples.fileInPlans = None.
Proof.
  vm_compute. repeat split; auto.
  - intros [H|[]]. discriminate.
  - intros [H|[H|[]]]; discriminate.
Qed.

(** With a scan that observes the write, the trash entry is removed with the
    rest: no record of the folder is left. *)
Remark trash_entry_removed_by_own_scan :
  snd (moveFolderToTrash FolderExamples.rawTable [("f1", "Plans")] true
         5000 5040 "f1" "u9")
  = [FolderExamples.fileInPlans].
Proof. reflexivity. Qed.

(** The legacy handler, which no route uses, stamps nothing: it answers 400
    for a missing folder id and 500 for every other one, and leaves the
    database as it was. *)
Remark legacy_handler_writes_nothing (db : Db) (now : Z)
    (folderId userId : string) :
  succeeded (fst (moveFolderToTrashOld db now folderId userId)) = false
  /\ snd (moveFolderToTrashOld db now folderId userId) = db.
Proof.
  unfold moveFolderToTrashOld. destruct (missing folderId); split; reflexivity.
Qed.

End FolderScenario.

(** ** Purge monotonicity *)

Module Purge.

Import AwsStorage Trash.

Lemma putFile_In (item : File.t) : forall table g,
  In g (putFile item table) -> g = item \/ In g table.
Proof.
  induction table as [|f table IH]; cbn [putFile]; intros g Hg.
  - destruct Hg as [<-|[]]. now left.
  - destruct (File.id f =? File.id item).
    + destruct Hg as [<-|Hg]; [now left|right; now right].
    + destruct Hg as [<-|Hg]; [right; now left|].
      destruct (IH g Hg) as [->|H]; [now left|right; now right].
Qed.

Lemma noPurged_putFile (item : File.t) (table : list File.t) :
  ~ Engine.purged item -> Engine.noPurged table ->
  Engine.noPurged (putFile item table).
Proof.
  intros Hi Ht g Hg. destruct (putFile_In item table g Hg) as [->|H]; auto.
Qed.

(** An update through either store keeps the table free of purged records
    when the update object asks for no purge. *)
Lemma noPurged_update storageType table now id u r table' :
  storageUpdateFile storageType table now id u = Some (r, table') ->
  Engine.noPurged table ->
  (forall f, In f table -> ~ Engine.purged (u f)) ->
  Engine.noPurged table'.
Proof.
  intros Hu Ht Hok.
  assert (Hex : forall existing, getFile table id = Some existing ->
                                 ~ Engine.purged (u existing)).
  { intros existing Hg. apply Hok. unfold getFile in Hg.
    now apply find_some in Hg. }
  destruct storageType; cbn [storageUpdateFile] in Hu.
  - unfold AwsStorage.updateFile in Hu.
    destruct (id <=? 0); [discriminate|].
    destruct (getFile table id) as [existing|]; [|discriminate].
    injection Hu as _ <-. apply noPurged_putFile; [|assumption].
    exact (Hex existing eq_refl).
  - unfold MemStorage.updateFile in Hu.
    destruct (getFile table id) as [existing|]; [|discriminate].
    injection Hu as _ <-. apply noPurged_putFile; [|assumption].
    exact (Hex existing eq_refl).
Qed.

Lemma noPurged_updateFileStatus fails now table i status :
  Engine.noPurged table ->
  Engine.noPurged (updateFileStatus fails now table i status).
Proof.
  intros Ht. unfold updateFileStatus. destruct (fails i); [assumption|].
  destruct (getFile table i).
  - intros g Hg. apply in_map_iff in Hg. destruct Hg as (f & <- & Hf).
    destruct (File.id f =? i); [|now apply Ht].
    exact (Ht f Hf).
  - intros g Hg. apply in_app_or in Hg. destruct Hg as [Hg|[<-|[]]].
    + now apply Ht.
    + discriminate.
Qed.

Lemma noPurged_supersede fails later ids : forall table,
  Engine.noPurged table ->
  Engine.noPurged (supersedeInBackground fails later table ids).
Proof.
  unfold supersedeInBackground.
  induction ids as [|i ids IH]; cbn [fold_left]; intros table Ht;
    [assumption|].
  apply IH. now apply noPurged_updateFileStatus.
Qed.

(** No request writes a purged record into the table of [storage]. *)
Lemma step_keeps_storage storageType s served :
  Engine.noPurged (Engine.storage s) ->
  Engine.noPurged (Engine.storage (Engine.step storageType s served)).
Proof.
  intros Hs. destruct served as [now request]. unfold Engine.step.
  cbn [fst snd]. destruct request; cbn [Engine.storage]; try assumption.
  - destruct storageType; cbn [Engine.storage].
    + apply noPurged_supersede. unfold createFile.
      destruct (handleFileVersioning (Engine.storage s) now d) as [d' ids].
      cbn [fst snd]. apply noPurged_putFile; [discriminate|assumption].
    + unfold MemFiles.createFile. cbn [snd MemFiles.files].
      apply noPurged_putFile; [discriminate|assumption].
  - unfold MoveRoute.moveFile. destruct fileId as [i|]; [|assumption].
    destruct (storageUpdateFile storageType (Engine.storage s) now i _)
      as [[r t]|] eqn:E; [|assumption].
    cbn [snd]. apply (noPurged_update _ _ _ _ _ _ _ E Hs).
    intros f Hf. exact (Hs f Hf).
  - unfold moveFileToTrash. destruct fileId as [i|]; [|assumption].
    destruct (getFile (Engine.storage s) i) as [file|]; [|assumption].
    destruct storageType.
    + destruct (negb _); [assumption|]. cbn [snd].
      rewrite SoftDelete.stamp_loop. intros g Hg.
      apply in_map_iff in Hg. destruct Hg as (f & <- & Hf).
      destruct (existsb _ _); [discriminate|now apply Hs].
    + destruct (MemStorage.updateFile (Engine.storage s) now i _)
        as [[r t]|] eqn:E; [|assumption].
      cbn [snd].
      apply (noPurged_update memory _ _ _ _ _ _ E Hs).
      intros f _. discriminate.
  - unfold restoreFile. destruct fileId as [i|]; [|assumption].
    destruct (getFile (Engine.storage s) i) as [file|]; [|assumption].
    destruct (negb _); [assumption|].
    destruct (storageUpdateFile storageType (Engine.storage s) now i _)
      as [[r t]|] eqn:E; [|assumption].
    cbn [snd]. apply (noPurged_update _ _ _ _ _ _ _ E Hs).
    intros f _. unfold restoreUpdate.
    destruct (needsNameRepair file); discriminate.
Qed.

Lemma purgedStay_map (F : File.t -> File.t) (db : Db) :
  (forall row, File.id (F row) = File.id row
               /\ (Engine.purged row -> Engine.purged (F row))) ->
  Engine.purgedStay db (map F db).
Proof.
  intros HF. unfold Engine.purgedStay.
  induction db as [|row db IH]; cbn [map]; constructor; auto.
Qed.

Lemma purgedStay_refl (db : Db) : Engine.purgedStay db db.
Proof.
  unfold Engine.purgedStay. induction db; constructor; auto.
Qed.

Lemma purgedStay_trans (a : Db) : forall b c,
  Engine.purgedStay a b -> Engine.purgedStay b c -> Engine.purgedStay a c.
Proof.
  unfold Engine.purgedStay.
  induction a as [|x a IH]; intros b c Hab Hbc.
  - inversion Hab; subst. inversion Hbc; subst. constructor.
  - inversion Hab as [|? y ? b' [Hxy1 Hxy2] Hab']; subst.
    inversion Hbc as [|? z ? c' [Hyz1 Hyz2] Hbc']; subst.
    constructor; [split; [congruence|auto]|]. now apply (IH b' c').
Qed.

(** The sweep keeps a purged row as it is. *)
Lemma sweepFile_keeps_purged now f :
  Engine.purged f -> sweepFile now f = f.
Proof.
  unfold Engine.purged, sweepFile, pastDeadline, isExpired.
  intros Hp. rewrite Hp. reflexivity.
Qed.

Lemma pastDeadline_due now f :
  pastDeadline now f = true <-> Engine.due now f.
Proof.
  unfold pastDeadline, isExpired, Engine.due. split.
  - intros H. apply andb_prop in H. destruct H as [Hd Ht].
    destruct (File.deletionStatus f) as [[]|]; try discriminate.
    split; [reflexivity|].
    destruct (File.scheduledDeletionAt f) as [t|]; [|discriminate].
    exists t. split; [reflexivity|]. now apply Z.ltb_lt.
  - intros (Hd & t & Ht & Hlt). rewrite Hd, Ht. cbn [is_deleted andb].
    now apply Z.ltb_lt.
Qed.

(** The sweep purges a row only if it is soft-deleted and its deadline is
    strictly in the past. *)
Lemma sweepFile_only_expired now f :
  Engine.purged (sweepFile now f) -> Engine.purged f \/ Engine.due now f.
Proof.
  unfold sweepFile. destruct (pastDeadline now f) eqn:E.
  - intros _. right. now apply pastDeadline_due.
  - intros H. now left.
Qed.

Lemma sweepFile_idem now f : sweepFile now (sweepFile now f) = sweepFile now f.
Proof.
  destruct (pastDeadline now f) eqn:E.
  - assert (H : sweepFile now f
                = File.set_deletionStatus permanently_deleted now f)
      by (unfold sweepFile; now rewrite E).
    rewrite H. now apply sweepFile_keeps_purged.
  - assert (H : sweepFile now f = f) by (unfold sweepFile; now rewrite E).
    now rewrite !H.
Qed.

(** The rows of the database after a request: none is lost, and a purged one
    stays purged. *)
Lemma step_keeps_rows storageType s served :
  Engine.purgedStay (Engine.db s) (Engine.db (Engine.step storageType s served)).
Proof.
  destruct served as [now request]. unfold Engine.step. cbn [fst snd].
  destruct request; cbn [Engine.db]; try apply purgedStay_refl.
  - destruct storageType; apply purgedStay_refl.
  - unfold restoreFolder. destruct (missing folderId); apply purgedStay_refl.
  - unfold permanentlyDeleteFile.
    destruct fileId as [| |n]; try apply purgedStay_refl.
    destruct (negb (int4 n)); [apply purgedStay_refl|].
    destruct (filter _ (Engine.db s)); [apply purgedStay_refl|].
    cbn [snd]. apply purgedStay_map. intros row.
    destruct (File.id row =? n); split; auto. intros _. reflexivity.
  - cbn [cleanupExpiredItems snd]. apply purgedStay_map. intros row.
    unfold sweepFile. destruct (pastDeadline now row); split; auto.
    intros _. reflexivity.
Qed.

Lemma run_keeps storageType (requests : list (Z * Engine.Request)) :
  forall s,
  Engine.noPurged (Engine.storage s) ->
  Engine.noPurged (Engine.storage (Engine.run storageType s requests))
  /\ Engine.purgedStay (Engine.db s)
       (Engine.db (Engine.run storageType s requests)).
Proof.
  unfold Engine.run.
  induction requests as [|served requests IH]; cbn [fold_left]; intros s Hs.
  - split; [assumption|apply purgedStay_refl].
  - destruct (IH (Engine.step storageType s served)
                (step_keeps_storage storageType s served Hs)) as [H1 H2].
    split; [exact H1|].
    eapply purgedStay_trans; [apply step_keeps_rows|exact H2].
Qed.

(** C5.  Purge monotonicity.  [permanently_deleted] is written through [db]
    alone, by the sweep and by the manual purge.  Along every sequence of
    requests (uploads with their background work, moves, soft-deletes and
    restores of files, folder restores, manual purges, sweeps), served
    through either store: the table of [storage], free of purged records at
    the start, stays free of them, so that a soft-delete or a restore never
    meets one; and every row of the database is kept, a purged one still
    purged.  One sweep, on any rows at any instant: a row is purged
    afterwards exactly when it was purged already or was soft-deleted with a
    deadline strictly before the instant, a row that is not such a due row
    is left as it was, a purged row in particular, and the same sweep run
    again changes nothing; the sweep writes no folder, it throws at its
    statement on [folders].  [restoreFile] refuses a record that is not
    soft-deleted, a purged one included, and writes nothing.  And the folder
    soft-delete, which works on the document table, purges nothing: an item
    that is purged after it was in the table before it, so that no folder is
    ever purged. *)
Theorem purge_monotonicity (storageType : StorageType)
    (requests : list (Z * Engine.Request)) (s : Engine.State) :
  Engine.noPurged (Engine.storage s) ->
  let s' := Engine.run storageType s requests in
  Engine.noPurged (Engine.storage s')
  /\ Engine.purgedStay (Engine.db s) (Engine.db s')
  /\ (forall (db : Db) (now : Z),
        let swept := snd (cleanupExpiredItems db now) in
        Forall2 (fun row row' =>
                   (Engine.purged row' <->
                    Engine.purged row \/ Engine.due now row)
                   /\ (~ Engine.due now row -> row' = row))
          db swept
        /\ snd (cleanupExpiredItems swept now) = swept
        /\ fst (cleanupExpiredItems db now) = Thrown "folders is not defined")
  /\ (forall (st : StorageType) (table : list File.t) (now i : Z) (f : File.t),
        getFile table i = Some f ->
        File.deletionStatus f <> Some deleted ->
        restoreFile st table now (Some i)
        = (Fail 400 "File is not in trash", table))
  /\ (forall (items : list Item.t) (listing : list (string * string))
             (scanSeesPut : bool) (now answeredAt : Z)
             (folderId userId : string) (i : Item.t),
        In i (snd (FolderTrash.moveFolderToTrash items listing scanSeesPut now
                     answeredAt folderId userId)) ->
        Item.deletionStatus i = Some permanently_deleted ->
        In i items).
Proof.
  intros Hs. cbv zeta.
  destruct (run_keeps storageType requests s Hs) as [H1 H2].
  split; [exact H1|]. split; [exact H2|]. split; [|split].
  - intros db now. cbn [cleanupExpiredItems fst snd].
    split; [|split; [|reflexivity]].
    + induction db as [|row db IH]; cbn [map]; constructor; [|exact IH].
      split.
      * split; [apply sweepFile_only_expired|].
        intros [Hp|Hd].
        -- now rewrite (sweepFile_keeps_purged now row Hp).
        -- unfold sweepFile.
           rewrite (proj2 (pastDeadline_due now row) Hd). reflexivity.
      * intros Hn. unfold sweepFile.
        destruct (pastDeadline now row) eqn:E; [|reflexivity].
        exfalso. apply Hn. now apply pastDeadline_due.
    + rewrite map_map. apply map_ext. intros row. apply sweepFile_idem.
  - intros st table now i f Hget Hd. unfold restoreFile. rewrite Hget.
    destruct (File.deletionStatus f) as [[]|]; try reflexivity.
    contradiction.
  - intros items listing scanSeesPut now answeredAt folderId userId i Hi Hp.
    destruct (FolderDelete.moveFolderToTrash_adds_entry_only _ _ _ _ _ _ _ _ Hi)
      as [->|H]; [discriminate|exact H].
Qed.

(** A soft-delete, a sweep, a restore, a manual purge, an upload and a second
    sweep, on two versions of ["plan.pdf"] in [storage] and three rows in the
    database. *)
Lemma purge_monotonicity_witness :
  let s := Engine.mk Examples.twoVersions 1 Engine.rows in
  (let s' := Engine.run aws s Engine.requests in
   Engine.noPurged (Engine.storage s')
   /\ Engine.purgedStay (Engine.db s) (Engine.db s')
   /\ (forall (db : Db) (now : Z),
         let swept := snd (cleanupExpiredItems db now) in
         Forall2 (fun row row' =>
                    (Engine.purged row' <->
                     Engine.purged row \/ Engine.due now row)
                    /\ (~ Engine.due now row -> row' = row))
           db swept
         /\ snd (cleanupExpiredItems swept now) = swept
         /\ fst (cleanupExpiredItems db now) = Thrown "folders is not defined")
   /\ (forall (st : StorageType) (table : list File.t) (now i : Z) (f : File.t),
         getFile table i = Some f ->
         File.deletionStatus f <> Some deleted ->
         restoreFile st table now (Some i)
         = (Fail 400 "File is not in trash", table))
   /\ (forall (items : list Item.t) (listing : list (string * string))
              (scanSeesPut : bool) (now answeredAt : Z)
              (folderId userId : string) (i : Item.t),
         In i (snd (FolderTrash.moveFolderToTrash items listing scanSeesPut now
                      answeredAt folderId userId)) ->
         Item.deletionStatus i = Some permanently_deleted ->
         In i items))
  /\ map File.deletionStatus (Engine.db (Engine.run aws s Engine.requests))
     = [Some permanently_deleted; Some permanently_deleted;
        Some permanently_deleted]
  /\ map File.deletionStatus (Engine.storage (Engine.run aws s Engine.requests))
     = [Some deleted; Some active; None].
Proof.
  split.
  - apply (purge_monotonicity aws Engine.requests
             (Engine.mk Examples.twoVersions 1 Engine.rows)).
    intros f Hf. cbn [Engine.storage] in Hf.
    destruct Hf as [<-|[<-|[]]]; discriminate.
  - split; reflexivity.
Defined.

(** The filter of [moveFileToTrash] tests the status against ['deleted']
    only: it would stamp a purged record of [storage] again.  No request
    writes such a record there, which is what [purge_monotonicity] rests
    on. *)
Remark soft_delete_filter_lets_purged_through :
  option_map File.deletionStatus
    (getFile (snd (moveFileToTrash aws Examples.purgedFile 5000 (Some 7) "u9")) 7)
  = Some (Some deleted).
Proof. reflexivity. Qed.

End Purge.

(** ** Shareable links *)

Module LinkFacts.

Import Links LinkRules.

Lemma lookup_update (store : Store) (linkId k : string) (n : Z) :
  invalidId linkId = false ->
  lookup (updateCurrentUses store linkId n) k =
  option_map (fun v => if (k =? linkId)%string
                       then ShareableLink.set_currentUses n v else v)
             (lookup store k).
Proof.
  intros Hv. unfold updateCurrentUses, lookup. rewrite Hv.
  rewrite find_map_keyed.
  - destruct (find _ store) as [kv|] eqn:E; simpl; [|reflexivity].
    apply find_some in E. destruct E as [_ E]. apply String.eqb_eq in E.
    rewrite E. destruct (k =? linkId)%string; reflexivity.
  - intros kv. destruct (fst kv =? linkId)%string; reflexivity.
Qed.

Lemma lookup_putLink (key : string) (item : ShareableLink.t) : forall store,
  lookup (putLink key item store) key = Some item.
Proof.
  unfold lookup. induction store as [|kv store IH]; simpl.
  - now rewrite String.eqb_refl.
  - destruct (fst kv =? key)%string eqn:E; simpl.
    + now rewrite String.eqb_refl.
    + rewrite E. exact IH.
Qed.

Lemma get_some_valid store linkId link :
  getShareableLink store linkId = Some link -> invalidId linkId = false.
Proof.
  unfold getShareableLink. destruct (invalidId linkId); [discriminate|reflexivity].
Qed.

Lemma valid_guard linkId :
  invalidId linkId = false ->
  (negb (Js.truthy linkId) || (linkId =? "undefined")%string)%bool = false.
Proof.
  unfold invalidId. intros H. apply orb_false_elim in H. now destruct H.
Qed.

(** What [getShareableLink] returns has no zero cap and no empty password. *)
Lemma get_normalized store linkId link :
  getShareableLink store linkId = Some link ->
  ShareableLink.maxUses link <> Some 0
  /\ ShareableLink.password link <> Some "".
Proof.
  unfold getShareableLink. destruct (invalidId linkId); [discriminate|].
  destruct (lookup store linkId) as [item|]; [|discriminate].
  destruct (_ || _)%bool; [discriminate|].
  destruct (_ || _)%bool; [discriminate|].
  intros E. injection E as <-. simpl. split.
  - destruct (ShareableLink.maxUses item) as [[]|]; discriminate.
  - destruct (ShareableLink.password item) as [p|]; simpl; [|discriminate].
    destruct (Js.truthy p) eqn:Ep; [|discriminate].
    intros E. injection E as ->. discriminate.
Qed.

(** The counter write is read back. *)
Lemma get_after_update store linkId link n :
  getShareableLink store linkId = Some link ->
  getShareableLink (updateCurrentUses store linkId n) linkId
  = Some (ShareableLink.set_currentUses n link).
Proof.
  intros Hget. pose proof (get_some_valid _ _ _ Hget) as Hv.
  unfold getShareableLink in *. rewrite Hv in *.
  rewrite (lookup_update _ _ _ _ Hv), String.eqb_refl.
  destruct (lookup store linkId) as [item|]; [|discriminate]. simpl in *.
  destruct (_ || _)%bool; [discriminate|].
  destruct (_ || _)%bool; [discriminate|].
  injection Hget as <-. reflexivity.
Qed.

Lemma expired_iff now link :
  expired now link = true <->
  exists t, ShareableLink.expiresAt link = Some t /\ t < now.
Proof.
  unfold expired. destruct (ShareableLink.expiresAt link) as [t|].
  - rewrite Z.ltb_lt. split.
    + intros H. now exists t.
    + intros (t' & E & H). now injection E as ->.
  - split; [discriminate|]. intros (t & E & _). discriminate.
Qed.

Lemma exhausted_iff link :
  ShareableLink.maxUses link <> Some 0 ->
  (exhausted link = true <->
   exists m, ShareableLink.maxUses link = Some m
             /\ m <= ShareableLink.currentUses link).
Proof.
  unfold exhausted. intros Hz.
  destruct (ShareableLink.maxUses link) as [m|].
  - assert (E : (match m with 0 => false | _ => m <=? ShareableLink.currentUses link end)
                = (m <=? ShareableLink.currentUses link)).
    { destruct m; [contradiction|reflexivity|reflexivity]. }
    rewrite E, Z.leb_le. split.
    + intros H. now exists m.
    + intros (m' & Em & H). now injection Em as ->.
  - split; [discriminate|]. intros (m & E & _). discriminate.
Qed.


(** The effect of one resolution on the store, through either route. *)
Lemma access_effect linkId store a :
  access linkId store a = store
  \/ exists link,
       getShareableLink store linkId = Some link
       /\ exhausted link = false
       /\ access linkId store a
          = updateCurrentUses store linkId (ShareableLink.currentUses link + 1).
Proof.
  destruct a as [now password|now]; simpl.
  - unfold sharedLinkApi. destruct (_ || _)%bool; [now left|].
    destruct (getShareableLink store linkId) as [link|]; [|now left].
    destruct (negb (ShareableLink.isActive link)); [now left|].
    destruct (expired now link); [now left|].
    destruct (exhausted link) eqn:Ex; [now left|].
    destruct (passwordMismatch password link); [now left|].
    right. exists link. auto.
  - unfold sharedLinkBrowser. destruct (_ || _)%bool; [now left|].
    destruct (getShareableLink store linkId) as [link|]; [|now left].
    destruct (negb (ShareableLink.isActive link)); [now left|].
    destruct (expired now link); [now left|].
    destruct (exhausted link) eqn:Ex; [now left|].
    right. exists link. destruct (_ && _)%bool; auto.
Qed.

End LinkFacts.

Module LinkResolution.

Import Links LinkRules.

(** What [getShareableLink] makes of a stored item. *)
Lemma get_of_stored store linkId item :
  invalidId linkId = false ->
  lookup store linkId = Some item ->
  getShareableLink store linkId =
  if ((ShareableLink.resourceId item =? "")
      || (ShareableLink.resourceId item =? "undefined")
      || (ShareableLink.id item =? "undefined"))%string%bool
  then None
  else Some (ShareableLink.mk
               (Js.or_else (ShareableLink.id item) linkId)
               (resourceKind item)
               (ShareableLink.resourceId item)
               (tier item)
               (ShareableLink.isPublic item)
               (Js.truthy_str (ShareableLink.password item))
               (ShareableLink.expiresAt item)
               (Js.truthy_num (ShareableLink.maxUses item))
               (ShareableLink.currentUses item)
               (Js.or_else (ShareableLink.createdBy item) "system")
               (ShareableLink.isActive item)).
Proof.
  intros Hv Hl. unfold getShareableLink. rewrite Hv, Hl.
  cbn [ShareableLink.id ShareableLink.resourceId].
  unfold invalidId in Hv. apply orb_false_elim in Hv. destruct Hv as [Hv _].
  apply orb_false_elim in Hv. destruct Hv as [Hv1 Hv2].
  unfold Js.truthy in *. apply negb_false_iff in Hv1.
  unfold Js.or_else at 1 2.
  destruct (String.eqb_spec (ShareableLink.id item) "") as [Ei|Ei].
  - rewrite Hv1, Hv2. cbn [negb orb]. rewrite Ei.
    destruct (ShareableLink.resourceId item =? "")%string; [reflexivity|].
    cbn [negb orb].
    destruct (ShareableLink.resourceId item =? "undefined")%string;
      reflexivity.
  - apply String.eqb_neq in Ei. rewrite Ei. cbn [negb orb].
    destruct (ShareableLink.id item =? "undefined")%string eqn:Eu.
    + now rewrite !orb_true_r.
    + rewrite !orb_false_r.
      destruct (ShareableLink.resourceId item =? "")%string; [reflexivity|].
      cbn [negb orb].
      destruct (ShareableLink.resourceId item =? "undefined")%string;
        reflexivity.
Qed.

(** C3, as amended.  Link resolution contract, on the link as it is stored
    under a valid id.  The API route fails, and writes nothing, when no link
    is stored under the id, and when the stored link is inactive, or cannot
    be read (it carries no resource reference), or its expiry is set and in
    the past, or its cap is set (not 0) and reached, or it has a password
    (not empty) that the supplied one does not match.  In every other case
    it answers with the link's permission tier, its resource reference and
    the counter incremented by one; the stored link has then this counter,
    its other attributes being as they were, and every other link is as it
    was. *)
Theorem resolve_link_contract (store : Store) (now : Z) (linkId : string)
    (password : option string) :
  invalidId linkId = false ->
  let r := sharedLinkApi store now linkId password in
  match lookup store linkId with
  | None => succeeded (fst r) = false /\ snd r = store
  | Some item =>
      (refused now password item -> succeeded (fst r) = false /\ snd r = store)
      /\ (~ refused now password item ->
          (exists body,
             fst r = Json body
             /\ r_linkType body = tier item
             /\ r_resourceType body = resourceKind item
             /\ r_resourceId body = ShareableLink.resourceId item
             /\ r_currentUses body = ShareableLink.currentUses item + 1)
          /\ (exists stored,
                lookup (snd r) linkId = Some stored
                /\ ShareableLink.currentUses stored
                   = ShareableLink.currentUses item + 1
                /\ sameButCounter stored item)
          /\ forall k, k <> linkId -> lookup (snd r) k = lookup store k)
  end.
Proof.
  intros Hv. cbv zeta.
  destruct (lookup store linkId) as [item|] eqn:Hl.
  - unfold sharedLinkApi.
    rewrite (LinkFacts.valid_guard _ Hv), (get_of_stored _ _ _ Hv Hl).
    unfold refused, unreadable.
    destruct (String.eqb_spec (ShareableLink.resourceId item) "") as [E1|E1];
      [split; [auto|intros H; exfalso; apply H; right; left; now left]|].
    destruct (String.eqb_spec (ShareableLink.resourceId item) "undefined")
      as [E2|E2];
      [split; [auto|intros H; exfalso; apply H; right; left; right; now left]|].
    destruct (String.eqb_spec (ShareableLink.id item) "undefined") as [E3|E3];
      [split; [auto|intros H; exfalso; apply H; right; left; right; now right]|].
    cbn [orb ShareableLink.isActive].
    destruct (ShareableLink.isActive item) eqn:Ea; cbn [negb];
      [|split; [auto|intros H; exfalso; apply H; now left]].
    set (link := ShareableLink.mk _ _ _ _ _ _ _ _ _ _ _).
    destruct (expired now link) eqn:Ee.
    { split; [auto|]. intros H; exfalso; apply H. right; right; left.
      now apply (LinkFacts.expired_iff now link). }
    destruct (exhausted link) eqn:Ex.
    { split; [auto|]. intros H; exfalso; apply H. right; right; right; left.
      unfold exhausted, link in Ex. cbn [ShareableLink.maxUses
        ShareableLink.currentUses] in Ex.
      destruct (ShareableLink.maxUses item) as [m|]; [|discriminate].
      exists m. split; [reflexivity|].
      destruct m; [discriminate| |]; cbn [Js.truthy_num] in Ex;
        (split; [discriminate|now apply Z.leb_le]). }
    destruct (passwordMismatch password link) eqn:Ep.
    { split; [auto|]. intros H; exfalso; apply H.
      right; right; right; right.
      unfold passwordMismatch, link in Ep. cbn [ShareableLink.password] in Ep.
      destruct (ShareableLink.password item) as [p|]; [|discriminate].
      cbn [Js.truthy_str] in Ep.
      destruct (Js.truthy p) eqn:Et; [|discriminate].
      rewrite Et in Ep. exists p. split; [reflexivity|]. split.
      - intros ->. discriminate.
      - destruct password as [s|]; [|discriminate].
        apply negb_true_iff, String.eqb_neq in Ep. congruence. }
    split.
    + intros [H|[[H|[H|H]]|[H|[H|H]]]]; exfalso; try contradiction.
      * discriminate.
      * apply (LinkFacts.expired_iff now link) in H. congruence.
      * destruct H as (m & Hm & Hz & Hle).
        unfold exhausted, link in Ex. cbn [ShareableLink.maxUses
          ShareableLink.currentUses] in Ex. rewrite Hm in Ex.
        destruct m; [contradiction| |]; cbn [Js.truthy_num] in Ex;
          apply Z.leb_gt in Ex; lia.
      * destruct H as (p & Hp & Hne & Hs).
        unfold passwordMismatch, link in Ep. cbn [ShareableLink.password] in Ep.
        rewrite Hp in Ep. cbn [Js.truthy_str] in Ep.
        assert (Ht : Js.truthy p = true).
        { unfold Js.truthy. apply negb_true_iff. now apply String.eqb_neq. }
        rewrite Ht in Ep. rewrite Ht in Ep.
        destruct password as [s|]; [|discriminate].
        apply negb_false_iff, String.eqb_eq in Ep. congruence.
    + intros _. cbn [fst snd]. split; [|split].
      * eexists. split; [reflexivity|]. repeat split.
      * rewrite (LinkFacts.lookup_update _ _ _ _ Hv), Hl, String.eqb_refl.
        eexists. split; [reflexivity|]. split; [reflexivity|].
        repeat split.
      * intros k Hk. rewrite (LinkFacts.lookup_update _ _ _ _ Hv).
        apply String.eqb_neq in Hk. rewrite Hk.
        destruct (lookup store k); reflexivity.
  - unfold sharedLinkApi. rewrite (LinkFacts.valid_guard _ Hv).
    unfold getShareableLink. rewrite Hv, Hl. split; reflexivity.
Qed.

(** The link created for file 42 resolves: tier [view], counter 1. *)
Lemma resolve_link_contract_witness :
  (let r := sharedLinkApi protectedStore 10 "L1" (Some "s3cret") in
   match lookup protectedStore "L1" with
   | None => succeeded (fst r) = false /\ snd r = protectedStore
   | Some item =>
       (refused 10 (Some "s3cret") item ->
        succeeded (fst r) = false /\ snd r = protectedStore)
       /\ (~ refused 10 (Some "s3cret") item ->
           (exists body,
              fst r = Json body
              /\ r_linkType body = tier item
              /\ r_resourceType body = resourceKind item
              /\ r_resourceId body = ShareableLink.resourceId item
              /\ r_currentUses body = ShareableLink.currentUses item + 1)
           /\ (exists stored,
                 lookup (snd r) "L1" = Some stored
                 /\ ShareableLink.currentUses stored
                    = ShareableLink.currentUses item + 1
                 /\ sameButCounter stored item)
           /\ forall k, k <> "L1" -> lookup (snd r) k = lookup protectedStore k)
   end)
  /\ fst (sharedLinkApi protectedStore 10 "L1" (Some "s3cret"))
     = Json (mkResolved "L1" "file" "42" "view" true None None 1)
  /\ fst (sharedLinkApi protectedStore 10 "L1" (Some "guess"))
     = Fail 401 "Password required".
Proof.
  split.
  - apply (resolve_link_contract protectedStore 10 "L1" (Some "s3cret")).
    reflexivity.
  - split; reflexivity.
Defined.

(** C3 as stated fails: a link created for a resource id that is blank is
    stored, active, without expiry, cap or password, and its resolution is
    refused as if no link were stored. *)
Lemma stored_link_without_resource_is_refused :
  let store := snd (createShareableLink [] "L2" (request " " None None None)) in
  succeeded (fst (createShareableLink [] "L2" (request " " None None None)))
  = true
  /\ (exists item,
        lookup store "L2" = Some item
        /\ ShareableLink.isActive item = true
        /\ ShareableLink.expiresAt item = None
        /\ ShareableLink.maxUses item = None
        /\ ShareableLink.password item = None)
  /\ sharedLinkApi store 10 "L2" None
     = (Fail 404 "Link not found or inactive", store).
Proof.
  split; [reflexivity|]. split; [|reflexivity].
  eexists. split; [reflexivity|]. repeat split.
Qed.

(** Scenario C of the specification: with [maxUses = 1] the first resolution
    succeeds and leaves the counter at 1, the second one fails. *)
Example scenario_single_use :
  let r1 := sharedLinkApi singleUseStore 10 "L1" None in
  let r2 := sharedLinkApi (snd r1) 20 "L1" None in
  succeeded (fst r1) = true
  /\ option_map ShareableLink.currentUses (getShareableLink (snd r1) "L1") = Some 1
  /\ fst r2 = Fail 410 "Link usage limit exceeded"
  /\ snd r2 = snd r1.
Proof. repeat split; reflexivity. Qed.



End LinkResolution.

Module UseCounter.

Import Links LinkRules.

Lemma access_keeps_cap m linkId store a :
  capped m linkId store -> capped m linkId (access linkId store a).
Proof.
  intros Hc. destruct (LinkFacts.access_effect linkId store a)
    as [->|(link & Hget & Hex & ->)]; [assumption|].
  intros stored Hs.
  rewrite (LinkFacts.get_after_update _ _ _ _ Hget) in Hs.
  injection Hs as <-. simpl.
  destruct (Hc link Hget) as [Hm Hr]. split; [assumption|].
  destruct (LinkFacts.get_normalized _ _ _ Hget) as [Hz _].
  assert (Hlt : ~ m <= ShareableLink.currentUses link).
  { intros Hle.
    assert (E : exhausted link = true)
      by (apply (LinkFacts.exhausted_iff _ Hz); now exists m).
    congruence. }
  lia.
Qed.

Lemma accesses_keep_cap m linkId (l : list Access) : forall store,
  capped m linkId store -> capped m linkId (accesses linkId store l).
Proof.
  unfold accesses. induction l as [|a l IH]; simpl; intros store Hc.
  - assumption.
  - apply IH. now apply access_keeps_cap.
Qed.

Lemma capped_after_put m linkId item store :
  ShareableLink.maxUses item = Js.truthy_num (Some m) -> 0 < m ->
  ShareableLink.currentUses item = 0 ->
  capped m linkId (putLink linkId (ShareableLink.serialize item) store).
Proof.
  intros Hm Hpos Hz st Hst. unfold getShareableLink in Hst.
  destruct (invalidId linkId); [discriminate|].
  rewrite LinkFacts.lookup_putLink in Hst.
  destruct (_ || _)%bool; [discriminate|].
  destruct (_ || _)%bool; [discriminate|].
  injection Hst as <-. simpl. rewrite Hm, Hz.
  destruct m; try lia. split; [reflexivity|lia].
Qed.

(** C8, as amended.  Use-counter bound: for every link created with a
    positive [maxUses], the counter starts at 0, so [currentUses <= maxUses]
    holds after creation, and it holds after every sequence of resolutions of
    the link, through the API route or the browser route, one after the
    other; and a stored link whose expiry is in the past fails resolution on
    both routes, whatever its counter and cap, and nothing is written. *)
Theorem use_counter_bound (store : Store) (linkId : string) (data : LinkData)
    (m : Z) (link : ShareableLink.t) (store' : Store) :
  maxUses data = Some m ->
  0 < m ->
  createShareableLink store linkId data = (Json link, store') ->
  ShareableLink.currentUses link = 0
  /\ ShareableLink.maxUses link = Some m
  /\ withinCap link
  /\ (forall (l : list Access) stored,
         getShareableLink (accesses linkId store' l) linkId = Some stored ->
         ShareableLink.maxUses stored = Some m
         /\ 0 <= ShareableLink.currentUses stored <= m
         /\ withinCap stored)
  /\ (forall (s : Store) (now t : Z) (password : option string) stored,
         getShareableLink s linkId = Some stored ->
         ShareableLink.expiresAt stored = Some t -> t < now ->
         succeeded (fst (sharedLinkApi s now linkId password)) = false
         /\ snd (sharedLinkApi s now linkId password) = s
         /\ succeeded (fst (sharedLinkBrowser s now linkId)) = false
         /\ snd (sharedLinkBrowser s now linkId) = s).
Proof.
  intros Hm Hpos Hc. unfold createShareableLink in Hc.
  destruct (invalidId _); [discriminate|].
  destruct (negb _); [discriminate|].
  injection Hc as <- Hstore. symmetry in Hstore.
  assert (Hcap : Js.truthy_num (Some m) = Some m) by (destruct m; [lia| |]; reflexivity).
  split; [reflexivity|]. split; [simpl; now rewrite Hm|].
  split; [unfold withinCap; simpl; rewrite Hm, Hcap; lia|]. split.
  - intros l stored Hs.
    assert (Hbase : capped m linkId store').
    { subst store'. apply capped_after_put; [|assumption|reflexivity].
      simpl. now rewrite Hm. }
    destruct (accesses_keep_cap m linkId l _ Hbase stored Hs) as [H1 H2].
    split; [assumption|]. split; [assumption|].
    unfold withinCap. rewrite H1. lia.
  - intros s now t password stored Hget Ht Hlt.
    pose proof (LinkFacts.get_some_valid _ _ _ Hget) as Hv.
    assert (Ee : expired now stored = true)
      by (apply LinkFacts.expired_iff; now exists t).
    unfold sharedLinkApi, sharedLinkBrowser.
    rewrite (LinkFacts.valid_guard _ Hv), Hget, Ee.
    destruct (negb (ShareableLink.isActive stored)); repeat split.
Qed.

Lemma use_counter_bound_witness :
  let link := ShareableLink.mk "L1" "file" "42" "view" true None None (Some 1)
                0 "u1" true in
  ShareableLink.currentUses link = 0
  /\ ShareableLink.maxUses link = Some 1
  /\ withinCap link
  /\ (forall (l : list Access) stored,
         getShareableLink (accesses "L1" singleUseStore l) "L1" = Some stored ->
         ShareableLink.maxUses stored = Some 1
         /\ 0 <= ShareableLink.currentUses stored <= 1
         /\ withinCap stored)
  /\ (forall (s : Store) (now t : Z) (password : option string) stored,
         getShareableLink s "L1" = Some stored ->
         ShareableLink.expiresAt stored = Some t -> t < now ->
         succeeded (fst (sharedLinkApi s now "L1" password)) = false
         /\ snd (sharedLinkApi s now "L1" password) = s
         /\ succeeded (fst (sharedLinkBrowser s now "L1")) = false
         /\ snd (sharedLinkBrowser s now "L1") = s).
Proof.
  apply (use_counter_bound [] "L1" (request "42" None None (Some 1)) 1
           (ShareableLink.mk "L1" "file" "42" "view" true None None (Some 1)
              0 "u1" true)
           singleUseStore).
  - reflexivity.
  - lia.
  - reflexivity.
Defined.

(** C8 as stated fails: the cap is stored as it is sent, no test rejects a
    negative one; the link created with [maxUses = -1] has its counter, 0,
    above its cap from the start. *)
Lemma negative_cap_breaks_bound :
  exists link store',
    createShareableLink [] "L1" (request "42" None None (Some (-1)))
    = (Json link, store')
    /\ getShareableLink store' "L1" = Some link
    /\ ShareableLink.maxUses link = Some (-1)
    /\ ShareableLink.currentUses link = 0
    /\ ~ withinCap link.
Proof.
  eexists. eexists. split; [reflexivity|]. split; [reflexivity|].
  split; [reflexivity|]. split; [reflexivity|].
  unfold withinCap. simpl. lia.
Qed.

End UseCounter.

(** * Further properties of the engine *)

(** ** The purge sweep and the manual purge *)

Module Sweep.

Import AwsStorage Trash.

Lemma sweepFile_cases now row :
  (Engine.due now row ->
   sweepFile now row = File.set_deletionStatus permanently_deleted now row)
  /\ (~ Engine.due now row -> sweepFile now row = row).
Proof.
  unfold sweepFile. destruct (pastDeadline now row) eqn:E; split.
  - reflexivity.
  - intros Hn. exfalso. apply Hn. now apply Purge.pastDeadline_due.
  - intros Hd. apply Purge.pastDeadline_due in Hd. congruence.
  - reflexivity.
Qed.

Lemma due_is_deleted now row :
  pastDeadline now row = true -> is_deleted (File.deletionStatus row) = true.
Proof.
  unfold pastDeadline, isExpired. intros H. apply andb_prop in H. now destruct H.
Qed.

(** X1.  The scheduled sweep on the rows of the database.  It never returns
    its counts: it throws at the statement on [folders], after the [UPDATE]
    of [files] has run.  That [UPDATE] keeps every row in its place, turns
    each row that is soft-deleted with a deadline strictly before the sweep
    instant into a purged row stamped with that instant, and leaves every
    other row as it was; the number of soft-deleted rows drops by the number
    of rows that were due. *)
Theorem sweep_purges_exactly_expired (db : Db) (now : Z) :
  let r := cleanupExpiredItems db now in
  fst r = Thrown "folders is not defined"
  /\ map File.id (snd r) = map File.id db
  /\ Forall2 (fun row row' =>
               (Engine.due now row ->
                row' = File.set_deletionStatus permanently_deleted now row)
               /\ (~ Engine.due now row -> row' = row))
       db (snd r)
  /\ (Lineage.deletedCount (snd r)
      + List.length (filter (pastDeadline now) db))%nat
     = Lineage.deletedCount db.
Proof.
  cbv zeta. cbn [cleanupExpiredItems fst snd].
  split; [reflexivity|]. split; [|split].
  - rewrite map_map. apply map_ext. intros row. unfold sweepFile.
    destruct (pastDeadline now row); reflexivity.
  - induction db as [|row db IH]; cbn [map]; constructor; [|exact IH].
    apply sweepFile_cases.
  - unfold Lineage.deletedCount.
    induction db as [|row db IH]; [reflexivity|].
    cbn [map filter]. unfold sweepFile at 1.
    destruct (pastDeadline now row) eqn:E.
    + rewrite (due_is_deleted now row E).
      cbn [File.set_deletionStatus File.set_lifecycle File.deletionStatus
           is_deleted List.length].
      rewrite <- IH. lia.
    + destruct (is_deleted (File.deletionStatus row));
        cbn [List.length]; rewrite <- IH; lia.
Qed.

(** X2.  Sweeping twice.  A second sweep at the same instant changes no
    row; and a sweep at an instant followed by one at a later instant leaves
    the rows with the lifecycle statuses that one sweep at the later instant
    gives them. *)
Theorem sweep_twice (db : Db) (now later : Z) :
  now <= later ->
  let once := snd (cleanupExpiredItems db now) in
  snd (cleanupExpiredItems once now) = once
  /\ map File.deletionStatus (snd (cleanupExpiredItems once later))
     = map File.deletionStatus (snd (cleanupExpiredItems db later)).
Proof.
  intros Hle. cbv zeta. cbn [cleanupExpiredItems snd]. split.
  - rewrite map_map. apply map_ext. intros row. apply Purge.sweepFile_idem.
  - rewrite !map_map. apply map_ext. intros row.
    destruct (pastDeadline now row) eqn:E.
    + assert (Hl : pastDeadline later row = true).
      { apply Purge.pastDeadline_due. apply Purge.pastDeadline_due in E.
        destruct E as (Hd & t & Ht & Hlt). split; [exact Hd|].
        exists t. split; [exact Ht|lia]. }
      assert (H1 : sweepFile now row
                   = File.set_deletionStatus permanently_deleted now row)
        by (unfold sweepFile; now rewrite E).
      assert (H2 : sweepFile later row
                   = File.set_deletionStatus permanently_deleted later row)
        by (unfold sweepFile; now rewrite Hl).
      rewrite H1, H2.
      assert (Hp : Engine.purged
                     (File.set_deletionStatus permanently_deleted now row))
        by reflexivity.
      now rewrite (Purge.sweepFile_keeps_purged later _ Hp).
    + assert (H1 : sweepFile now row = row)
        by (unfold sweepFile; now rewrite E).
      now rewrite H1.
Qed.

Lemma sweep_twice_witness :
  let once := snd (cleanupExpiredItems Engine.rows 6000000000) in
  snd (cleanupExpiredItems once 6000000000) = once
  /\ map File.deletionStatus (snd (cleanupExpiredItems once 15000000000))
     = map File.deletionStatus (snd (cleanupExpiredItems Engine.rows 15000000000)).
Proof.
  apply (sweep_twice Engine.rows 6000000000 15000000000). lia.
Defined.

End Sweep.

Module ManualPurge.

Import AwsStorage Trash.

(** With unique ids, the rows of one id are the row itself. *)
Lemma rows_of_id (db : Db) (row : File.t) (p : File.t -> bool) :
  NoDup (map File.id db) -> In row db ->
  filter (fun f => (File.id f =? File.id row) && p f)%bool db
  = if p row then [row] else [].
Proof.
  induction db as [|g db IH]; cbn [map filter]; intros Hnd Hin; [contradiction|].
  inversion Hnd as [|? ? Hnot Hnd']; subst.
  destruct Hin as [->|Hin].
  - rewrite Z.eqb_refl. cbn [andb].
    assert (Hrest : filter (fun f => (File.id f =? File.id row) && p f)%bool db
                    = []).
    { apply filter_nil_iff. intros f Hf.
      destruct (File.id f =? File.id row) eqn:E; [|reflexivity].
      exfalso. apply Hnot. apply Z.eqb_eq in E. rewrite <- E.
      now apply in_map. }
    rewrite Hrest. destruct (p row); reflexivity.
  - assert (E : (File.id g =? File.id row) = false).
    { apply Z.eqb_neq. intros E. apply Hnot. rewrite E. now apply in_map. }
    rewrite E. cbn [andb]. now apply IH.
Qed.

Lemma find_of_id (db : Db) (row : File.t) :
  NoDup (map File.id db) -> In row db ->
  find (fun g => File.id g =? File.id row) db = Some row.
Proof. intros Hnd Hin. now apply SoftDelete.getFile_unique. Qed.

(** X3.  The manual purge, on the rows of the database, whose ids are
    unique.  A missing parameter is answered 400, one that [BigInt] does not
    read and one outside the 32-bit range of the column are answered 500, all
    without a write.  For the id of a stored row: the purge succeeds exactly
    when the row is soft-deleted, whatever its deadline; that row then
    becomes purged, stamped with the instant of the call, every other row is
    left as it was, and a second purge of the id answers 404; when the row
    is not soft-deleted the answer is 404 and nothing is written. *)
Theorem manual_purge_contract (db : Db) (now later : Z) (row : File.t) :
  NoDup (map File.id db) ->
  In row db ->
  int4 (File.id row) = true ->
  let purge := File.set_deletionStatus permanently_deleted now in
  let r := permanentlyDeleteFile db now (Integer (File.id row)) in
  permanentlyDeleteFile db now Missing = (Fail 400 "Valid file ID required", db)
  /\ permanentlyDeleteFile db now Malformed
     = (Fail 500 "Failed to permanently delete file", db)
  /\ (forall n, int4 n = false ->
        permanentlyDeleteFile db now (Integer n)
        = (Fail 500 "Failed to permanently delete file", db))
  /\ (File.deletionStatus row = Some deleted ->
      fst r = Json (Some (purge row))
      /\ snd r = map (fun g => if File.id g =? File.id row then purge g else g) db
      /\ In (purge row) (snd r)
      /\ (forall g, In g db -> File.id g <> File.id row -> In g (snd r))
      /\ permanentlyDeleteFile (snd r) later (Integer (File.id row))
         = (Fail 404 "File not found in trash", snd r))
  /\ (File.deletionStatus row <> Some deleted ->
      r = (Fail 404 "File not found in trash", db)).
Proof.
  intros Hnd Hin Hrange. cbv zeta.
  split; [reflexivity|]. split; [reflexivity|]. split.
  { intros n Hn. unfold permanentlyDeleteFile. now rewrite Hn. }
  set (F := fun g : File.t =>
              if File.id g =? File.id row
              then File.set_deletionStatus permanently_deleted now g else g).
  assert (Hr : permanentlyDeleteFile db now (Integer (File.id row))
               = if is_deleted (File.deletionStatus row)
                 then (Json (Some (File.set_deletionStatus permanently_deleted
                                     now row)), map F db)
                 else (Fail 404 "File not found in trash", db)).
  { unfold permanentlyDeleteFile. rewrite Hrange. cbn [negb].
    rewrite (rows_of_id db row (fun f => is_deleted (File.deletionStatus f))
               Hnd Hin).
    destruct (is_deleted (File.deletionStatus row)); [|reflexivity].
    now rewrite (find_of_id db row Hnd Hin). }
  rewrite Hr. split.
  - intros Hd. rewrite Hd. cbn [is_deleted fst snd].
    assert (HF : forall g, File.id (F g) = File.id g).
    { intros g. unfold F. destruct (File.id g =? File.id row); reflexivity. }
    assert (Hrow : F row = File.set_deletionStatus permanently_deleted now row).
    { unfold F. now rewrite Z.eqb_refl. }
    split; [reflexivity|]. split; [reflexivity|]. split; [|split].
    + rewrite <- Hrow. now apply in_map.
    + intros g Hg Hne. apply in_map_iff. exists g. split; [|exact Hg].
      unfold F. apply Z.eqb_neq in Hne. now rewrite Hne.
    + unfold permanentlyDeleteFile. rewrite Hrange. cbn [negb].
      assert (Hnd' : NoDup (map File.id (map F db))).
      { rewrite map_map, (map_ext (fun x => File.id (F x)) File.id HF).
        exact Hnd. }
      assert (Hin' : In (F row) (map F db)) by now apply in_map.
      pose proof (rows_of_id (map F db) (F row)
                    (fun f => is_deleted (File.deletionStatus f)) Hnd' Hin')
        as Hrows.
      rewrite HF in Hrows. rewrite Hrows, Hrow. reflexivity.
  - intros Hn.
    destruct (File.deletionStatus row) as [[]|]; try reflexivity.
    contradiction.
Qed.

Lemma manual_purge_contract_witness :
  let db := Engine.rows in
  let row := Examples.stored 1 "a.pdf" "1.0" "Current" None (Some deleted) in
  let purge := File.set_deletionStatus permanently_deleted 5000 in
  let r := permanentlyDeleteFile db 5000 (Integer (File.id row)) in
  permanentlyDeleteFile db 5000 Missing = (Fail 400 "Valid file ID required", db)
  /\ permanentlyDeleteFile db 5000 Malformed
     = (Fail 500 "Failed to permanently delete file", db)
  /\ (forall n, int4 n = false ->
        permanentlyDeleteFile db 5000 (Integer n)
        = (Fail 500 "Failed to permanently delete file", db))
  /\ (File.deletionStatus row = Some deleted ->
      fst r = Json (Some (purge row))
      /\ snd r = map (fun g => if File.id g =? File.id row then purge g else g) db
      /\ In (purge row) (snd r)
      /\ (forall g, In g db -> File.id g <> File.id row -> In g (snd r))
      /\ permanentlyDeleteFile (snd r) 7000 (Integer (File.id row))
         = (Fail 404 "File not found in trash", snd r))
  /\ (File.deletionStatus row <> Some deleted ->
      r = (Fail 404 "File not found in trash", db)).
Proof.
  apply (manual_purge_contract Engine.rows 5000 7000
           (Examples.stored 1 "a.pdf" "1.0" "Current" None (Some deleted))).
  - vm_compute. repeat constructor; simpl; intuition discriminate.
  - left. reflexivity.
  - reflexivity.
Defined.

(** An id as the document store generates them, the milliseconds since the
    epoch, is outside the range of the column: the manual purge of such a
    file answers 500. *)
Remark generated_id_is_out_of_range (db : Db) :
  permanentlyDeleteFile db 5000 (Integer 1750000000000)
  = (Fail 500 "Failed to permanently delete file", db).
Proof. reflexivity. Qed.


End ManualPurge.

Module TrashCycle.

Import AwsStorage Trash.

(** What [PutItem] stores under a key is what [GetItem] reads there. *)
Lemma getFile_putFile_same (item : File.t) (table : list File.t) :
  getFile (putFile item table) (File.id item) = Some item.
Proof.
  unfold getFile. induction table as [|g table IH]; cbn [putFile find].
  - now rewrite Z.eqb_refl.
  - destruct (File.id g =? File.id item) eqn:E; cbn [find].
    + now rewrite Z.eqb_refl.
    + rewrite E. exact IH.
Qed.

(** The table a cloud delete leaves: the keys are those of the table, every
    record that carries the container's name is soft-deleted, and the named
    record is stamped when it was selected. *)
Lemma after_cloud_delete table now fileIdNum userId file :
  getFile table fileIdNum = Some file ->
  Js.truthy (Js.or_else (File.originalName file) (File.name file)) = true ->
  NoDup (map File.id table) ->
  let key := Js.or_else (File.originalName file) (File.name file) in
  let selected f := ((File.originalName f =? key)%string && not_deleted f)%bool in
  let F f := if selected f then trashStamp now userId f else f in
  let t1 := snd (moveFileToTrash aws table now (Some fileIdNum) userId) in
  t1 = map F table
  /\ NoDup (map File.id t1)
  /\ getFile t1 fileIdNum = Some (F file)
  /\ (forall g, In g t1 -> File.originalName g = key ->
                is_deleted (File.deletionStatus g) = true).
Proof.
  intros Hget Hkey Hnd. cbv zeta.
  rewrite (SoftDelete.moveFileToTrash_aws _ now _ userId _ Hget Hkey Hnd).
  cbv zeta. cbn [snd].
  set (key := Js.or_else (File.originalName file) (File.name file)).
  set (selected := fun f : File.t =>
                     ((File.originalName f =? key)%string && not_deleted f)%bool).
  set (F := fun f : File.t => if selected f then trashStamp now userId f else f).
  assert (HF : forall f, File.id (F f) = File.id f).
  { intros f. unfold F. destruct (selected f); reflexivity. }
  split; [reflexivity|]. split; [|split].
  - rewrite map_map, (map_ext (fun x => File.id (F x)) File.id HF). exact Hnd.
  - rewrite (SoftDelete.getFile_map F _ _ HF), Hget. reflexivity.
  - intros g Hg Hk. apply in_map_iff in Hg. destruct Hg as (g0 & <- & _).
    revert Hk. unfold F, selected, not_deleted.
    destruct (File.originalName g0 =? key)%string eqn:E1; simpl.
    + destruct (is_deleted (File.deletionStatus g0)) eqn:E2; simpl; intros _;
        [exact E2|reflexivity].
    + intros Hk. rewrite Hk, String.eqb_refl in E1. discriminate.
Qed.

(** X5.  Deleting twice through the cloud store.  Once a file that has an
    original name or a name has been moved to the trash, a second
    [moveFileToTrash] on the same id, at any instant and by anyone, finds no
    active version: it writes nothing and reports 0 versions, yet answers
    success, with a deadline counted from the second call.  The stored purge
    deadline of a file that was active and has an original name stays the one
    of the first delete. *)
Theorem cloud_delete_twice (table : list File.t) (now later fileIdNum : Z)
    (userId userId' : string) (file : File.t) :
  getFile table fileIdNum = Some file ->
  Js.truthy (Js.or_else (File.originalName file) (File.name file)) = true ->
  NoDup (map File.id table) ->
  let t1 := snd (moveFileToTrash aws table now (Some fileIdNum) userId) in
  exists stored,
    getFile t1 fileIdNum = Some stored
    /\ moveFileToTrash aws t1 later (Some fileIdNum) userId'
       = (Json (mkTrashedFile (trashStamp later userId' stored) 0
                  (plus60days later)), t1)
    /\ (Js.truthy (File.originalName file) = true ->
        is_deleted (File.deletionStatus file) = false ->
        stored = trashStamp now userId file
        /\ File.scheduledDeletionAt stored = Some (plus60days now)).
Proof.
  intros Hget Hkey Hnd.
  destruct (after_cloud_delete table now fileIdNum userId file Hget Hkey Hnd)
    as (Ht1 & Hnd1 & Hget1 & Hall).
  cbv zeta in *.
  set (t1 := snd (moveFileToTrash aws table now (Some fileIdNum) userId)) in *.
  set (key := Js.or_else (File.originalName file) (File.name file)) in *.
  assert (Hk : Js.or_else
                 (File.originalName
                    (if ((File.originalName file =? key)%string
                         && not_deleted file)%bool
                     then trashStamp now userId file else file))
                 (File.name
                    (if ((File.originalName file =? key)%string
                         && not_deleted file)%bool
                     then trashStamp now userId file else file)) = key).
  { destruct ((File.originalName file =? key)%string && not_deleted file)%bool;
      reflexivity. }
  eexists. split; [exact Hget1|]. split.
  - assert (Hkey1 : Js.truthy
                      (Js.or_else
                         (File.originalName
                            (if ((File.originalName file =? key)%string
                                 && not_deleted file)%bool
                             then trashStamp now userId file else file))
                         (File.name
                            (if ((File.originalName file =? key)%string
                                 && not_deleted file)%bool
                             then trashStamp now userId file else file))) = true)
      by (rewrite Hk; exact Hkey).
    rewrite (SoftDelete.moveFileToTrash_aws _ later _ userId' _ Hget1 Hkey1 Hnd1).
    cbv zeta. rewrite Hk.
    assert (Hnone : forall g, In g t1 ->
               ((File.originalName g =? key)%string && not_deleted g)%bool = false).
    { intros g Hg. destruct (File.originalName g =? key)%string eqn:E;
        [|reflexivity].
      apply String.eqb_eq in E. unfold not_deleted.
      now rewrite (Hall g Hg E). }
    f_equal.
    + f_equal. f_equal.
      assert (Hf : filter (fun f => ((File.originalName f =? key)%string
                                     && not_deleted f)%bool) t1 = []).
      { apply filter_nil_iff. exact Hnone. }
      now rewrite Hf.
    + rewrite <- (map_id t1) at 2. apply map_ext_in. intros g Hg.
      now rewrite (Hnone g Hg).
  - intros Hname Hact. unfold key.
    rewrite (JsFacts.truthy_or_else _ (File.name file) Hname).
    unfold not_deleted. rewrite String.eqb_refl, Hact. split; reflexivity.
Qed.

Lemma cloud_delete_twice_witness :
  let t1 := snd (moveFileToTrash aws Examples.twoVersions 5000 (Some 20) "u9") in
  exists stored,
    getFile t1 20 = Some stored
    /\ moveFileToTrash aws t1 7000 (Some 20) "u2"
       = (Json (mkTrashedFile (trashStamp 7000 "u2" stored) 0
                  (plus60days 7000)), t1)
    /\ (Js.truthy (File.originalName
                     (Examples.stored 20 "plan.pdf" "2.0" "Current" (Some 1) None))
        = true ->
        is_deleted (File.deletionStatus
                      (Examples.stored 20 "plan.pdf" "2.0" "Current" (Some 1) None))
        = false ->
        stored = trashStamp 5000 "u9"
                   (Examples.stored 20 "plan.pdf" "2.0" "Current" (Some 1) None)
        /\ File.scheduledDeletionAt stored = Some (plus60days 5000)).
Proof.
  apply (cloud_delete_twice Examples.twoVersions 5000 7000 20 "u9" "u2"
           (Examples.stored 20 "plan.pdf" "2.0" "Current" (Some 1) None)).
  - reflexivity.
  - reflexivity.
  - vm_compute. repeat constructor; simpl; intuition discriminate.
Defined.

(** A file with neither name cannot be soft-deleted through the cloud
    store: the handler answers 500 and stamps nothing. *)
Remark nameless_file_is_refused :
  let nameless := File.mk 9 "" "" "1.0" "Current" None None None None None None
                    None 9 9 in
  moveFileToTrash aws [nameless] 5000 (Some 9) "u9"
  = (Fail 500 "Failed to move file to trash", [nameless]).
Proof. reflexivity. Qed.

(** X6.  Delete and restore are not inverse through the cloud store: the
    delete stamps every active version that carries the file's original
    name, the restore brings back the one record it is given.  After both,
    the named record is active again and every other version the delete
    stamped is still in the trash, exactly as the delete left it. *)
Theorem restore_returns_named_version_only (table : list File.t)
    (now later fileIdNum : Z) (userId : string) (file : File.t) :
  getFile table fileIdNum = Some file ->
  NoDup (map File.id table) ->
  0 < fileIdNum ->
  Js.truthy (File.originalName file) = true ->
  is_deleted (File.deletionStatus file) = false ->
  let t1 := snd (moveFileToTrash aws table now (Some fileIdNum) userId) in
  let r := restoreFile aws t1 later (Some fileIdNum) in
  succeeded (fst r) = true
  /\ (exists s, getFile (snd r) fileIdNum = Some s
                /\ File.deletionStatus s = Some active
                /\ File.scheduledDeletionAt s = None)
  /\ (forall g, In g table -> File.id g <> fileIdNum ->
                File.originalName g = File.originalName file ->
                is_deleted (File.deletionStatus g) = false ->
                getFile (snd r) (File.id g) = Some (trashStamp now userId g))
  /\ List.length (snd r) = List.length table.
Proof.
  intros Hget Hnd Hpos Hname Hact.
  destruct (after_cloud_delete table now fileIdNum userId file Hget
              (JsFacts.truthy_key _ _ Hname) Hnd)
    as (Ht1 & Hnd1 & Hget1 & _).
  cbv zeta in *.
  set (t1 := snd (moveFileToTrash aws table now (Some fileIdNum) userId)) in *.
  rewrite (JsFacts.truthy_or_else _ (File.name file) Hname) in Ht1, Hget1.
  set (selected := fun f : File.t =>
                     ((File.originalName f =? File.originalName file)%string
                      && not_deleted f)%bool) in *.
  assert (Hsel : selected file = true).
  { unfold selected, not_deleted. now rewrite String.eqb_refl, Hact. }
  change ((File.originalName file =? File.originalName file)%string
          && not_deleted file)%bool with (selected file) in Hget1.
  rewrite Hsel in Hget1.
  unfold restoreFile. rewrite Hget1. simpl negb. cbv iota.
  unfold storageUpdateFile, AwsStorage.updateFile.
  assert (E : (fileIdNum <=? 0) = false) by (apply Z.leb_gt; auto).
  rewrite E, Hget1. cbn [fst snd succeeded].
  set (merged := File.mk _ _ _ _ _ _ _ _ _ _ _ _ _ _).
  assert (Hmid : File.id (File.serialize merged) = fileIdNum) by reflexivity.
  split; [reflexivity|]. split; [|split].
  - exists (File.serialize merged). split.
    + rewrite <- Hmid at 1.
      apply (StoreFacts.getFile_putFile _ t1 (trashStamp now userId file)).
      rewrite Hmid. exact Hget1.
    + unfold merged.
      destruct (Restore.restoreUpdate_lifecycle (trashStamp now userId file) later)
        as (L1 & _ & _ & L4 & _).
      cbn [File.serialize File.deletionStatus File.scheduledDeletionAt].
      split; assumption.
  - intros g Hg Hne Hon Hga.
    rewrite SoftDelete.getFile_putFile_other by (rewrite Hmid; exact Hne).
    rewrite Ht1.
    assert (HF : forall f, File.id (if selected f then trashStamp now userId f
                                    else f) = File.id f).
    { intros f. destruct (selected f); reflexivity. }
    rewrite (SoftDelete.getFile_map _ table _ HF),
      (SoftDelete.getFile_unique table g Hnd Hg). simpl. f_equal.
    unfold selected, not_deleted. now rewrite Hon, String.eqb_refl, Hga.
  - rewrite (StoreFacts.putFile_length _ t1 (trashStamp now userId file))
      by (rewrite Hmid; exact Hget1).
    rewrite Ht1. apply length_map.
Qed.

Lemma restore_returns_named_version_only_witness :
  let t1 := snd (moveFileToTrash aws Examples.twoVersions 5000 (Some 20) "u9") in
  let r := restoreFile aws t1 7000 (Some 20) in
  succeeded (fst r) = true
  /\ (exists s, getFile (snd r) 20 = Some s
                /\ File.deletionStatus s = Some active
                /\ File.scheduledDeletionAt s = None)
  /\ (forall g, In g Examples.twoVersions -> File.id g <> 20 ->
                File.originalName g
                = File.originalName
                    (Examples.stored 20 "plan.pdf" "2.0" "Current" (Some 1) None) ->
                is_deleted (File.deletionStatus g) = false ->
                getFile (snd r) (File.id g) = Some (trashStamp 5000 "u9" g))
  /\ List.length (snd r) = List.length Examples.twoVersions.
Proof.
  apply (restore_returns_named_version_only Examples.twoVersions 5000 7000 20
           "u9" (Examples.stored 20 "plan.pdf" "2.0" "Current" (Some 1) None)).
  - reflexivity.
  - vm_compute. repeat constructor; simpl; intuition discriminate.
  - lia.
  - reflexivity.
  - reflexivity.
Defined.

(** X7.  Delete, then upload again.  After a file has been moved to the trash
    through the cloud store, an upload that carries the same original
    filename, into whatever project, task and folder, is stored as version
    "1.0" with status Current, and no record is left to supersede. *)
Theorem upload_after_container_delete (table : list File.t)
    (now later fileIdNum : Z) (userId : string) (file : File.t)
    (d : NewFileData.t) :
  getFile table fileIdNum = Some file ->
  NoDup (map File.id table) ->
  Js.truthy (File.originalName file) = true ->
  NewFileData.originalName d = File.originalName file ->
  let t1 := snd (moveFileToTrash aws table now (Some fileIdNum) userId) in
  let r := createFile t1 later d in
  File.version (fst (fst r)) = "1.0"
  /\ File.status (fst (fst r)) = "Current"
  /\ snd r = []
  /\ getFile (snd (fst r)) later = Some (fst (fst r)).
Proof.
  intros Hget Hnd Hname Hd.
  destruct (after_cloud_delete table now fileIdNum userId file Hget
              (JsFacts.truthy_key _ _ Hname) Hnd)
    as (_ & _ & _ & Hall).
  cbv zeta in *.
  set (t1 := snd (moveFileToTrash aws table now (Some fileIdNum) userId)) in *.
  rewrite (JsFacts.truthy_or_else _ (File.name file) Hname) in Hall.
  assert (Hn : Js.truthy (NewFileData.originalName d) = true) by now rewrite Hd.
  assert (He : Lineage.countedFor t1 d = []).
  { unfold Lineage.countedFor. apply filter_nil_iff. intros g Hg.
    unfold Lineage.resolvedFor in Hg. apply filter_In in Hg.
    destruct Hg as [Hg Hm]. apply andb_prop in Hm. destruct Hm as [Hm _].
    apply String.eqb_eq in Hm. rewrite Hd in Hm.
    unfold not_deleted. now rewrite (Hall g Hg Hm). }
  rewrite (VersionManager.createFile_fresh _ _ _ Hn He). cbn [fst snd].
  repeat split.
  set (item := File.serialize _).
  change later with (File.id item) at 1.
  apply getFile_putFile_same.
Qed.

Lemma upload_after_container_delete_witness :
  let d := Examples.upload "plan.pdf" (Some 1) None None in
  let t1 := snd (moveFileToTrash aws Examples.twoVersions 5000 (Some 20) "u9") in
  let r := createFile t1 9000 d in
  File.version (fst (fst r)) = "1.0"
  /\ File.status (fst (fst r)) = "Current"
  /\ snd r = []
  /\ getFile (snd (fst r)) 9000 = Some (fst (fst r)).
Proof.
  apply (upload_after_container_delete Examples.twoVersions 5000 9000 20 "u9"
           (Examples.stored 20 "plan.pdf" "2.0" "Current" (Some 1) None)
           (Examples.upload "plan.pdf" (Some 1) None None)).
  - reflexivity.
  - vm_compute. repeat constructor; simpl; intuition discriminate.
  - reflexivity.
  - reflexivity.
Defined.

End TrashCycle.

Module StoreContract.

Import AwsStorage.

Lemma putFile_fresh_length (item : File.t) (table : list File.t) :
  getFile table (File.id item) = None ->
  List.length (putFile item table) = S (List.length table).
Proof.
  unfold getFile. induction table as [|g table IH]; simpl;
    intros H; [reflexivity|].
  destruct (File.id g =? File.id item); [discriminate|].
  simpl. f_equal. now apply IH.
Qed.

Lemma putFile_ids_fresh (item : File.t) (table : list File.t) :
  getFile table (File.id item) = None ->
  map File.id (putFile item table) = (map File.id table ++ [File.id item])%list.
Proof.
  unfold getFile. induction table as [|g table IH]; cbn [putFile find map app];
    intros H; [reflexivity|].
  destruct (File.id g =? File.id item); [discriminate|].
  cbn [map]. f_equal. now apply IH.
Qed.

(** [createFile] writes one item, under the key [now]. *)
Lemma createFile_put (table : list File.t) (now : Z)
    (d : NewFileData.t) :
  let item := fst (fst (createFile table now d)) in
  let table' := snd (fst (createFile table now d)) in
  File.id item = now
  /\ File.deletionStatus item = None
  /\ File.scheduledDeletionAt item = None
  /\ getFile table' now = Some item
  /\ (forall i, i <> now -> getFile table' i = getFile table i)
  /\ match getFile table now with
     | None => List.length table' = S (List.length table)
     | Some _ => List.length table' = List.length table
     end.
Proof.
  cbv zeta. unfold createFile.
  destruct (handleFileVersioning table now d) as [d' background].
  cbn [fst snd]. set (item := File.serialize _).
  assert (Hid : File.id item = now) by reflexivity.
  split; [exact Hid|]. split; [reflexivity|]. split; [reflexivity|].
  split; [|split].
  - rewrite <- Hid at 1. apply TrashCycle.getFile_putFile_same.
  - intros i Hi. apply SoftDelete.getFile_putFile_other. now rewrite Hid.
  - rewrite <- Hid. destruct (getFile table (File.id item)) as [old|] eqn:E.
    + now apply (StoreFacts.putFile_length item table old).
    + now apply putFile_fresh_length.
Qed.


(** The callback of the version manager, as one pass over a table that
    holds an item under each of the ids. *)
Lemma supersede_loop (fails : Z -> bool) (later : Z) (ids : list Z) :
  forall table,
  (forall i, In i ids -> In i (map File.id table)) ->
  supersedeInBackground fails later table ids =
  map (fun f => if existsb (fun i => (File.id f =? i) && negb (fails i))%bool ids
                then File.set_status "Superseded" later f else f) table.
Proof.
  unfold supersedeInBackground.
  induction ids as [|i ids IH]; intros table Hin; cbn [fold_left existsb].
  - symmetry. apply map_id.
  - assert (Hget : exists f, getFile table i = Some f).
    { destruct (getFile table i) as [f|] eqn:E; [now exists f|].
      exfalso. specialize (Hin i (or_introl eq_refl)).
      apply in_map_iff in Hin. destruct Hin as (f & Ef & Hf).
      unfold getFile in E. apply (find_none _ _ E) in Hf.
      rewrite Ef, Z.eqb_refl in Hf. discriminate. }
    destruct Hget as (f0 & Hget).
    assert (Hstep : updateFileStatus fails later table i "Superseded"
                    = if fails i then table
                      else map (fun f => if File.id f =? i
                                         then File.set_status "Superseded" later f
                                         else f) table).
    { unfold updateFileStatus. now rewrite Hget. }
    rewrite Hstep. destruct (fails i) eqn:Ef.
    + rewrite IH by (intros j Hj; apply Hin; now right).
      apply map_ext. intros f. now rewrite andb_false_r.
    + rewrite IH.
      * rewrite map_map. apply map_ext. intros f.
        rewrite andb_true_r.
        destruct (File.id f =? i) eqn:E; cbn [orb File.set_status File.id].
        -- destruct (existsb _ ids); reflexivity.
        -- reflexivity.
      * intros j Hj. rewrite map_map.
        rewrite (map_ext (fun x => File.id (if File.id x =? i
                                            then File.set_status "Superseded" later x
                                            else x)) File.id).
        -- apply Hin. now right.
        -- intros x. destruct (File.id x =? i); reflexivity.
Qed.

Lemma supersede_hit (fails : Z -> bool) (ids : list Z) (i : Z) :
  In i ids ->
  existsb (fun j => (i =? j) && negb (fails j))%bool ids = negb (fails i).
Proof.
  intros Hi. destruct (fails i) eqn:Ef; cbn [negb].
  - destruct (existsb _ ids) eqn:E; [|reflexivity].
    apply existsb_exists in E. destruct E as (j & _ & Hj).
    apply andb_prop in Hj. destruct Hj as [Hj Hf].
    apply Z.eqb_eq in Hj. subst j. rewrite Ef in Hf. discriminate.
  - apply existsb_exists. exists i. split; [exact Hi|].
    now rewrite Z.eqb_refl, Ef.
Qed.

Lemma supersede_miss (fails : Z -> bool) (ids : list Z) (i : Z) :
  ~ In i ids ->
  existsb (fun j => (i =? j) && negb (fails j))%bool ids = false.
Proof.
  intros Hi. destruct (existsb _ ids) eqn:E; [|reflexivity].
  apply existsb_exists in E. destruct E as (j & Hj & Hm).
  apply andb_prop in Hm. destruct Hm as [Hm _].
  apply Z.eqb_eq in Hm. subst j. contradiction.
Qed.

(** What an upload and its background work leave in a table with unique
    keys none of which is the new id. *)
Lemma settle_effect (table : list File.t) (now later : Z)
    (d : NewFileData.t) (fails : Z -> bool) :
  Js.truthy (NewFileData.originalName d) = true ->
  NoDup (map File.id table) ->
  ~ In now (map File.id table) ->
  let r := createFile table now d in
  let settled := supersedeInBackground fails later (snd (fst r)) (snd r) in
  getFile settled now = Some (fst (fst r))
  /\ (forall g, In g (Lineage.countedFor table d) ->
        getFile settled (File.id g)
        = Some (if fails (File.id g) then g
                else File.set_status "Superseded" later g))
  /\ (forall g, In g table -> ~ In g (Lineage.countedFor table d) ->
        getFile settled (File.id g) = Some g)
  /\ map File.id settled = (map File.id table ++ [now])%list.
Proof.
  intros Hn Hnd Hfresh. cbv zeta.
  assert (Hback : snd (createFile table now d)
                  = map File.id (Lineage.countedFor table d)).
  { unfold createFile.
    rewrite (VersionFacts.handleFileVersioning_cases _ _ _ Hn).
    destruct (Lineage.countedFor table d); reflexivity. }
  rewrite Hback.
  pose proof (createFile_put table now d) as Hc. cbv zeta in Hc.
  destruct Hc as (Hid & _ & _ & Hget & Hother & _).
  set (item := fst (fst (createFile table now d))) in *.
  set (table' := snd (fst (createFile table now d))) in *.
  assert (Hsub : forall g, In g (Lineage.countedFor table d) -> In g table).
  { intros g Hg. unfold Lineage.countedFor, Lineage.resolvedFor in Hg.
    apply filter_In in Hg. destruct Hg as [Hg _].
    apply filter_In in Hg. now destruct Hg. }
  assert (Hne : forall g, In g table -> File.id g <> now).
  { intros g Hg E. apply Hfresh. rewrite <- E. now apply in_map. }
  rewrite supersede_loop.
  2:{ intros i Hi. apply in_map_iff in Hi. destruct Hi as (g & <- & Hg).
      pose proof (Hother _ (Hne g (Hsub g Hg))) as Hsame.
      rewrite (SoftDelete.getFile_unique table g Hnd (Hsub g Hg)) in Hsame.
      unfold getFile in Hsame. apply find_some in Hsame.
      destruct Hsame as [Hin _]. now apply in_map. }
  set (H := fun f : File.t => if existsb _ _ then _ else f).
  assert (HH : forall f, File.id (H f) = File.id f).
  { intros f. unfold H. destruct (existsb _ _); reflexivity. }
  split; [|split; [|split]].
  - rewrite (SoftDelete.getFile_map H _ _ HH), Hget. cbn [option_map]. f_equal.
    unfold H. rewrite supersede_miss; [reflexivity|].
    rewrite Hid. intros Hin. apply in_map_iff in Hin.
    destruct Hin as (g & Eg & Hg). apply (Hne g (Hsub g Hg) Eg).
  - intros g Hg.
    rewrite (SoftDelete.getFile_map H _ _ HH), (Hother _ (Hne g (Hsub g Hg))),
      (SoftDelete.getFile_unique table g Hnd (Hsub g Hg)).
    cbn [option_map]. f_equal. unfold H.
    rewrite supersede_hit by now apply in_map.
    destruct (fails (File.id g)); reflexivity.
  - intros g Hg Hout.
    rewrite (SoftDelete.getFile_map H _ _ HH), (Hother _ (Hne g Hg)),
      (SoftDelete.getFile_unique table g Hnd Hg).
    cbn [option_map]. f_equal. unfold H.
    rewrite supersede_miss; [reflexivity|].
    intros Hin. apply in_map_iff in Hin. destruct Hin as (c & Ec & Hc).
    apply Hout.
    now rewrite <- (SoftDelete.unique_key table c g Hnd (Hsub c Hc) Hg Ec).
  - rewrite map_map, (map_ext (fun x => File.id (H x)) File.id HH).
    unfold table'. unfold createFile.
    destruct (handleFileVersioning table now d) as [d' background].
    cbn [fst snd]. set (it := File.serialize _).
    change now with (File.id it) at 1. apply putFile_ids_fresh.
    change (File.id it) with now.
    destruct (getFile table now) as [old|] eqn:E; [|reflexivity].
    exfalso. apply Hfresh.
    rewrite <- (StoreFacts.getFile_id _ _ _ E).
    apply in_map. unfold getFile in E. now apply find_some in E.
Qed.


(** X9.  An upload followed by its background work, on a table with unique
    keys none of which is the new id.  The new record is stored and stays as
    uploaded: the callback never supersedes it.  Each record the version
    manager counted is marked Superseded when its store call succeeds and is
    left as it was when the call fails; every other record of the table is
    left as it was, and no record is added or removed by the callback. *)
Theorem upload_then_settle (table : list File.t) (now later : Z)
    (d : NewFileData.t) (fails : Z -> bool) :
  Js.truthy (NewFileData.originalName d) = true ->
  NoDup (map File.id table) ->
  ~ In now (map File.id table) ->
  let r := createFile table now d in
  let settled := supersedeInBackground fails later (snd (fst r)) (snd r) in
  getFile settled now = Some (fst (fst r))
  /\ (forall g, In g (Lineage.countedFor table d) ->
        getFile settled (File.id g)
        = Some (if fails (File.id g) then g
                else File.set_status "Superseded" later g))
  /\ (forall g, In g table -> ~ In g (Lineage.countedFor table d) ->
        getFile settled (File.id g) = Some g)
  /\ map File.id settled = (map File.id table ++ [now])%list.
Proof. exact (settle_effect table now later d fails). Qed.

Lemma upload_then_settle_witness :
  let d := Examples.upload "plan.pdf" (Some 1) None None in
  let fails := fun i => i =? 10 in
  let r := createFile Examples.twoVersions 1000 d in
  let settled := supersedeInBackground fails 1001 (snd (fst r)) (snd r) in
  getFile settled 1000 = Some (fst (fst r))
  /\ (forall g, In g (Lineage.countedFor Examples.twoVersions d) ->
        getFile settled (File.id g)
        = Some (if fails (File.id g) then g
                else File.set_status "Superseded" 1001 g))
  /\ (forall g, In g Examples.twoVersions ->
        ~ In g (Lineage.countedFor Examples.twoVersions d) ->
        getFile settled (File.id g) = Some g)
  /\ map File.id settled = (map File.id Examples.twoVersions ++ [1000])%list.
Proof.
  apply (upload_then_settle Examples.twoVersions 1000 1001
           (Examples.upload "plan.pdf" (Some 1) None None) (fun i => i =? 10)).
  - reflexivity.
  - vm_compute. repeat constructor; simpl; intuition discriminate.
  - vm_compute. intuition discriminate.
Defined.

(** X10.  [AwsStorage.updateFile].  The call throws, and writes nothing,
    exactly when the id is not positive or no record is stored under it.
    Otherwise the object it returns keeps the id it was called with, whatever
    the update says, and carries the instant of the call; its serialized
    form is what [getFile] then reads under that id; every other key reads
    as before and the table keeps its size. *)
Theorem updateFile_contract (table : list File.t) (now id : Z)
    (updates : File.t -> File.t) :
  match updateFile table now id updates with
  | None => id <= 0 \/ getFile table id = None
  | Some (merged, table') =>
      0 < id
      /\ (exists existing, getFile table id = Some existing)
      /\ File.id merged = id
      /\ File.updatedAt merged = now
      /\ getFile table' id = Some (File.serialize merged)
      /\ (forall i, i <> id -> getFile table' i = getFile table i)
      /\ List.length table' = List.length table
  end.
Proof.
  unfold updateFile. destruct (id <=? 0) eqn:E.
  - left. now apply Z.leb_le.
  - apply Z.leb_gt in E.
    destruct (getFile table id) as [existing|] eqn:Hget; [|now right].
    set (merged := File.mk _ _ _ _ _ _ _ _ _ _ _ _ _ _).
    assert (Hid : File.id (File.serialize merged) = id) by reflexivity.
    split; [exact E|]. split; [now exists existing|].
    split; [reflexivity|]. split; [reflexivity|]. split; [|split].
    + rewrite <- Hid at 1. apply TrashCycle.getFile_putFile_same.
    + intros i Hi. apply SoftDelete.getFile_putFile_other. now rewrite Hid.
    + apply (StoreFacts.putFile_length _ table existing). now rewrite Hid.
Qed.

End StoreContract.

(** ** Version numbers *)

Module VersionNumbering.

Import AwsStorage.




End VersionNumbering.


(** * Further properties of the shareable links *)

Module LinkLife.

Import Links LinkRules LinkAdmin.

Lemma lookup_putLink_other (key k : string) (item : ShareableLink.t) :
  forall store, k <> key -> lookup (putLink key item store) k = lookup store k.
Proof.
  unfold lookup. intros store Hk. apply String.eqb_neq in Hk.
  induction store as [|kv store IH]; simpl.
  - rewrite String.eqb_sym, Hk. reflexivity.
  - destruct (fst kv =? key)%string eqn:E; simpl.
    + apply String.eqb_eq in E. rewrite E, (String.eqb_sym key k), Hk.
      reflexivity.
    + destruct (fst kv =? k)%string; [reflexivity|exact IH].
Qed.

Lemma lookup_delete (linkId k : string) : forall store,
  lookup (filter (fun kv => negb (fst kv =? linkId)%string) store) k
  = if (k =? linkId)%string then None else lookup store k.
Proof.
  unfold lookup. induction store as [|kv store IH]; simpl.
  - now destruct (k =? linkId)%string.
  - destruct (fst kv =? linkId)%string eqn:E; simpl.
    + rewrite IH. destruct (k =? linkId)%string eqn:Ek; [reflexivity|].
      apply String.eqb_eq in E. rewrite E, String.eqb_sym, Ek. reflexivity.
    + destruct (fst kv =? k)%string eqn:Ek.
      * apply String.eqb_eq in Ek. rewrite <- Ek, E. reflexivity.
      * exact IH.
Qed.

Lemma truthy_num_idem (x : option Z) :
  Js.truthy_num (Js.truthy_num x) = Js.truthy_num x.
Proof. destruct x as [[]|]; reflexivity. Qed.

(** X11.  Creating a link and reading it back.  For a generated id (valid,
    without surrounding white space), a successful [createShareableLink]
    leaves every other key as it was.  The link is stored with its resource
    id trimmed: when the trimmed id is empty or ['undefined'] (a blank
    resource id passes the validation of the creation) the link just created
    cannot be read, [getShareableLink] answers [null]; otherwise it is read
    back under its id with the trimmed resource id, the resource type, the
    expiry, the cap and the flags of the link that was answered, and a
    counter of 0. *)
Theorem create_then_get (store : Store) (linkId : string) (data : LinkData)
    (link : ShareableLink.t) (store' : Store) :
  invalidId linkId = false ->
  Js.trim linkId = linkId ->
  createShareableLink store linkId data = (Json link, store') ->
  let rid := Js.trim (resourceId data) in
  (forall k, k <> linkId -> lookup store' k = lookup store k)
  /\ if (negb (Js.truthy rid) || (rid =? "undefined")%string)%bool
     then getShareableLink store' linkId = None
     else exists stored,
         getShareableLink store' linkId = Some stored
         /\ ShareableLink.id stored = linkId
         /\ ShareableLink.resourceId stored = rid
         /\ ShareableLink.resourceType stored = ShareableLink.resourceType link
         /\ ShareableLink.currentUses stored = 0
         /\ ShareableLink.maxUses stored = ShareableLink.maxUses link
         /\ ShareableLink.expiresAt stored = ShareableLink.expiresAt link
         /\ ShareableLink.isActive stored = ShareableLink.isActive link
         /\ ShareableLink.isPublic stored = ShareableLink.isPublic link.
Proof.
  intros Hv Htrim Hc. cbv zeta. unfold createShareableLink in Hc.
  cbn [ShareableLink.resourceId ShareableLink.resourceType] in Hc.
  destruct (invalidId (resourceId data)); [discriminate|].
  destruct (negb ((Js.toLowerCase (Js.or_else (resourceType data) "file")
                   =? "file")%string
                  || (Js.toLowerCase (Js.or_else (resourceType data) "file")
                      =? "folder")%string)) eqn:Ety; [discriminate|].
  injection Hc as <- <-.
  split; [intros k Hk; now apply lookup_putLink_other|].
  unfold getShareableLink. rewrite Hv, LinkFacts.lookup_putLink.
  cbn [ShareableLink.serialize ShareableLink.id ShareableLink.resourceId
       ShareableLink.resourceType ShareableLink.maxUses
       ShareableLink.currentUses ShareableLink.expiresAt
       ShareableLink.isActive ShareableLink.isPublic].
  rewrite Htrim.
  assert (Hid : (negb (Js.truthy (Js.or_else linkId linkId))
                 || (Js.or_else linkId linkId =? "undefined")%string)%bool
                = false).
  { unfold invalidId in Hv. apply orb_false_elim in Hv. destruct Hv as [Hv _].
    unfold Js.or_else. destruct (linkId =? "")%string; exact Hv. }
  rewrite Hid.
  destruct (negb (Js.truthy (Js.trim (resourceId data)))
            || (Js.trim (resourceId data) =? "undefined")%string)%bool;
    [reflexivity|].
  eexists. split; [reflexivity|].
  cbn [ShareableLink.id ShareableLink.resourceId ShareableLink.resourceType
       ShareableLink.maxUses ShareableLink.currentUses ShareableLink.expiresAt
       ShareableLink.isActive ShareableLink.isPublic].
  assert (Hor : Js.or_else linkId linkId = linkId).
  { unfold Js.or_else. now destruct (linkId =? "")%string. }
  rewrite Hor, truthy_num_idem.
  repeat split.
  apply negb_false_iff, orb_prop in Ety.
  destruct Ety as [E|E]; apply String.eqb_eq in E; rewrite E; reflexivity.
Qed.

Lemma create_then_get_witness :
  let data := request " 77 " None None (Some 3) in
  let link := ShareableLink.mk "L2" "file" " 77 " "view" true None None (Some 3)
                0 "u1" true in
  let store' := snd (createShareableLink protectedStore "L2" data) in
  let rid := Js.trim (resourceId data) in
  (forall k, k <> "L2" -> lookup store' k = lookup protectedStore k)
  /\ if (negb (Js.truthy rid) || (rid =? "undefined")%string)%bool
     then getShareableLink store' "L2" = None
     else exists stored,
         getShareableLink store' "L2" = Some stored
         /\ ShareableLink.id stored = "L2"
         /\ ShareableLink.resourceId stored = rid
         /\ ShareableLink.resourceType stored = ShareableLink.resourceType link
         /\ ShareableLink.currentUses stored = 0
         /\ ShareableLink.maxUses stored = ShareableLink.maxUses link
         /\ ShareableLink.expiresAt stored = ShareableLink.expiresAt link
         /\ ShareableLink.isActive stored = ShareableLink.isActive link
         /\ ShareableLink.isPublic stored = ShareableLink.isPublic link.
Proof.
  apply (create_then_get protectedStore "L2"
           (request " 77 " None None (Some 3))
           (ShareableLink.mk "L2" "file" " 77 " "view" true None None (Some 3)
              0 "u1" true)).
  - reflexivity.
  - reflexivity.
  - reflexivity.
Defined.

(** A resource id of one space is accepted by the creation; the link it
    stores cannot be read, and both public routes answer 404. *)
Example blank_resource_id_is_unreadable :
  let r := createShareableLink [] "L1" (request " " None None None) in
  succeeded (fst r) = true
  /\ getShareableLink (snd r) "L1" = None
  /\ fst (sharedLinkApi (snd r) 10 "L1" None)
     = Fail 404 "Link not found or inactive"
  /\ fst (sharedLinkBrowser (snd r) 10 "L1")
     = Fail 404 "Link not found or inactive".
Proof. repeat split; reflexivity. Qed.

Lemma set_uses_eta (link : ShareableLink.t) :
  ShareableLink.set_currentUses (ShareableLink.currentUses link) link = link.
Proof. destruct link; reflexivity. Qed.

(** One resolution of a link that is active, has no expiry and no password,
    through either route. *)
Lemma access_on_open_link linkId store a link :
  getShareableLink store linkId = Some link ->
  ShareableLink.isActive link = true ->
  ShareableLink.expiresAt link = None ->
  ShareableLink.password link = None ->
  access linkId store a
  = if exhausted link then store
    else updateCurrentUses store linkId (ShareableLink.currentUses link + 1).
Proof.
  intros Hget Ha He Hp.
  pose proof (LinkFacts.get_some_valid _ _ _ Hget) as Hv.
  destruct a as [now password|now]; simpl.
  - unfold sharedLinkApi, expired, passwordMismatch.
    rewrite (LinkFacts.valid_guard _ Hv), Hget, Ha, He, Hp. simpl negb.
    cbv iota. destruct (exhausted link); reflexivity.
  - unfold sharedLinkBrowser, expired.
    rewrite (LinkFacts.valid_guard _ Hv), Hget, Ha, He. simpl negb.
    cbv iota. destruct (exhausted link); [reflexivity|].
    destruct (_ && _)%bool; reflexivity.
Qed.

Lemma counter_walk linkId (l : list Access) : forall store link,
  getShareableLink store linkId = Some link ->
  ShareableLink.isActive link = true ->
  ShareableLink.expiresAt link = None ->
  ShareableLink.password link = None ->
  withinCap link ->
  getShareableLink (accesses linkId store l) linkId
  = Some (ShareableLink.set_currentUses
            (match ShareableLink.maxUses link with
             | Some m => Z.min m (ShareableLink.currentUses link
                                  + Z.of_nat (List.length l))
             | None => ShareableLink.currentUses link
                       + Z.of_nat (List.length l)
             end) link).
Proof.
  unfold accesses.
  induction l as [|a l IH]; intros store link Hget Ha He Hp Hcap.
  - cbn [fold_left List.length Z.of_nat]. rewrite Hget. f_equal.
    rewrite <- (set_uses_eta link) at 1. f_equal.
    unfold withinCap in Hcap.
    destruct (ShareableLink.maxUses link); lia.
  - cbn [fold_left]. rewrite (access_on_open_link _ _ _ _ Hget Ha He Hp).
    destruct (LinkFacts.get_normalized _ _ _ Hget) as [Hz _].
    destruct (exhausted link) eqn:Ex.
    + rewrite (IH store link Hget Ha He Hp Hcap). f_equal. f_equal.
      apply (LinkFacts.exhausted_iff _ Hz) in Ex.
      destruct Ex as (m & Em & Hle). unfold withinCap in Hcap.
      rewrite Em in *. cbn [List.length]. lia.
    + pose proof (LinkFacts.get_after_update _ _ _
                    (ShareableLink.currentUses link + 1) Hget) as Hget'.
      assert (Hcap' : withinCap (ShareableLink.set_currentUses
                                   (ShareableLink.currentUses link + 1) link)).
      { assert (Hn : forall m, ShareableLink.maxUses link = Some m ->
                                 ~ m <= ShareableLink.currentUses link).
        { intros m Em Hle.
          assert (E : exhausted link = true)
            by (apply (LinkFacts.exhausted_iff _ Hz); now exists m).
          congruence. }
        unfold withinCap in Hcap |- *.
        cbn [ShareableLink.set_currentUses ShareableLink.maxUses
             ShareableLink.currentUses].
        destruct (ShareableLink.maxUses link) as [m|]; [|exact I].
        specialize (Hn m eq_refl). lia. }
      rewrite (IH _ _ Hget' Ha He Hp Hcap').
      cbn [ShareableLink.set_currentUses ShareableLink.maxUses
           ShareableLink.currentUses ShareableLink.id
           ShareableLink.resourceType ShareableLink.resourceId
           ShareableLink.linkType ShareableLink.isPublic
           ShareableLink.password ShareableLink.expiresAt
           ShareableLink.createdBy ShareableLink.isActive].
      f_equal. unfold ShareableLink.set_currentUses. f_equal.
      cbn [List.length]. destruct (ShareableLink.maxUses link); lia.
Qed.

(** X12.  How many times a link resolves.  For a stored link that is active
    and has neither expiry nor password, with its counter [c] within its cap:
    after any [n] resolutions, through either route, at any instants and
    with any passwords, the link is still read, its counter is
    [min(cap, c + n)] ([c + n] without a cap), and its cap, tier, resource
    reference, active flag, expiry and password are as before.  So a link
    with cap [m] resolves exactly [m - c] more times: the next request
    succeeds exactly when [c + n < m], and is refused with 410 otherwise. *)
Theorem link_resolves_cap_times (store : Store) (linkId : string)
    (link : ShareableLink.t) (l : list Access) :
  getShareableLink store linkId = Some link ->
  ShareableLink.isActive link = true ->
  ShareableLink.expiresAt link = None ->
  ShareableLink.password link = None ->
  withinCap link ->
  let n := Z.of_nat (List.length l) in
  let c := ShareableLink.currentUses link in
  let after := accesses linkId store l in
  (exists stored,
     getShareableLink after linkId = Some stored
     /\ ShareableLink.currentUses stored
        = match ShareableLink.maxUses link with
          | Some m => Z.min m (c + n)
          | None => c + n
          end
     /\ ShareableLink.maxUses stored = ShareableLink.maxUses link
     /\ ShareableLink.linkType stored = ShareableLink.linkType link
     /\ ShareableLink.resourceType stored = ShareableLink.resourceType link
     /\ ShareableLink.resourceId stored = ShareableLink.resourceId link
     /\ ShareableLink.isActive stored = true
     /\ ShareableLink.expiresAt stored = None
     /\ ShareableLink.password stored = None)
  /\ forall now password,
       match ShareableLink.maxUses link with
       | Some m =>
           if c + n <? m
           then succeeded (fst (sharedLinkApi after now linkId password)) = true
                /\ succeeded (fst (sharedLinkBrowser after now linkId)) = true
           else sharedLinkApi after now linkId password
                = (Fail 410 "Link usage limit exceeded", after)
                /\ sharedLinkBrowser after now linkId
                   = (Fail 410 "Link usage limit exceeded", after)
       | None =>
           succeeded (fst (sharedLinkApi after now linkId password)) = true
           /\ succeeded (fst (sharedLinkBrowser after now linkId)) = true
       end.
Proof.
  intros Hget Ha He Hp Hcap. cbv zeta.
  pose proof (counter_walk linkId l store link Hget Ha He Hp Hcap) as Hw.
  split.
  { eexists. split; [exact Hw|].
    cbn [ShareableLink.set_currentUses ShareableLink.currentUses
         ShareableLink.maxUses ShareableLink.linkType
         ShareableLink.resourceType ShareableLink.resourceId
         ShareableLink.isActive ShareableLink.expiresAt ShareableLink.password].
    repeat split; assumption. }
  intros now password.
  pose proof (LinkFacts.get_some_valid _ _ _ Hget) as Hv.
  destruct (LinkFacts.get_normalized _ _ _ Hget) as [Hz _].
  unfold sharedLinkApi, sharedLinkBrowser, expired, passwordMismatch.
  rewrite (LinkFacts.valid_guard _ Hv), Hw.
  cbn [ShareableLink.set_currentUses ShareableLink.isActive
       ShareableLink.expiresAt ShareableLink.password].
  rewrite Ha, He, Hp. simpl negb. cbv iota.
  unfold exhausted, withinCap in *.
  cbn [ShareableLink.set_currentUses ShareableLink.maxUses
       ShareableLink.currentUses].
  destruct (ShareableLink.maxUses link) as [m|] eqn:Em.
  - assert (Hm : m <> 0) by congruence.
    destruct (ShareableLink.currentUses link + Z.of_nat (List.length l) <? m)
      eqn:El.
    + apply Z.ltb_lt in El.
      assert (Ex : (m <=? Z.min m (ShareableLink.currentUses link
                                   + Z.of_nat (List.length l))) = false)
        by (apply Z.leb_gt; lia).
      destruct m; [contradiction| |]; rewrite Ex;
        (split; [reflexivity|destruct (_ && _)%bool; reflexivity]).
    + apply Z.ltb_ge in El.
      assert (Ex : (m <=? Z.min m (ShareableLink.currentUses link
                                   + Z.of_nat (List.length l))) = true)
        by (apply Z.leb_le; lia).
      destruct m; [contradiction| |]; rewrite Ex; split; reflexivity.
  - split; [reflexivity|destruct (_ && _)%bool; reflexivity].
Qed.

Lemma link_resolves_cap_times_witness :
  let store := snd (createShareableLink [] "L1"
                      (request "42" None None (Some 2))) in
  let link := ShareableLink.mk "L1" "file" "42" "view" true None None (Some 2)
                0 "u1" true in
  let l := [ViaApi 10 None; ViaBrowser 20; ViaApi 30 (Some "x")] in
  let n := Z.of_nat (List.length l) in
  let c := ShareableLink.currentUses link in
  let after := accesses "L1" store l in
  (exists stored,
     getShareableLink after "L1" = Some stored
     /\ ShareableLink.currentUses stored
        = match ShareableLink.maxUses link with
          | Some m => Z.min m (c + n)
          | None => c + n
          end
     /\ ShareableLink.maxUses stored = ShareableLink.maxUses link
     /\ ShareableLink.linkType stored = ShareableLink.linkType link
     /\ ShareableLink.resourceType stored = ShareableLink.resourceType link
     /\ ShareableLink.resourceId stored = ShareableLink.resourceId link
     /\ ShareableLink.isActive stored = true
     /\ ShareableLink.expiresAt stored = None
     /\ ShareableLink.password stored = None)
  /\ forall now password,
       match ShareableLink.maxUses link with
       | Some m =>
           if c + n <? m
           then succeeded (fst (sharedLinkApi after now "L1" password)) = true
                /\ succeeded (fst (sharedLinkBrowser after now "L1")) = true
           else sharedLinkApi after now "L1" password
                = (Fail 410 "Link usage limit exceeded", after)
                /\ sharedLinkBrowser after now "L1"
                   = (Fail 410 "Link usage limit exceeded", after)
       | None =>
           succeeded (fst (sharedLinkApi after now "L1" password)) = true
           /\ succeeded (fst (sharedLinkBrowser after now "L1")) = true
       end.
Proof.
  apply (link_resolves_cap_times
           (snd (createShareableLink [] "L1" (request "42" None None (Some 2))))
           "L1"
           (ShareableLink.mk "L1" "file" "42" "view" true None None (Some 2)
              0 "u1" true)
           [ViaApi 10 None; ViaBrowser 20; ViaApi 30 (Some "x")]).
  - reflexivity.
  - reflexivity.
  - reflexivity.
  - reflexivity.
  - unfold withinCap. simpl. lia.
Defined.


(** X14.  Deleting a link.  [deleteShareableLink] throws exactly on an id
    that is empty, ['undefined'] or ['null'].  Otherwise the link can no
    longer be read, both public routes answer 404 without writing and so
    does [GET /api/shareable-links/:linkId]; every other link reads as
    before; and deleting an id under which nothing is stored succeeds and
    changes nothing.  The route answers 400 for an empty
    or ['undefined'] id, 500 for ['null'], and 204 otherwise, whether or not
    the link existed. *)
Theorem delete_link_contract (store : Store) (linkId : string) :
  match deleteShareableLink store linkId with
  | None =>
      invalidId linkId = true
      /\ snd (processDeleteShareableLink store linkId) = store
      /\ fst (processDeleteShareableLink store linkId)
         = (if (linkId =? "null")%string then 500 else 400)
  | Some store' =>
      invalidId linkId = false
      /\ processDeleteShareableLink store linkId = (204, store')
      /\ getShareableLink store' linkId = None
      /\ (forall k, k <> linkId ->
                    getShareableLink store' k = getShareableLink store k)
      /\ (forall now password,
             sharedLinkApi store' now linkId password
             = (Fail 404 "Link not found or inactive", store'))
      /\ (forall now,
             sharedLinkBrowser store' now linkId
             = (Fail 404 "Link not found or inactive", store'))
      /\ processGetShareableLink store' linkId
         = Fail 404 "Shareable link not found"
      /\ (lookup store linkId = None -> store' = store)
  end.
Proof.
  unfold processDeleteShareableLink, deleteShareableLink.
  destruct (invalidId linkId) eqn:Hv.
  - split; [reflexivity|].
    unfold invalidId in Hv.
    destruct (negb (Js.truthy linkId) || (linkId =? "undefined")%string)%bool
      eqn:Hg.
    + split; [reflexivity|].
      destruct (linkId =? "null")%string eqn:En; [|reflexivity].
      apply String.eqb_eq in En. subst linkId. discriminate.
    + cbn [orb] in Hv. rewrite Hv. split; reflexivity.
  - rewrite (LinkFacts.valid_guard _ Hv).
    assert (Hgone : getShareableLink
                      (filter (fun kv => negb (fst kv =? linkId)%string) store)
                      linkId = None).
    { unfold getShareableLink. rewrite Hv, lookup_delete, String.eqb_refl.
      reflexivity. }
    split; [reflexivity|]. split; [reflexivity|]. split; [exact Hgone|].
    split; [|split; [|split; [|split]]].
    + intros k Hk. unfold getShareableLink.
      rewrite lookup_delete. apply String.eqb_neq in Hk. now rewrite Hk.
    + intros now password. unfold sharedLinkApi.
      now rewrite (LinkFacts.valid_guard _ Hv), Hgone.
    + intros now. unfold sharedLinkBrowser.
      now rewrite (LinkFacts.valid_guard _ Hv), Hgone.
    + unfold processGetShareableLink.
      now rewrite (LinkFacts.valid_guard _ Hv), Hgone.
    + unfold lookup. intros Hnone.
      destruct (find (fun kv => (fst kv =? linkId)%string) store) eqn:E;
        [discriminate|].
      clear Hnone Hgone. induction store as [|kv store IH]; [reflexivity|].
      simpl in E |- *.
      destruct (fst kv =? linkId)%string; [discriminate|].
      simpl. f_equal. now apply IH.
Qed.

End LinkLife.


(** * Permissions *)

Module Permissions.

Import RoleAuth.

(** The table has seven roles; every other string has no own entry. *)
Lemma ownConfig_cases (r : string) :
  (r = "admin" /\ ownConfig r = Some (mkRole 100 ["*"]))
  \/ (exists cfg, ownConfig r = Some cfg
                  /\ r <> "admin"
                  /\ includes (permissions cfg) "*" = false
                  /\ (r = "executive"
                      /\ forallb (includes (permissions cfg)) trashPermissions
                         = true
                      \/ r <> "executive"
                         /\ existsb (includes (permissions cfg)) trashPermissions
                            = false)
                  /\ 0 < level cfg < 100)
  \/ (ownConfig r = None /\ r <> "admin" /\ r <> "executive").
Proof.
  unfold ownConfig, ROLES. cbn [find fst snd].
  destruct (String.eqb_spec "admin" r) as [<-|N1]; [left; split; reflexivity|].
  destruct (String.eqb_spec "executive" r) as [<-|N2].
  { right; left. eexists. split; [reflexivity|]. split; [discriminate|].
    split; [reflexivity|]. split; [left; split; reflexivity|].
    cbn [level snd]. lia. }
  destruct (String.eqb_spec "project_manager" r) as [<-|N3];
    [|destruct (String.eqb_spec "drafter" r) as [<-|N4];
      [|destruct (String.eqb_spec "qc1" r) as [<-|N5];
        [|destruct (String.eqb_spec "qc2" r) as [<-|N6];
          [|destruct (String.eqb_spec "client" r) as [<-|N7]]]]];
    try (right; left; eexists; split; [reflexivity|];
         split; [discriminate|]; split; [reflexivity|];
         split; [right; split; [discriminate|reflexivity]
                |cbn [level snd]; lia]).
  right; right. repeat split; congruence.
Qed.

Lemma includes_In (l : list string) (s : string) :
  includes l s = true <-> In s l.
Proof.
  unfold includes. rewrite existsb_exists. split.
  - intros (x & Hx & E). apply String.eqb_eq in E. now subst.
  - intros H. exists s. split; [exact H|apply String.eqb_refl].
Qed.

(** An inherited property name is no role of the table. *)
Lemma inherited_not_own (r : string) :
  In r inherited -> ownConfig r = None /\ r <> "".
Proof.
  intros H. unfold inherited in H. cbn [In] in H.
  repeat (destruct H as [<-|H]; [split; [reflexivity|discriminate]|]).
  contradiction.
Qed.

(** [hasPermission] on the permissions of the trash routes. *)
Lemma hasPermission_trash (r p : string) :
  In p trashPermissions ->
  (hasPermission r p = Some true <-> r = "admin" \/ r = "executive").
Proof.
  intros Hp. unfold hasPermission.
  destruct (ownConfig_cases r)
    as [[-> ->]|[(cfg & -> & Hna & Hstar & Hcase & _)|(-> & N1 & N2)]].
  - split; [now left|reflexivity].
  - rewrite Hstar. cbn [orb].
    destruct Hcase as [[-> Hall]|[Hne Hnone]].
    + rewrite forallb_forall in Hall. rewrite (Hall p Hp).
      split; [now right|reflexivity].
    + assert (E : includes (permissions cfg) p = false).
      { destruct (includes (permissions cfg) p) eqn:E; [|reflexivity].
        assert (Hex : existsb (includes (permissions cfg)) trashPermissions
                      = true)
          by (apply existsb_exists; now exists p).
        congruence. }
      rewrite E. split; [discriminate|].
      intros [-> | ->]; contradiction.
  - destruct (includes inherited r); (split; [discriminate|]);
      intros [-> | ->]; contradiction.
Qed.

(** X15.  Who passes the trash middleware.  For each of the five permissions
    the trash routes ask for, [requireTrashPermission] lets a request through
    exactly when it carries a user whose role is [admin] or [executive].
    Without a user it answers 401; a user without a role is treated as a
    [client] and answered 403, like every other role of the table; a role
    that names a property every object inherits makes the check throw and is
    answered 500. *)
Theorem trash_gate_passes_admin_and_executive (permission : string)
    (user : option User) :
  In permission trashPermissions ->
  (requireTrashPermission permission user = Next <->
   exists u, user = Some u
             /\ (role u = Some "admin" \/ role u = Some "executive"))
  /\ (user = None ->
      requireTrashPermission permission user
      = Deny 401 "Authentication required")
  /\ (forall u, user = Some u -> role u = None \/ role u = Some "" ->
        requireTrashPermission permission user
        = Deny 403 ("Access denied. Required permission: " ++ permission))
  /\ (forall u r, user = Some u -> role u = Some r ->
        (requireTrashPermission permission user
         = Deny 500 "Permission check failed" <-> In r inherited)).
Proof.
  intros Hp. split; [|split; [|split]].
  - destruct user as [u|]; cbn [requireTrashPermission].
    + set (r := Js.or_else match role u with Some r => r | None => "" end
                  "client").
      pose proof (hasPermission_trash r permission Hp) as Hh.
      destruct (hasPermission r permission) as [[]|] eqn:E.
      * split; [intros _|reflexivity].
        exists u. split; [reflexivity|].
        destruct Hh as [Hh _]. specialize (Hh eq_refl). unfold r in Hh.
        destruct (role u) as [s|]; cbn in Hh.
        -- unfold Js.or_else in Hh. destruct (s =? "")%string;
             [destruct Hh; discriminate|].
           destruct Hh as [-> | ->]; auto.
        -- destruct Hh; discriminate.
      * split; [discriminate|]. intros (u' & Hu & Hr). injection Hu as <-.
        assert (Hr' : r = "admin" \/ r = "executive").
        { unfold r. destruct Hr as [-> | ->]; [left|right]; reflexivity. }
        apply Hh in Hr'. discriminate.
      * split; [discriminate|]. intros (u' & Hu & Hr). injection Hu as <-.
        assert (Hr' : r = "admin" \/ r = "executive").
        { unfold r. destruct Hr as [-> | ->]; [left|right]; reflexivity. }
        apply Hh in Hr'. discriminate.
    + split; [discriminate|]. intros (u & Hu & _). discriminate.
  - intros ->. reflexivity.
  - intros u -> Hr. cbn [requireTrashPermission].
    assert (Hc : Js.or_else match role u with Some r => r | None => "" end
                   "client" = "client")
      by (destruct Hr as [-> | ->]; reflexivity).
    rewrite Hc.
    pose proof (hasPermission_trash "client" permission Hp) as Hh.
    assert (E : hasPermission "client" permission
                = Some (includes
                          ["view_dashboard"; "view_projects"; "view_tasks";
                           "view_files"; "download_files"; "comment_files";
                           "direct_messaging"; "receive_notifications"]
                          permission)) by reflexivity.
    rewrite E in *.
    destruct (includes _ permission); [|reflexivity].
    destruct Hh as [Hh _]. destruct (Hh eq_refl); discriminate.
  - intros u r -> Hr. cbn [requireTrashPermission]. rewrite Hr.
    unfold Js.or_else. destruct (String.eqb_spec r "") as [->|Hne].
    + assert (E : hasPermission "client" permission
                  = Some (includes
                            ["view_dashboard"; "view_projects"; "view_tasks";
                             "view_files"; "download_files"; "comment_files";
                             "direct_messaging"; "receive_notifications"]
                            permission)) by reflexivity.
      rewrite E. split.
      * destruct (includes _ permission); discriminate.
      * intros Hin. vm_compute in Hin. exfalso. intuition discriminate.
    + unfold hasPermission. destruct (ownConfig r) as [cfg|] eqn:Eo.
      * split.
        -- destruct (_ || _)%bool; discriminate.
        -- intros Hin. destruct (inherited_not_own r Hin) as [Hn _].
           congruence.
      * destruct (includes inherited r) eqn:Ei.
        -- split; [intros _; now apply includes_In|reflexivity].
        -- split; [discriminate|]. intros Hin.
           apply includes_In in Hin. congruence.
Qed.

Lemma trash_gate_passes_admin_and_executive_witness :
  let user := Some (mkUser "u7" (Some "executive")) in
  (requireTrashPermission "restore_items" user = Next <->
   exists u, user = Some u
             /\ (role u = Some "admin" \/ role u = Some "executive"))
  /\ (user = None ->
      requireTrashPermission "restore_items" user
      = Deny 401 "Authentication required")
  /\ (forall u, user = Some u -> role u = None \/ role u = Some "" ->
        requireTrashPermission "restore_items" user
        = Deny 403 ("Access denied. Required permission: " ++ "restore_items"))
  /\ (forall u r, user = Some u -> role u = Some r ->
        (requireTrashPermission "restore_items" user
         = Deny 500 "Permission check failed" <-> In r inherited)).
Proof.
  apply (trash_gate_passes_admin_and_executive "restore_items"
           (Some (mkUser "u7" (Some "executive")))).
  simpl. auto.
Defined.

(** X16.  The permission middleware and the utility agree.
    [requirePermission] lets a session through exactly when its role (a
    [client] when the session names none) is a role of the table for which
    [hasPermission] holds of every required permission; it answers 500
    exactly when [hasPermission] would throw, that is, when the role names
    an inherited property; every other refusal is a 403.  And
    [hasPermission] holds of a permission exactly when the list
    [getUserPermissions] gives for the role has ['*'] or that permission. *)
Theorem requirePermission_agrees_with_hasPermission (required : list string)
    (userRole : option string) :
  let r := sessionRole userRole in
  (requirePermission required userRole = Next <->
   ownConfig r <> None
   /\ forall p, In p required -> hasPermission r p = Some true)
  /\ (requirePermission required userRole
      = Deny 500 "Authorization system error" <->
      forall p, hasPermission r p = None)
  /\ (requirePermission required userRole <> Next ->
      requirePermission required userRole
      <> Deny 500 "Authorization system error" ->
      exists error, requirePermission required userRole = Deny 403 error)
  /\ (forall p, hasPermission r p = Some true <->
                 In "*" (getUserPermissions r) \/ In p (getUserPermissions r)).
Proof.
  cbv zeta.
  assert (Hlist : forall p,
             hasPermission (sessionRole userRole) p = Some true <->
             In "*" (getUserPermissions (sessionRole userRole))
             \/ In p (getUserPermissions (sessionRole userRole))).
  { intros p. unfold hasPermission, getUserPermissions.
    destruct (ownConfig (sessionRole userRole)) as [cfg|].
    - rewrite <- !includes_In. split.
      + intros H. injection H as H. now apply orb_prop.
      + intros [H|H]; rewrite H; [reflexivity|now rewrite orb_true_r].
    - split; [destruct (includes inherited _); discriminate|].
      intros [[]|[]]. }
  rewrite <- and_assoc, <- and_assoc. split; [|exact Hlist].
  rewrite !and_assoc. clear Hlist.
  unfold requirePermission, hasPermission.
  set (r := sessionRole userRole).
  destruct (ownConfig r) as [cfg|] eqn:Eo.
  - destruct (includes (permissions cfg) "*") eqn:Estar; cbn [orb].
    + split; [|split].
      * split; [intros _; split; [discriminate|reflexivity]|reflexivity].
      * split; [discriminate|]. intros H. specialize (H ""). discriminate.
      * intros H. now contradiction H.
    + destruct (forallb (includes (permissions cfg)) required) eqn:Eall.
      * split; [|split].
        -- split; [intros _; split; [discriminate|]|reflexivity].
           intros p Hp. rewrite forallb_forall in Eall.
           now rewrite (Eall p Hp).
        -- split; [discriminate|]. intros H. specialize (H ""). discriminate.
        -- intros H. now contradiction H.
      * split; [|split].
        -- split; [discriminate|]. intros [_ H]. exfalso.
           assert (Hall : forallb (includes (permissions cfg)) required = true).
           { apply forallb_forall. intros p Hp. specialize (H p Hp).
             now injection H. }
           congruence.
        -- split; [discriminate|]. intros H. specialize (H ""). discriminate.
        -- intros _ _. eexists. reflexivity.
  - destruct (includes inherited r) eqn:Ei.
    + split; [|split].
      * split; [discriminate|]. intros [H _]. now contradiction H.
      * split; [reflexivity|reflexivity].
      * intros _ H. now contradiction H.
    + split; [|split].
      * split; [discriminate|]. intros [H _]. now contradiction H.
      * split; [discriminate|]. intros H. specialize (H ""). discriminate.
      * intros _ _. eexists. reflexivity.
Qed.

Lemma levelOf_range (role : string) : 0 <= levelOf role <= 100.
Proof.
  unfold levelOf.
  destruct (ownConfig_cases role)
    as [[_ ->]|[(cfg & -> & _ & _ & _ & H)|(-> & _ & _)]]; cbn [level]; lia.
Qed.

(** X17.  [requireRole] is a test on levels.  A session passes exactly when
    some required role has a level that is at most the level of the
    session's role.  Hence a role that passes is passed by every role of at
    least its level; [admin] passes every requirement that names a role; and
    a requirement that names a role the table does not have lets every
    session through. *)
Theorem requireRole_is_level_test (roles : list string)
    (userRole : option string) :
  (requireRole roles userRole = Next <->
   exists role, In role roles
                /\ levelOf role <= levelOf (sessionRole userRole))
  /\ (forall other,
         levelOf (sessionRole userRole) <= levelOf (sessionRole other) ->
         requireRole roles userRole = Next ->
         requireRole roles other = Next)
  /\ (roles <> [] -> requireRole roles (Some "admin") = Next)
  /\ (forall role, In role roles -> ownConfig role = None ->
                   requireRole roles userRole = Next).
Proof.
  assert (Hiff : forall u,
             requireRole roles u = Next <->
             exists role, In role roles
                          /\ levelOf role <= levelOf (sessionRole u)).
  { intros u. unfold requireRole.
    destruct (includes roles (sessionRole u)) eqn:Ei.
    - split; [intros _|reflexivity].
      exists (sessionRole u). split; [now apply includes_In|lia].
    - destruct (existsb _ roles) eqn:Ex.
      + split; [intros _|reflexivity].
        apply existsb_exists in Ex. destruct Ex as (role & Hr & Hl).
        exists role. split; [exact Hr|now apply Z.leb_le].
      + split; [discriminate|]. intros (role & Hr & Hl). exfalso.
        assert (Hex : existsb (fun role => levelOf role
                                           <=? levelOf (sessionRole u)) roles
                      = true).
        { apply existsb_exists. exists role. split; [exact Hr|].
          now apply Z.leb_le. }
        congruence. }
  split; [apply Hiff|]. split; [|split].
  - intros other Hle Hn. apply Hiff. apply Hiff in Hn.
    destruct Hn as (role & Hr & Hl). exists role. split; [exact Hr|lia].
  - intros Hne. apply Hiff. destruct roles as [|role roles']; [contradiction|].
    exists role. split; [now left|].
    change (levelOf (sessionRole (Some "admin"))) with 100.
    apply levelOf_range.
  - intros role Hr Hnone. apply Hiff. exists role. split; [exact Hr|].
    unfold levelOf at 1. rewrite Hnone. apply levelOf_range.
Qed.

End Permissions.


(** * The trash listing *)

Module TrashView.

Import AwsStorage Trash TrashListing.

Lemma Permutation_filter {A : Type} (p : A -> bool) (l l' : list A) :
  Permutation l l' -> Permutation (filter p l) (filter p l').
Proof.
  induction 1 as [|x l l' _ IH|x y l|l l' l'' _ IH1 _ IH2]; simpl.
  - constructor.
  - destruct (p x); [now constructor|exact IH].
  - destruct (p x), (p y); try reflexivity. apply perm_swap.
  - now transitivity (filter p l').
Qed.

Lemma StronglySorted_impl {A : Type} (R S : A -> A -> Prop) (l : list A) :
  (forall a b, R a b -> S a b) -> StronglySorted R l -> StronglySorted S l.
Proof.
  intros HRS. induction 1 as [|a l _ IH Hall]; constructor; [exact IH|].
  rewrite Forall_forall in *. auto.
Qed.

(** A printed integer is not empty and does not start with the letter u. *)
Lemma string_of_Z_head (z : Z) :
  exists c s, Js.string_of_Z z = String c s /\ c <> "u"%char.
Proof.
  unfold Js.string_of_Z, NilZero.string_of_int, NilZero.string_of_uint.
  destruct z as [|p|p]; simpl; [eexists; eexists; split; [reflexivity|discriminate]| |];
    destruct (Pos.to_uint p); simpl; eexists; eexists;
    (split; [reflexivity|discriminate]).
Qed.

Lemma string_of_Z_inj (a b : Z) :
  Js.string_of_Z a = Js.string_of_Z b -> a = b.
Proof.
  unfold Js.string_of_Z. intros H.
  assert (Hn : forall z, Z.to_int z <> Decimal.Pos Decimal.Nil
                         /\ Z.to_int z <> Decimal.Neg Decimal.Nil).
  { intros [|p|p]; simpl; split; try discriminate;
      intros E; injection E as E; now apply (Unsigned.to_uint_nonnil p). }
  apply to_int_inj.
  assert (E : Some (Z.to_int a) = Some (Z.to_int b)).
  { rewrite <- (NilZero.isi (Z.to_int a)) by apply Hn.
    rewrite <- (NilZero.isi (Z.to_int b)) by apply Hn.
    now rewrite H. }
  now injection E.
Qed.

(** The filter on [safeFiles] drops exactly the files whose id is 0. *)
Lemma safe_kept (now : Z) (f : File.t) :
  (Js.truthy (id (safeFile now f))
   && negb (id (safeFile now f) =? "undefined")%string)%bool
  = negb (File.id f =? 0).
Proof.
  unfold safeFile. cbn [id]. destruct (File.id f =? 0); [reflexivity|].
  destruct (string_of_Z_head (File.id f)) as (c & s & -> & Hc).
  assert (Hu : (String c s =? "undefined")%string = false).
  { apply String.eqb_neq. intros H. injection H as H _. contradiction. }
  rewrite Hu. reflexivity.
Qed.

Lemma safeFiles_filter (now : Z) (l : list File.t) :
  filter (fun item => (Js.truthy (id item)
                       && negb (id item =? "undefined")%string)%bool)
    (map (safeFile now) l)
  = map (safeFile now) (filter (fun f => negb (File.id f =? 0)) l).
Proof.
  induction l as [|f l IH]; [reflexivity|].
  cbn [map filter]. rewrite safe_kept, IH.
  destruct (negb (File.id f =? 0)); reflexivity.
Qed.

(** The entries of the listing. *)
Lemma listing_perm (table : list File.t) (now : Z) :
  Permutation (items (getTrashItems table now))
    (map (safeFile now)
       (filter (fun f => (is_deleted (File.deletionStatus f)
                          && negb (File.id f =? 0))%bool) table)).
Proof.
  unfold getTrashItems. cbn [items].
  rewrite sortBy_perm, safeFiles_filter.
  apply Permutation_map.
  rewrite <- filter_and. apply Permutation_filter, sortBy_perm.
Qed.

Lemma listing_In (table : list File.t) (now : Z) (item : TrashItem) :
  In item (items (getTrashItems table now)) <->
  exists f, In f table /\ File.deletionStatus f = Some deleted
            /\ File.id f <> 0 /\ item = safeFile now f.
Proof.
  split.
  - intros H. apply (Permutation_in _ (listing_perm table now)) in H.
    apply in_map_iff in H. destruct H as (f & <- & Hf).
    apply filter_In in Hf. destruct Hf as [Hf Hc].
    apply andb_prop in Hc. destruct Hc as [Hd Hz].
    exists f. repeat split; auto.
    + destruct (File.deletionStatus f) as [[]|]; try discriminate. reflexivity.
    + apply negb_true_iff, Z.eqb_neq in Hz. exact Hz.
  - intros (f & Hf & Hd & Hz & ->).
    apply (Permutation_in _ (Permutation_sym (listing_perm table now))).
    apply in_map, filter_In. split; [exact Hf|].
    rewrite Hd. apply Z.eqb_neq in Hz. now rewrite Hz.
Qed.

(** X18.  The trash listing ([getTrashItems]).  It lists one entry for each
    soft-deleted file whose id is not 0, and nothing else: no active file,
    no purged file and no folder; an entry shows the deletion instant and
    the purge deadline of its file, or the instant of the request where the
    file has none.  The entries come most recently deleted first,
    [totalFiles] is their number and [totalFolders] is always 0. *)
Theorem trash_listing_contract (table : list File.t) (now : Z) :
  let r := getTrashItems table now in
  Permutation (items r)
    (map (safeFile now)
       (filter (fun f => (is_deleted (File.deletionStatus f)
                          && negb (File.id f =? 0))%bool) table))
  /\ (forall item, In item (items r) <->
        exists f, In f table /\ File.deletionStatus f = Some deleted
                  /\ File.id f <> 0 /\ item = safeFile now f)
  /\ StronglySorted (fun a b => deletedAt b <= deletedAt a) (items r)
  /\ totalFiles r = List.length (items r)
  /\ totalFolders r = 0%nat.
Proof.
  cbv zeta. split; [apply listing_perm|]. split; [apply listing_In|].
  split; [|split].
  - unfold getTrashItems. cbn [items].
    apply (StronglySorted_impl
             (fun x y => byDateDesc deletedAt x y <> Gt)).
    + intros a b H. unfold byDateDesc in H.
      destruct (Z.compare_spec (deletedAt b) (deletedAt a)); try lia.
      now contradiction H.
    + apply (sortBy_strongly (byDateDesc deletedAt)) with (good := fun _ => True).
      * intros a b H. unfold byDateDesc in *.
        rewrite Z.compare_gt_iff in H. rewrite Z.compare_gt_iff. lia.
      * intros a b c _ _ _ H1 H2. unfold byDateDesc in *.
        rewrite Z.compare_gt_iff in *. lia.
      * apply Forall_forall. auto.
  - unfold getTrashItems. cbn [items totalFiles].
    symmetry. apply Permutation_length, sortBy_perm.
  - reflexivity.
Qed.

Lemma putFile_ids (item : File.t) : forall table f,
  getFile table (File.id item) = Some f ->
  map File.id (putFile item table) = map File.id table.
Proof.
  unfold getFile. induction table as [|g table IH]; simpl; intros f H.
  - discriminate.
  - destruct (File.id g =? File.id item) eqn:E; simpl.
    + apply Z.eqb_eq in E. now rewrite E.
    + f_equal. now apply (IH f).
Qed.

(** X19.  The trash listing follows delete and restore.  For an active file
    with a positive id and an original filename, in a table with unique ids:
    before the delete no entry of the listing carries its id; after
    [moveFileToTrash] through the cloud store the listing has an entry with
    its id, the instant and the author of the delete and the deadline 60
    days later; after [restoreFile] no entry carries its id any more. *)
Theorem trash_listing_follows_delete_and_restore (table : list File.t)
    (now later fileIdNum : Z) (userId : string) (file : File.t) :
  getFile table fileIdNum = Some file ->
  NoDup (map File.id table) ->
  0 < fileIdNum ->
  Js.truthy (File.originalName file) = true ->
  is_deleted (File.deletionStatus file) = false ->
  let t1 := snd (moveFileToTrash aws table now (Some fileIdNum) userId) in
  let t2 := snd (restoreFile aws t1 later (Some fileIdNum)) in
  (forall asked item, In item (items (getTrashItems table asked)) ->
                      id item <> Js.string_of_Z fileIdNum)
  /\ (forall asked, exists item,
         In item (items (getTrashItems t1 asked))
         /\ id item = Js.string_of_Z fileIdNum
         /\ deletedAt item = now
         /\ deletedBy item = userId
         /\ scheduledDeletionAt item = now + 60 * msPerDay)
  /\ (forall asked item, In item (items (getTrashItems t2 asked)) ->
                         id item <> Js.string_of_Z fileIdNum).
Proof.
  intros Hget Hnd Hpos Hname Hact.
  pose proof (StoreFacts.getFile_id _ _ _ Hget) as Hid.
  assert (Hnot : forall (T : list File.t) (s : File.t),
             NoDup (map File.id T) -> getFile T fileIdNum = Some s ->
             is_deleted (File.deletionStatus s) = false ->
             forall asked item, In item (items (getTrashItems T asked)) ->
                                id item <> Js.string_of_Z fileIdNum).
  { intros T s HndT HgetT Hs asked item Hin E.
    apply listing_In in Hin. destruct Hin as (f & Hf & Hd & Hz & ->).
    unfold safeFile in E. cbn [id] in E.
    apply Z.eqb_neq in Hz. rewrite Hz in E. apply string_of_Z_inj in E.
    pose proof (SoftDelete.getFile_unique T f HndT Hf) as Hgf.
    rewrite E, HgetT in Hgf. injection Hgf as ->.
    rewrite Hd in Hs. discriminate. }
  destruct (TrashCycle.after_cloud_delete table now fileIdNum userId file
              Hget (JsFacts.truthy_key _ _ Hname) Hnd)
    as (Ht1 & Hnd1 & Hget1 & _).
  cbv zeta in *.
  set (t1 := snd (moveFileToTrash aws table now (Some fileIdNum) userId)) in *.
  rewrite (JsFacts.truthy_or_else _ (File.name file) Hname) in Hget1.
  assert (Hsel : ((File.originalName file =? File.originalName file)%string
                  && not_deleted file)%bool = true).
  { unfold not_deleted. now rewrite String.eqb_refl, Hact. }
  rewrite Hsel in Hget1.
  split; [exact (Hnot table file Hnd Hget Hact)|]. split.
  - intros asked. exists (safeFile asked (trashStamp now userId file)).
    split.
    + apply listing_In. exists (trashStamp now userId file).
      split; [|split; [reflexivity|split; [|reflexivity]]].
      * unfold getFile in Hget1. now apply find_some in Hget1.
      * cbn [trashStamp File.set_lifecycle File.id]. lia.
    + unfold safeFile. cbn [id deletedAt deletedBy scheduledDeletionAt
                            trashStamp File.set_lifecycle File.id
                            File.deletedAt File.deletedBy
                            File.scheduledDeletionAt].
      assert (Hz : (File.id file =? 0) = false) by (apply Z.eqb_neq; lia).
      rewrite Hz, Hid. repeat split.
  - unfold restoreFile. rewrite Hget1. simpl negb. cbv iota.
    unfold storageUpdateFile, AwsStorage.updateFile.
    assert (E : (fileIdNum <=? 0) = false) by (apply Z.leb_gt; auto).
    rewrite E, Hget1. cbn [snd].
    set (merged := File.mk _ _ _ _ _ _ _ _ _ _ _ _ _ _).
    assert (Hmid : File.id (File.serialize merged) = fileIdNum) by reflexivity.
    apply (Hnot _ (File.serialize merged)).
    + rewrite (putFile_ids _ t1 (trashStamp now userId file))
        by (rewrite Hmid; exact Hget1).
      exact Hnd1.
    + rewrite <- Hmid at 1. apply TrashCycle.getFile_putFile_same.
    + unfold merged.
      destruct (Restore.restoreUpdate_lifecycle (trashStamp now userId file)
                  later) as (L1 & _).
      cbn [File.serialize File.deletionStatus]. now rewrite L1.
Qed.

Lemma trash_listing_follows_delete_and_restore_witness :
  let t1 := snd (moveFileToTrash aws Examples.twoVersions 5000 (Some 20) "u9") in
  let t2 := snd (restoreFile aws t1 7000 (Some 20)) in
  (forall asked item,
      In item (items (getTrashItems Examples.twoVersions asked)) ->
      id item <> Js.string_of_Z 20)
  /\ (forall asked, exists item,
         In item (items (getTrashItems t1 asked))
         /\ id item = Js.string_of_Z 20
         /\ deletedAt item = 5000
         /\ deletedBy item = "u9"
         /\ scheduledDeletionAt item = 5000 + 60 * msPerDay)
  /\ (forall asked item, In item (items (getTrashItems t2 asked)) ->
                         id item <> Js.string_of_Z 20).
Proof.
  apply (trash_listing_follows_delete_and_restore Examples.twoVersions
           5000 7000 20 "u9"
           (Examples.stored 20 "plan.pdf" "2.0" "Current" (Some 1) None)).
  - reflexivity.
  - vm_compute. repeat constructor; simpl; intuition discriminate.
  - lia.
  - reflexivity.
  - reflexivity.
Defined.

End TrashView.


(** * The file listing *)

Module Browse.

Import AwsStorage Trash FileListing.

(** The three filters of [getFiles] are one. *)
Lemma getFiles_filter (partition : list File.t) (taskId : option Z)
    (folderId : option string) :
  getFiles partition taskId folderId
  = map snd (fold_left (fun latestFiles file => upsert file latestFiles)
               (filter (listed taskId folderId) partition) []).
Proof.
  unfold getFiles, listed. f_equal. f_equal.
  destruct (Js.truthy_num taskId), folderId; rewrite ?filter_and;
    apply filter_ext; intros f;
    rewrite ?andb_true_r, ?andb_assoc; reflexivity.
Qed.

Lemma containerKey_set_name (f : File.t) :
  containerKey (File.set_name (containerKey f) f) = containerKey f.
Proof.
  unfold containerKey, Js.or_else. cbn [File.set_name File.originalName File.name].
  destruct (File.originalName f =? "")%string; reflexivity.
Qed.

Lemma upsert_keys (f : File.t) (m : list (string * File.t)) :
  map fst (upsert f m)
  = if existsb (fun k => (k =? containerKey f)%string) (map fst m)
    then map fst m else (map fst m ++ [containerKey f])%list.
Proof.
  induction m as [|[k e] m IH]; cbn [upsert map fst existsb app];
    [reflexivity|].
  destruct (k =? containerKey f)%string; cbn [map fst orb]; [reflexivity|].
  rewrite IH. destruct (existsb _ (map fst m)); reflexivity.
Qed.

Lemma upsert_NoDup (f : File.t) (m : list (string * File.t)) :
  NoDup (map fst m) -> NoDup (map fst (upsert f m)).
Proof.
  intros H. rewrite upsert_keys.
  destruct (existsb _ (map fst m)) eqn:E; [exact H|].
  apply NoDup_app; [exact H|repeat constructor; intros []|].
  intros k Hk [<-|[]].
  assert (Hex : existsb (fun k => (k =? containerKey f)%string) (map fst m)
                = true).
  { apply existsb_exists. exists (containerKey f).
    split; [exact Hk|apply String.eqb_refl]. }
  congruence.
Qed.

(** An entry after one turn is an entry from before, or the file of the
    turn under its container key, possibly with the key as display name. *)
Lemma upsert_sound (f : File.t) (m : list (string * File.t)) (k : string)
    (e : File.t) :
  In (k, e) (upsert f m) ->
  In (k, e) m
  \/ (k = containerKey f /\ (e = f \/ e = File.set_name (containerKey f) f)).
Proof.
  induction m as [|[k0 e0] m IH]; cbn [upsert].
  - intros [H|[]]. injection H as <- <-. right. auto.
  - destruct (k0 =? containerKey f)%string eqn:E.
    + intros [H|H]; [|left; now right]. injection H as <- <-.
      apply String.eqb_eq in E.
      destruct (File.createdAt e0 <? File.createdAt f);
        [right; auto|left; now left].
    + intros [H|H]; [left; now left|].
      destruct (IH H) as [H'|H']; [left; now right|right; exact H'].
Qed.

(** Entries are kept, or replaced by a more recent file. *)
Lemma upsert_keeps (f : File.t) (m : list (string * File.t)) (k : string)
    (e : File.t) :
  In (k, e) m ->
  exists e', In (k, e') (upsert f m) /\ File.createdAt e <= File.createdAt e'.
Proof.
  induction m as [|[k0 e0] m IH]; cbn [upsert]; [intros []|].
  destruct (k0 =? containerKey f)%string eqn:E.
  - intros [H|H].
    + injection H as <- <-.
      destruct (File.createdAt e0 <? File.createdAt f) eqn:El.
      * eexists. split; [now left|].
        apply Z.ltb_lt in El. cbn [File.set_name File.createdAt]. lia.
      * exists e0. split; [now left|lia].
    + exists e. split; [now right|lia].
  - intros [H|H].
    + exists e. split; [now left|lia].
    + destruct (IH H) as (e' & He' & Hle). exists e'. split; [now right|exact Hle].
Qed.

(** The file of the turn is represented under its key. *)
Lemma upsert_covers (f : File.t) (m : list (string * File.t)) :
  exists e', In (containerKey f, e') (upsert f m)
             /\ File.createdAt f <= File.createdAt e'.
Proof.
  induction m as [|[k0 e0] m IH]; cbn [upsert].
  - exists f. split; [now left|lia].
  - destruct (k0 =? containerKey f)%string eqn:E.
    + apply String.eqb_eq in E. subst k0.
      destruct (File.createdAt e0 <? File.createdAt f) eqn:El.
      * eexists. split; [now left|]. cbn [File.set_name File.createdAt]. lia.
      * apply Z.ltb_ge in El. exists e0. split; [now left|exact El].
    + destruct IH as (e' & He' & Hle). exists e'. split; [now right|exact Hle].
Qed.

Section Loop.

Let step := fun (latestFiles : list (string * File.t)) (file : File.t) =>
              upsert file latestFiles.

Lemma loop_NoDup (l : list File.t) : forall m,
  NoDup (map fst m) -> NoDup (map fst (fold_left step l m)).
Proof.
  induction l as [|f l IH]; intros m H; [exact H|].
  cbn [fold_left]. apply IH. now apply upsert_NoDup.
Qed.

Lemma loop_sound (l : list File.t) : forall m k e,
  In (k, e) (fold_left step l m) ->
  In (k, e) m
  \/ exists f, In f l /\ k = containerKey f
               /\ (e = f \/ e = File.set_name (containerKey f) f).
Proof.
  induction l as [|f l IH]; intros m k e H; [now left|].
  cbn [fold_left] in H. destruct (IH _ _ _ H) as [H'|(g & Hg & Hk & He)].
  - destruct (upsert_sound _ _ _ _ H') as [H''|[Hk He]]; [now left|].
    right. exists f. split; [now left|auto].
  - right. exists g. split; [now right|auto].
Qed.

Lemma loop_keeps (l : list File.t) : forall m k e,
  In (k, e) m ->
  exists e', In (k, e') (fold_left step l m)
             /\ File.createdAt e <= File.createdAt e'.
Proof.
  induction l as [|f l IH]; intros m k e H.
  - exists e. split; [exact H|lia].
  - cbn [fold_left]. destruct (upsert_keeps f m k e H) as (e1 & H1 & L1).
    destruct (IH _ _ _ H1) as (e2 & H2 & L2).
    exists e2. split; [exact H2|lia].
Qed.

Lemma loop_covers (l : list File.t) : forall m f,
  In f l ->
  exists e', In (containerKey f, e') (fold_left step l m)
             /\ File.createdAt f <= File.createdAt e'.
Proof.
  induction l as [|g l IH]; intros m f H; [destruct H|].
  cbn [fold_left]. destruct H as [<-|H].
  - destruct (upsert_covers g m) as (e1 & H1 & L1).
    destruct (loop_keeps l _ _ _ H1) as (e2 & H2 & L2).
    exists e2. split; [exact H2|lia].
  - now apply IH.
Qed.

End Loop.

(** The entries of the listing, against the files of the partition. *)
Lemma listing_entries (partition : list File.t) (taskId : option Z)
    (folderId : option string) :
  let r := getFiles partition taskId folderId in
  NoDup (map containerKey r)
  /\ (forall e, In e r ->
        exists f, In f partition /\ listed taskId folderId f = true
                  /\ containerKey e = containerKey f
                  /\ (e = f \/ e = File.set_name (containerKey f) f))
  /\ (forall f, In f partition -> listed taskId folderId f = true ->
        exists e, In e r /\ containerKey e = containerKey f
                  /\ File.createdAt f <= File.createdAt e)
  /\ (forall e, In e r -> is_deleted (File.deletionStatus e) = false).
Proof.
  cbv zeta. rewrite getFiles_filter.
  set (l := filter (listed taskId folderId) partition).
  set (m := fold_left (fun latestFiles file => upsert file latestFiles) l []).
  assert (Hs : forall k e, In (k, e) m ->
             exists f, In f partition /\ listed taskId folderId f = true
                       /\ k = containerKey f /\ containerKey e = containerKey f
                       /\ (e = f \/ e = File.set_name (containerKey f) f)).
  { intros k e H. destruct (loop_sound l [] k e H) as [[]|(f & Hf & Hk & He)].
    apply filter_In in Hf. destruct Hf as [Hf Hl].
    exists f. repeat split; auto.
    destruct He as [-> | ->]; [reflexivity|apply containerKey_set_name]. }
  assert (Hkeys : map containerKey (map snd m) = map fst m).
  { rewrite map_map. apply map_ext_in. intros [k e] H.
    destruct (Hs k e H) as (f & _ & _ & -> & Hc & _). exact Hc. }
  split; [|split; [|split]].
  - rewrite Hkeys. apply (loop_NoDup l []). constructor.
  - intros e He. apply in_map_iff in He. destruct He as ([k e'] & <- & H).
    destruct (Hs k e' H) as (f & Hf & Hl & _ & Hc & He).
    exists f. auto.
  - intros f Hf Hl.
    assert (Hin : In f l) by (apply filter_In; now split).
    destruct (loop_covers l [] f Hin) as (e & He & Hle).
    exists e. split; [apply in_map_iff; now exists (containerKey f, e)|].
    split; [|exact Hle].
    destruct (Hs _ _ He) as (g & _ & _ & Hk & Hc & _). congruence.
  - intros e He. apply in_map_iff in He. destruct He as ([k e'] & <- & H).
    destruct (Hs k e' H) as (f & _ & Hl & _ & _ & He).
    unfold listed in Hl. apply andb_prop in Hl. destruct Hl as [Hl _].
    apply andb_prop in Hl. destruct Hl as [_ Hl]. unfold not_deleted in Hl.
    apply negb_true_iff in Hl.
    destruct He as [-> | ->]; exact Hl.
Qed.

(** X20.  The file listing ([getFiles]) shows each file container once.  On
    the items of the partition it reads: no two entries have the same
    container key (original filename, or the name when there is none);
    every entry is a file of the partition that passes the task and folder
    filters and is not soft-deleted, shown as stored or with its container
    key as display name; and every such file is represented by the entry of
    its container, which was created no earlier than the file. *)
Theorem file_listing_contract (partition : list File.t) (taskId : option Z)
    (folderId : option string) :
  let r := getFiles partition taskId folderId in
  NoDup (map containerKey r)
  /\ (forall e, In e r ->
        exists f, In f partition /\ listed taskId folderId f = true
                  /\ containerKey e = containerKey f
                  /\ (e = f \/ e = File.set_name (containerKey f) f))
  /\ (forall f, In f partition -> listed taskId folderId f = true ->
        exists e, In e r /\ containerKey e = containerKey f
                  /\ File.createdAt f <= File.createdAt e)
  /\ (forall e, In e r -> is_deleted (File.deletionStatus e) = false).
Proof. exact (listing_entries partition taskId folderId). Qed.

(** X21.  A deleted container leaves the listing.  After [moveFileToTrash]
    through the cloud store on a file that has an original filename, the
    listing of the [FILES] partition, for every task and folder filter, has
    no entry with that original filename; before the delete, if the file
    passes the filters, its container is listed. *)
Theorem deleted_container_is_not_listed (table : list File.t)
    (now fileIdNum : Z) (userId : string) (file : File.t)
    (taskId : option Z) (folderId : option string) :
  getFile table fileIdNum = Some file ->
  NoDup (map File.id table) ->
  Js.truthy (File.originalName file) = true ->
  let t1 := snd (moveFileToTrash aws table now (Some fileIdNum) userId) in
  (forall e, In e (getFiles t1 taskId folderId) ->
             File.originalName e <> File.originalName file)
  /\ (listed taskId folderId file = true ->
      exists e, In e (getFiles table taskId folderId)
                /\ containerKey e = File.originalName file).
Proof.
  intros Hget Hnd Hname.
  destruct (TrashCycle.after_cloud_delete table now fileIdNum userId file
              Hget (JsFacts.truthy_key _ _ Hname) Hnd) as (_ & _ & _ & Hall).
  cbv zeta in *.
  set (t1 := snd (moveFileToTrash aws table now (Some fileIdNum) userId)) in *.
  rewrite (JsFacts.truthy_or_else _ (File.name file) Hname) in Hall.
  split.
  - intros e He Heq.
    destruct (listing_entries t1 taskId folderId) as (_ & Hs & _ & _).
    destruct (Hs e He) as (f & Hf & Hl & _ & Hor).
    assert (Hon : File.originalName f = File.originalName file)
      by (destruct Hor as [-> | ->]; exact Heq).
    pose proof (Hall f Hf Hon) as Hd.
    unfold listed in Hl. apply andb_prop in Hl. destruct Hl as [Hl _].
    apply andb_prop in Hl. destruct Hl as [_ Hl]. unfold not_deleted in Hl.
    rewrite Hd in Hl. discriminate.
  - intros Hl.
    assert (Hin : In file table).
    { unfold getFile in Hget. now apply find_some in Hget. }
    destruct (listing_entries table taskId folderId) as (_ & Hs & Hc & _).
    destruct (Hc file Hin Hl) as (e & He & Hk & _).
    exists e. split; [exact He|].
    rewrite Hk. unfold containerKey. now apply JsFacts.truthy_or_else.
Qed.

Lemma deleted_container_is_not_listed_witness :
  let file := Examples.stored 20 "plan.pdf" "2.0" "Current" (Some 1) None in
  let t1 := snd (moveFileToTrash aws Examples.twoVersions 5000 (Some 20) "u9") in
  (forall e, In e (getFiles t1 None None) ->
             File.originalName e <> File.originalName file)
  /\ (listed None None file = true ->
      exists e, In e (getFiles Examples.twoVersions None None)
                /\ containerKey e = File.originalName file).
Proof.
  apply (deleted_container_is_not_listed Examples.twoVersions 5000 20 "u9"
           (Examples.stored 20 "plan.pdf" "2.0" "Current" (Some 1) None)
           None None).
  - reflexivity.
  - vm_compute. repeat constructor; simpl; intuition discriminate.
  - reflexivity.
Defined.

End Browse.

(** * The version-history routes *)

Module History.

Import AwsStorage VersionRoutes.



(** On a nameless file the route scans for ['undefined']: it lists the
    records that carry that original filename and not the nameless ones. *)
Remark nameless_file_lists_undefined :
  let nameless := File.mk 9 "" "" "1.0" "Current" None None None None None None
                    None 9 9 in
  let odd := File.mk 10 "undefined" "undefined" "2.0" "Current" None None None
               None None None None 10 10 in
  fileVersions [nameless; odd] 9 = Json [odd].
Proof. reflexivity. Qed.

Lemma putFile_fresh_app (item : File.t) (table : list File.t) :
  getFile table (File.id item) = None ->
  putFile item table = (table ++ [item])%list.
Proof.
  unfold getFile. induction table as [|g table IH]; simpl; intros H;
    [reflexivity|].
  destruct (File.id g =? File.id item); [discriminate|].
  f_equal. now apply IH.
Qed.

(** What [createFile] stores for an upload that has an original filename. *)
Lemma createFile_versioned (table : list File.t) (now : Z)
    (d : NewFileData.t) :
  Js.truthy (NewFileData.originalName d) = true ->
  exists v,
    createFile table now d
    = (File.serialize
         (File.mk now (NewFileData.name d)
            (Js.or_else (NewFileData.originalName d) (NewFileData.name d))
            v "Current"
            (Js.truthy_num (NewFileData.projectId d))
            (Js.truthy_num (NewFileData.taskId d))
            (Js.truthy_str (NewFileData.parentFolderId d))
            None None None None now now),
       putFile
         (File.serialize
            (File.mk now (NewFileData.name d)
               (Js.or_else (NewFileData.originalName d) (NewFileData.name d))
               v "Current"
               (Js.truthy_num (NewFileData.projectId d))
               (Js.truthy_num (NewFileData.taskId d))
               (Js.truthy_str (NewFileData.parentFolderId d))
               None None None None now now)) table,
       map File.id (Lineage.countedFor table d)).
Proof.
  intros Hn. unfold createFile.
  rewrite (VersionFacts.handleFileVersioning_cases _ _ _ Hn).
  destruct (Lineage.countedFor table d) as [|f l]; eexists; reflexivity.
Qed.

(** For the context an upload is stored with, the context test of
    [getFileVersions] on the objects it builds and the one of the version
    manager on the stored items agree. *)
Lemma scope_tests_agree (p k : option Z) (dd : option string) (g : File.t) :
  p <> Some 0 -> k <> Some 0 ->
  (forall x, dd = Some x ->
             Js.truthy x = true /\ x <> "null" /\ x <> "undefined") ->
  Lineage.keyMatches p k dd (versionView g) = Lineage.scopeMatches p k dd g.
Proof.
  intros Hp Hk Hd. unfold Lineage.keyMatches, Lineage.scopeMatches.
  cbn [versionView File.projectId File.taskId File.parentFolderId].
  assert (Hnum : forall (q attr : option Z), q <> Some 0 ->
             match q with
             | Some n => number_or_zero_matches (Js.truthy_num attr) n
             | None => true
             end
             = match q with
               | Some n => number_matches attr n
               | None => true
               end).
  { intros [n|] attr Hq; [|reflexivity].
    assert (Hn : (0 =? n) = false).
    { apply Z.eqb_neq. intros E. apply Hq. now subst. }
    destruct attr as [[|m|m]|]; try reflexivity. exact Hn. }
  rewrite (Hnum p _ Hp), (Hnum k _ Hk). f_equal.
  destruct dd as [x|]; [|reflexivity].
  destruct (Hd x eq_refl) as (Hx & Hnull & Hundef).
  unfold folder_matches. apply String.eqb_neq in Hnull. rewrite Hnull.
  assert (Hex : ("" =? x)%string = false).
  { unfold Js.truthy in Hx. apply negb_true_iff in Hx.
    now rewrite String.eqb_sym. }
  destruct (File.parentFolderId g) as [s|]; cbn [Js.truthy_str Js.String_].
  - unfold Js.truthy. destruct (String.eqb_spec s "") as [->|Hs];
      cbn [negb]; [now rewrite Hex|reflexivity].
  - rewrite Hex. symmetry. apply String.eqb_neq. congruence.
Qed.

(** X23.  The history of a new version.  An upload with a clean original
    filename and folder id (no surrounding white space; the folder id is not
    ['null'] or ['undefined']) into a table with unique ids that does not
    hold the new id, followed by its background work with no failing store
    call: [GET /api/file-versions/:fileId] on the new file then lists
    exactly the records the version manager counted, each once, marked as a
    backup; the new file is not on the list. *)
Theorem history_after_upload (table : list File.t) (now later : Z)
    (d : NewFileData.t) :
  Js.truthy (NewFileData.originalName d) = true ->
  Js.trim (NewFileData.originalName d) = NewFileData.originalName d ->
  (forall x, Js.truthy_str (NewFileData.parentFolderId d) = Some x ->
             Js.trim x = x /\ x <> "null" /\ x <> "undefined") ->
  NoDup (map File.id table) ->
  ~ In now (map File.id table) ->
  let r := createFile table now d in
  let settled :=
    supersedeInBackground (fun _ => false) later (snd (fst r)) (snd r) in
  exists entries,
    fileVersionHistory settled now = Json entries
    /\ Permutation entries
         (map (fun g => safeVersion now
                          (versionView (File.set_status "Superseded" later g)))
            (Lineage.countedFor table d))
    /\ (forall e, In e entries ->
          isBackup e = true /\ id e <> Js.string_of_Z now).
Proof.
  intros Hn Hclean Hfolder Hnd Hfresh. cbv zeta.
  destruct (createFile_versioned table now d Hn) as (v & ->). cbn [fst snd].
  set (item := File.serialize _).
  set (on := NewFileData.originalName d) in *.
  set (counted := Lineage.countedFor table d).
  set (S := File.set_status "Superseded" later).
  assert (Hid : File.id item = now) by reflexivity.
  assert (Hnone : getFile table (File.id item) = None).
  { rewrite Hid. destruct (getFile table now) as [old|] eqn:E; [|reflexivity].
    exfalso. apply Hfresh. rewrite <- (StoreFacts.getFile_id _ _ _ E).
    apply in_map. unfold getFile in E. now apply find_some in E. }
  assert (Hne : forall g, In g table -> File.id g <> now).
  { intros g Hg E. apply Hfresh. rewrite <- E. now apply in_map. }
  assert (Hsub : forall g, In g counted -> In g table).
  { intros g Hg. unfold counted, Lineage.countedFor, Lineage.resolvedFor in Hg.
    apply filter_In in Hg. destruct Hg as [Hg _].
    apply filter_In in Hg. now destruct Hg. }
  (* the settled table *)
  rewrite StoreContract.supersede_loop.
  2:{ intros i Hi. rewrite (putFile_fresh_app item table Hnone), map_app.
      apply in_or_app. left. apply in_map_iff in Hi.
      destruct Hi as (g & <- & Hg). apply in_map. now apply Hsub. }
  set (H := fun f : File.t => if existsb _ _ then _ else f).
  assert (HH : forall f, File.id (H f) = File.id f).
  { intros f. unfold H. destruct (existsb _ _); reflexivity. }
  assert (Hitem : H item = item).
  { unfold H. rewrite StoreContract.supersede_miss; [reflexivity|].
    rewrite Hid. intros Hin. apply in_map_iff in Hin.
    destruct Hin as (g & Eg & Hg). apply (Hne g (Hsub g Hg) Eg). }
  assert (Hhit : forall g, In g counted -> H g = S g).
  { intros g Hg. unfold H.
    rewrite StoreContract.supersede_hit by now apply in_map. reflexivity. }
  assert (Hmiss : forall g, In g table -> ~ In g counted -> H g = g).
  { intros g Hg Hout. unfold H.
    rewrite StoreContract.supersede_miss; [reflexivity|].
    intros Hin. apply in_map_iff in Hin. destruct Hin as (c & Ec & Hc).
    apply Hout.
    now rewrite <- (SoftDelete.unique_key table c g Hnd (Hsub c Hc) Hg Ec). }
  (* the asked file *)
  unfold fileVersionHistory.
  rewrite (SoftDelete.getFile_map H _ _ HH).
  assert (Hgi : getFile (putFile item table) now = Some item)
    by exact (TrashCycle.getFile_putFile_same item table).
  rewrite Hgi. cbn [option_map]. rewrite Hitem.
  assert (Hon : File.originalName item = on).
  { unfold item. cbn [File.serialize File.originalName].
    fold on. rewrite (JsFacts.truthy_or_else _ _ Hn). exact Hclean. }
  assert (Hkey : Js.or_else (File.originalName item) (File.name item) = on).
  { rewrite Hon. now apply JsFacts.truthy_or_else. }
  rewrite Hkey.
  assert (Hpf : File.parentFolderId item
                = Js.truthy_str (NewFileData.parentFolderId d)).
  { unfold item. cbn [File.serialize File.parentFolderId File.trim_opt].
    destruct (Js.truthy_str (NewFileData.parentFolderId d)) as [x|] eqn:Ex;
      [|reflexivity].
    destruct (Hfolder x eq_refl) as (Hx & _).
    cbn [File.trim_opt]. rewrite Hx.
    unfold Js.truthy_str in Ex |- *.
    destruct (NewFileData.parentFolderId d) as [y|]; [|discriminate].
    destruct (Js.truthy y) eqn:Ey; [|discriminate].
    injection Ex as ->. now rewrite Ey. }
  rewrite Hpf.
  change (File.projectId item) with (Js.truthy_num (NewFileData.projectId d)).
  change (File.taskId item) with (Js.truthy_num (NewFileData.taskId d)).
  set (p := Js.truthy_num (NewFileData.projectId d)).
  set (k := Js.truthy_num (NewFileData.taskId d)).
  set (dd := Js.truthy_str (NewFileData.parentFolderId d)) in *.
  assert (Hp : p <> Some 0)
    by (unfold p; destruct (NewFileData.projectId d) as [[]|]; discriminate).
  assert (Hk : k <> Some 0)
    by (unfold k; destruct (NewFileData.taskId d) as [[]|]; discriminate).
  assert (Hd : forall x, dd = Some x ->
                 Js.truthy x = true /\ x <> "null" /\ x <> "undefined").
  { intros x Hx. destruct (Hfolder x Hx) as (_ & H1 & H2).
    split; [|split; assumption].
    unfold dd, Js.truthy_str in Hx.
    destruct (NewFileData.parentFolderId d) as [y|]; [|discriminate].
    destruct (Js.truthy y) eqn:Ey; [|discriminate]. now injection Hx as <-. }
  assert (Htrim : Js.truthy (Js.trim on) = true) by now rewrite Hclean.
  rewrite (VersionListing.getFileVersions_filter _ _ _ _ _ Htrim).
  rewrite Hclean.
  rewrite (putFile_fresh_app item table Hnone).
  set (P := fun f : File.t => (not_deleted f && Lineage.keyMatches p k dd f)%bool).
  set (Q := fun v : File.t => (negb (File.id v =? now) && isSuperseded v)%bool).
  set (L := filter P (map versionView
                        (scanByOriginalName (map H (table ++ [item])) on))).
  set (cb := fun g : File.t =>
               ((File.originalName g =? on)%string
                && Lineage.scopeMatches p k dd g && not_deleted g)%bool).
  assert (Hcounted : counted = filter cb table).
  { unfold counted, Lineage.countedFor, Lineage.resolvedFor.
    now rewrite filter_and. }
  (* the records that pass the three tests are the counted ones *)
  assert (HL : filter Q L = map versionView (map S counted)).
  { unfold L, scanByOriginalName.
    rewrite (filter_map_comm P), (filter_map_comm Q), !filter_and.
    rewrite (filter_map_comm _ H), filter_app. f_equal.
    assert (Hlast : filter
                      (fun x => ((File.originalName (H x) =? on)%string
                                 && (P (versionView (H x))
                                     && Q (versionView (H x))))%bool) [item] = []).
    { apply filter_nil_iff. intros x [<-|[]]. rewrite Hitem.
      unfold Q. cbn [versionView File.id]. rewrite Hid, Z.eqb_refl.
      cbn [negb andb]. now rewrite !andb_false_r. }
    rewrite Hlast, app_nil_r.
    assert (Hsame : filter
                      (fun x => ((File.originalName (H x) =? on)%string
                                 && (P (versionView (H x))
                                     && Q (versionView (H x))))%bool) table
                    = counted).
    { rewrite Hcounted. apply filter_ext_in. intros g Hg.
      destruct (cb g) eqn:Ec.
      - assert (Hc : In g counted)
          by (rewrite Hcounted; apply filter_In; now split).
        rewrite (Hhit g Hc). unfold cb in Ec.
        apply andb_prop in Ec. destruct Ec as [Ec Hdel].
        apply andb_prop in Ec. destruct Ec as [Hname Hscope].
        unfold P, Q.
        rewrite (scope_tests_agree p k dd (S g) Hp Hk Hd).
        change (File.originalName (S g)) with (File.originalName g).
        change (not_deleted (versionView (S g))) with (not_deleted g).
        change (Lineage.scopeMatches p k dd (S g))
          with (Lineage.scopeMatches p k dd g).
        change (File.id (versionView (S g))) with (File.id g).
        rewrite Hname, Hdel, Hscope.
        pose proof (Hne g Hg) as Hn'. apply Z.eqb_neq in Hn'.
        rewrite Hn'. reflexivity.
      - assert (Hc : ~ In g counted).
        { rewrite Hcounted. intros Hin. apply filter_In in Hin.
          destruct Hin as [_ Hin]. congruence. }
        rewrite (Hmiss g Hg Hc). unfold P, cb in *.
        rewrite (scope_tests_agree p k dd g Hp Hk Hd).
        change (not_deleted (versionView g)) with (not_deleted g).
        destruct (File.originalName g =? on)%string; [|reflexivity].
        destruct (not_deleted g); [|reflexivity].
        cbn [andb] in Ec. rewrite andb_true_r in Ec. rewrite Ec. reflexivity. }
    rewrite Hsame. apply map_ext_in. intros g Hg. now apply Hhit. }
  eexists. split; [reflexivity|]. split.
  - assert (Hrhs : map (fun g => safeVersion now (versionView (S g))) counted
                   = map (safeVersion now) (filter Q L))
      by (rewrite HL, !map_map; reflexivity).
    rewrite Hrhs. apply Permutation_map.
    apply TrashView.Permutation_filter, sortBy_perm.
  - intros e He. apply in_map_iff in He. destruct He as (w & <- & Hw).
    apply filter_In in Hw. destruct Hw as [_ Hq]. unfold Q in Hq.
    apply andb_prop in Hq. destruct Hq as [Hq1 Hq2].
    split; [exact Hq2|].
    unfold safeVersion. cbn [id]. apply negb_true_iff, Z.eqb_neq in Hq1.
    destruct (File.id w =? 0) eqn:Ez.
    + destruct (TrashView.string_of_Z_head now) as (c & s & -> & _).
      discriminate.
    + intros E. apply TrashView.string_of_Z_inj in E. contradiction.
Qed.

Lemma history_after_upload_witness :
  let d := Examples.upload "plan.pdf" (Some 1) None None in
  let r := createFile Examples.twoVersions 1000 d in
  let settled :=
    supersedeInBackground (fun _ => false) 1001 (snd (fst r)) (snd r) in
  exists entries,
    fileVersionHistory settled 1000 = Json entries
    /\ Permutation entries
         (map (fun g => safeVersion 1000
                          (versionView (File.set_status "Superseded" 1001 g)))
            (Lineage.countedFor Examples.twoVersions d))
    /\ (forall e, In e entries ->
          isBackup e = true /\ id e <> Js.string_of_Z 1000).
Proof.
  apply (history_after_upload Examples.twoVersions 1000 1001
           (Examples.upload "plan.pdf" (Some 1) None None)).
  - reflexivity.
  - reflexivity.
  - simpl. discriminate.
  - vm_compute. repeat constructor; simpl; intuition discriminate.
  - vm_compute. intuition discriminate.
Defined.

End History.



(** * Folder delete and restore *)

Module FolderCycle.

Import Trash FolderTrash.



End FolderCycle.

(** * The fallback store and the move route *)

Module Fallback.

Import AwsStorage MemFiles.

Lemma filter_keeps_NoDup (p : File.t -> bool) (l : list File.t) :
  NoDup (map File.id l) -> NoDup (map File.id (filter p l)).
Proof.
  induction l as [|f l IH]; simpl; intros H; [constructor|].
  inversion H as [|? ? Hnot Hnd]; subst.
  destruct (p f); simpl; [|now apply IH].
  constructor; [|now apply IH].
  intros Hin. apply Hnot. apply in_map_iff in Hin.
  destruct Hin as (g & Eg & Hg). apply filter_In in Hg.
  rewrite <- Eg. apply in_map. now destruct Hg.
Qed.

Lemma fresh_key (s : t) :
  wellFormed s -> AwsStorage.getFile (files s) (nextId s) = None.
Proof.
  intros [_ Hlt]. unfold AwsStorage.getFile.
  destruct (find _ (files s)) as [f|] eqn:E; [|reflexivity].
  apply find_some in E. destruct E as [Hf E]. apply Z.eqb_eq in E.
  specialize (Hlt f Hf). lia.
Qed.

Lemma step_wellFormed (s : t) (o : Op) :
  wellFormed s -> keepsId o ->
  wellFormed (step s o) /\ nextId s <= nextId (step s o).
Proof.
  intros Hwf Hk. pose proof Hwf as [Hnd Hlt]. destruct o as [now file|now id u|id|].
  - cbn [step createFile snd files nextId].
    set (newFile := File.mk _ _ _ _ _ _ _ _ _ _ _ _ _ _).
    assert (Hids : map File.id (putFile newFile (files s))
                   = (map File.id (files s) ++ [nextId s])%list).
    { change (nextId s) with (File.id newFile) at 1.
      apply StoreContract.putFile_ids_fresh. exact (fresh_key s Hwf). }
    split; [unfold wellFormed; cbn [files nextId]; split|cbn [nextId]; lia].
    + rewrite Hids. apply NoDup_app; [exact Hnd|repeat constructor; intros []|].
      intros i Hi [<-|[]]. apply in_map_iff in Hi.
      destruct Hi as (f & Ef & Hf). specialize (Hlt f Hf). lia.
    + intros f Hf. apply (in_map File.id) in Hf. rewrite Hids in Hf.
      apply in_app_or in Hf. destruct Hf as [Hf|[Hf|[]]]; [|lia].
      apply in_map_iff in Hf. destruct Hf as (g & Eg & Hg).
      specialize (Hlt g Hg). lia.
  - cbn [step]. unfold updateFile, MemStorage.updateFile.
    destruct (AwsStorage.getFile (files s) id) as [existing|] eqn:Hget;
      [|split; [exact Hwf|lia]].
    cbn [files nextId].
    set (updated := File.mk _ _ _ _ _ _ _ _ _ _ _ _ _ _).
    assert (Hid : File.id updated = id).
    { unfold updated. cbn [File.id]. cbn [keepsId] in Hk. rewrite Hk.
      exact (StoreFacts.getFile_id _ _ _ Hget). }
    assert (Hids : map File.id (putFile updated (files s))
                   = map File.id (files s)).
    { apply (TrashView.putFile_ids updated (files s) existing).
      now rewrite Hid. }
    split; [unfold wellFormed; cbn [files nextId]; split|cbn [nextId]; lia].
    + now rewrite Hids.
    + intros f Hf. apply (in_map File.id) in Hf. rewrite Hids in Hf.
      apply in_map_iff in Hf. destruct Hf as (g & Eg & Hg).
      specialize (Hlt g Hg). lia.
  - cbn [step deleteFile files nextId]. split; [unfold wellFormed; cbn [files nextId]; split|cbn [nextId]; lia].
    + now apply filter_keeps_NoDup.
    + intros f Hf. apply filter_In in Hf. destruct Hf as [Hf _].
      now apply Hlt.
  - cbn [step files nextId]. split; [unfold wellFormed; cbn [files nextId]; split|cbn [nextId]; lia]; [exact Hnd|].
    intros f Hf. specialize (Hlt f Hf). lia.
Qed.

Lemma run_wellFormed (ops : list Op) : forall s,
  wellFormed s -> Forall keepsId ops ->
  wellFormed (run s ops) /\ nextId s <= nextId (run s ops).
Proof.
  unfold run. induction ops as [|o ops IH]; intros s Hwf Hk; cbn [fold_left].
  - split; [exact Hwf|lia].
  - inversion Hk as [|? ? Ho Hops]; subst.
    destruct (step_wellFormed s o Hwf Ho) as [Hwf' Hle].
    destruct (IH _ Hwf' Hops) as [Hwf'' Hle'].
    split; [exact Hwf''|lia].
Qed.

(** X25.  The fallback store never hands out an id twice.  From a store in
    which the ids are distinct and below [nextId] (the empty store is one),
    after any sequence of file creations, updates and deletions, and of
    creations of other records, the ids of the stored files are still
    distinct and below [nextId], which never decreases; and the next
    [createFile] stores its file under an id that no stored file has, where
    [getFile] finds it, and leaves every other file where it was. *)
Theorem fallback_ids_are_unique (s : t) (ops : list Op) :
  wellFormed s ->
  Forall keepsId ops ->
  let s1 := run s ops in
  wellFormed s1
  /\ nextId s <= nextId s1
  /\ forall now file,
       let newFile := fst (createFile s1 now file) in
       let s2 := snd (createFile s1 now file) in
       ~ In (File.id newFile) (map File.id (files s1))
       /\ getFile s2 (File.id newFile) = Some newFile
       /\ (forall f, In f (files s1) -> getFile s2 (File.id f) = Some f)
       /\ File.deletionStatus newFile = None
       /\ File.parentFolderId newFile = None.
Proof.
  intros Hwf Hk. cbv zeta.
  destruct (run_wellFormed ops s Hwf Hk) as [Hwf1 Hle].
  split; [exact Hwf1|]. split; [exact Hle|].
  intros now file. cbn [createFile fst snd].
  set (newFile := File.mk _ _ _ _ _ _ _ _ _ _ _ _ _ _).
  destruct Hwf1 as [Hnd Hlt].
  assert (Hnew : forall f, In f (files (run s ops)) ->
                           File.id f <> File.id newFile).
  { intros f Hf. specialize (Hlt f Hf). cbn [newFile File.id]. lia. }
  split; [|split; [|split; [|split]]].
  - intros Hin. apply in_map_iff in Hin. destruct Hin as (f & Ef & Hf).
    now apply (Hnew f Hf).
  - unfold getFile. cbn [files]. apply TrashCycle.getFile_putFile_same.
  - intros f Hf. unfold getFile. cbn [files].
    rewrite SoftDelete.getFile_putFile_other by now apply Hnew.
    now apply SoftDelete.getFile_unique.
  - reflexivity.
  - reflexivity.
Qed.

Lemma fallback_ids_are_unique_witness :
  let s := MemFiles.mk [] 1 in
  let ops := [Create 100 (Examples.upload "plan.pdf" (Some 1) None None);
              CreateOther;
              Create 200 (Examples.upload "plan.pdf" (Some 1) None None);
              Update 300 1 (Trash.trashStamp 300 "u9");
              Delete 3] in
  let s1 := run s ops in
  wellFormed s1
  /\ nextId s <= nextId s1
  /\ forall now file,
       let newFile := fst (createFile s1 now file) in
       let s2 := snd (createFile s1 now file) in
       ~ In (File.id newFile) (map File.id (files s1))
       /\ getFile s2 (File.id newFile) = Some newFile
       /\ (forall f, In f (files s1) -> getFile s2 (File.id f) = Some f)
       /\ File.deletionStatus newFile = None
       /\ File.parentFolderId newFile = None.
Proof.
  apply (fallback_ids_are_unique (MemFiles.mk [] 1)
           [Create 100 (Examples.upload "plan.pdf" (Some 1) None None);
            CreateOther;
            Create 200 (Examples.upload "plan.pdf" (Some 1) None None);
            Update 300 1 (Trash.trashStamp 300 "u9");
            Delete 3]).
  - split; [constructor|intros f []].
  - repeat constructor.
Defined.

End Fallback.

Module Moving.

Import AwsStorage Trash MoveRoute.

(** X26.  [PATCH /api/files/:id/move].  The route never answers 404: for an
    id under which no file is stored it answers 500 and writes nothing, as
    it does through the cloud store for an id that is not positive.
    Otherwise the file is stored under its id with the target folder (no
    folder when the target is empty; trimmed by the cloud store) and with
    its lifecycle status, project and task as they were, so a file in the
    trash can be moved and stays in the trash; every other file is
    untouched and no record is added or removed. *)
Theorem move_route_contract (storageType : StorageType)
    (table : list File.t) (now fileIdNum : Z) (targetFolderId : option string) :
  let r := moveFile storageType table now (Some fileIdNum) targetFolderId in
  (forall error, fst r <> Fail 404 error)
  /\ (getFile table fileIdNum = None
      \/ (storageType = aws /\ fileIdNum <= 0) ->
      r = (Fail 500 "Failed to move file", table))
  /\ (forall file,
         getFile table fileIdNum = Some file ->
         (storageType = aws -> 0 < fileIdNum) ->
         exists updatedFile stored,
           fst r = Json updatedFile
           /\ File.parentFolderId updatedFile = Js.truthy_str targetFolderId
           /\ getFile (snd r) fileIdNum = Some stored
           /\ File.parentFolderId stored
              = match storageType with
                | aws => File.trim_opt (Js.truthy_str targetFolderId)
                | memory => Js.truthy_str targetFolderId
                end
           /\ File.deletionStatus stored = File.deletionStatus file
           /\ File.projectId stored = File.projectId file
           /\ File.taskId stored = File.taskId file
           /\ (forall i, i <> fileIdNum ->
                         getFile (snd r) i = getFile table i)
           /\ List.length (snd r) = List.length table).
Proof.
  cbv zeta. unfold moveFile, storageUpdateFile.
  split; [|split].
  - intros error.
    destruct storageType;
      [destruct (AwsStorage.updateFile _ _ _ _) as [[u t']|]
      |destruct (MemStorage.updateFile _ _ _ _) as [[u t']|]];
      discriminate.
  - intros [Hnone|[-> Hle]].
    + destruct storageType; unfold AwsStorage.updateFile, MemStorage.updateFile;
        rewrite Hnone; [destruct (fileIdNum <=? 0)|]; reflexivity.
    + unfold AwsStorage.updateFile. apply Z.leb_le in Hle. now rewrite Hle.
  - intros file Hget Hpos.
    pose proof (StoreFacts.getFile_id _ _ _ Hget) as Hid.
    destruct storageType.
    + unfold AwsStorage.updateFile.
      assert (E : (fileIdNum <=? 0) = false)
        by (apply Z.leb_gt; now apply Hpos).
      rewrite E, Hget. cbn [fst snd].
      set (merged := File.mk _ _ _ _ _ _ _ _ _ _ _ _ _ _).
      assert (Hmid : File.id (File.serialize merged) = fileIdNum)
        by reflexivity.
      exists merged, (File.serialize merged).
      split; [reflexivity|]. split; [reflexivity|]. split.
      { exact (TrashCycle.getFile_putFile_same (File.serialize merged) table). }
      split; [reflexivity|]. split; [reflexivity|]. split; [reflexivity|].
      split; [reflexivity|]. split.
      * intros i Hi. apply SoftDelete.getFile_putFile_other.
        now rewrite Hmid.
      * apply (StoreFacts.putFile_length _ table file). now rewrite Hmid.
    + unfold MemStorage.updateFile. rewrite Hget. cbn [fst snd].
      set (updated := File.mk _ _ _ _ _ _ _ _ _ _ _ _ _ _).
      assert (Hmid : File.id updated = fileIdNum) by exact Hid.
      exists updated, updated.
      split; [reflexivity|]. split; [reflexivity|]. split.
      { rewrite <- Hmid at 1. apply TrashCycle.getFile_putFile_same. }
      split; [reflexivity|]. split; [reflexivity|]. split; [reflexivity|].
      split; [reflexivity|]. split.
      * intros i Hi. apply SoftDelete.getFile_putFile_other.
        now rewrite Hmid.
      * apply (StoreFacts.putFile_length _ table file). now rewrite Hmid.
Qed.

End Moving.

(** * Serialization *)

Module Serialization.

Import Js.

Lemma trimStart_idem (s : string) : trimStart (trimStart s) = trimStart s.
Proof.
  induction s as [|c s IH]; [reflexivity|]. cbn [trimStart].
  destruct (is_space c) eqn:E; [exact IH|]. cbn [trimStart]. now rewrite E.
Qed.

Lemma trimStart_head (s : string) (c : ascii) (t : string) :
  trimStart s = String c t -> is_space c = false.
Proof.
  induction s as [|a s IH]; cbn [trimStart]; [discriminate|].
  destruct (is_space a) eqn:E; [exact IH|].
  intros H. injection H as <- _. exact E.
Qed.

(** What [trimStart] removes is a prefix. *)
Lemma trimStart_suffix (s : string) :
  exists spaces,
    list_ascii_of_string s
    = (spaces ++ list_ascii_of_string (trimStart s))%list.
Proof.
  induction s as [|a s IH]; [now exists []|]. cbn [trimStart].
  destruct (is_space a); [|now exists []].
  destruct IH as (sp & IH). exists (a :: sp).
  cbn [list_ascii_of_string app]. now rewrite IH.
Qed.

Lemma trimStart_fix (s : string) :
  (forall c t, s = String c t -> is_space c = false) -> trimStart s = s.
Proof.
  destruct s as [|c t]; [reflexivity|]. intros H. cbn [trimStart].
  now rewrite (H c t eq_refl).
Qed.

Lemma list_of_reverse (s : string) :
  list_ascii_of_string (reverse s) = rev (list_ascii_of_string s).
Proof. unfold reverse. apply list_ascii_of_string_of_list_ascii. Qed.

(** A trimmed string does not start with white space. *)
Lemma trimStart_trim (s : string) : trimStart (trim s) = trim s.
Proof.
  unfold trim. set (a := trimStart s). set (b := trimStart (reverse a)).
  apply trimStart_fix. intros c t Hc.
  destruct (trimStart_suffix (reverse a)) as (sp & Hsp). fold b in Hsp.
  rewrite list_of_reverse in Hsp.
  assert (Ha : list_ascii_of_string a
               = (list_ascii_of_string (reverse b) ++ rev sp)%list).
  { rewrite list_of_reverse, <- rev_app_distr, <- Hsp.
    now rewrite rev_involutive. }
  rewrite Hc in Ha. cbn [list_ascii_of_string app] in Ha.
  apply (trimStart_head s c
           (string_of_list_ascii (list_ascii_of_string t ++ rev sp))).
  fold a. rewrite <- (string_of_list_ascii_of_string a), Ha. reflexivity.
Qed.

(** [trim] is idempotent. *)
Lemma trim_idem (s : string) : trim (trim s) = trim s.
Proof.
  unfold trim at 1. rewrite trimStart_trim. unfold trim.
  now rewrite JsFacts.reverse_involutive, trimStart_idem.
Qed.

Lemma trim_opt_idem (x : option string) :
  File.trim_opt (File.trim_opt x) = File.trim_opt x.
Proof.
  destruct x as [s|]; [|reflexivity]. unfold File.trim_opt, truthy_str.
  destruct (truthy (trim s)) eqn:E; [|reflexivity].
  now rewrite trim_idem, E.
Qed.

(** X27.  [serializeForDynamoDB] is idempotent on the items of the store:
    serializing a file item or a link item a second time changes nothing.
    Hence the item [createFile] stores and the item [updateFile] stores are
    already in serialized form, and none of their string attributes starts
    with white space. *)
Theorem serialization_is_idempotent :
  (forall f, File.serialize (File.serialize f) = File.serialize f)
  /\ (forall l, ShareableLink.serialize (ShareableLink.serialize l)
                = ShareableLink.serialize l)
  /\ (forall table now d,
         File.serialize (fst (fst (AwsStorage.createFile table now d)))
         = fst (fst (AwsStorage.createFile table now d)))
  /\ (forall table now id updates merged table',
         AwsStorage.updateFile table now id updates = Some (merged, table') ->
         exists stored,
           AwsStorage.getFile table' id = Some stored
           /\ File.serialize stored = stored)
  /\ (forall f c t,
         File.name (File.serialize f) = String c t
         \/ File.originalName (File.serialize f) = String c t
         \/ File.version (File.serialize f) = String c t
         \/ File.status (File.serialize f) = String c t ->
         is_space c = false).
Proof.
  assert (Hf : forall f, File.serialize (File.serialize f) = File.serialize f).
  { intros f. unfold File.serialize.
    cbn [File.id File.name File.originalName File.version File.status
         File.projectId File.taskId File.parentFolderId File.deletionStatus
         File.deletedAt File.deletedBy File.scheduledDeletionAt File.createdAt
         File.updatedAt].
    now rewrite !trim_idem, !trim_opt_idem. }
  split; [exact Hf|]. split; [|split; [|split]].
  - intros l. unfold ShareableLink.serialize.
    cbn [ShareableLink.id ShareableLink.resourceType ShareableLink.resourceId
         ShareableLink.linkType ShareableLink.isPublic ShareableLink.password
         ShareableLink.expiresAt ShareableLink.maxUses
         ShareableLink.currentUses ShareableLink.createdBy
         ShareableLink.isActive].
    now rewrite !trim_idem, trim_opt_idem.
  - intros table now d. unfold AwsStorage.createFile.
    destruct (AwsStorage.handleFileVersioning table now d) as [d' bg].
    cbn [fst]. apply Hf.
  - intros table now id updates merged table' H.
    unfold AwsStorage.updateFile in H.
    destruct (id <=? 0); [discriminate|].
    destruct (AwsStorage.getFile table id) as [existing|]; [|discriminate].
    injection H as <- <-. eexists. split.
    + match goal with
      | |- AwsStorage.getFile (AwsStorage.putFile ?item _) _ = _ =>
          exact (TrashCycle.getFile_putFile_same item table)
      end.
    + apply Hf.
  - intros f c t H. unfold File.serialize in H.
    cbn [File.name File.originalName File.version File.status] in H.
    assert (Htrim : forall s, trim s = String c t -> is_space c = false).
    { intros s Hs. apply (trimStart_head (trim s) c t).
      now rewrite trimStart_trim. }
    destruct H as [H|[H|[H|H]]]; exact (Htrim _ H).
Qed.

End Serialization.

(** * The folder delete on the document table *)

Module FolderFrame.

Import Trash FolderTrash.

Lemma prefix_refl (s : string) : String.prefix s s = true.
Proof.
  induction s as [|c s IH]; [reflexivity|]. cbn [String.prefix].
  destruct (ascii_dec c c) as [_|N]; [exact IH|now contradiction N].
Qed.

(** A string contains each of its suffixes. *)
Lemma includes_suffix (a s : string) : Js.includes (a ++ s) s = true.
Proof.
  induction a as [|c a IH].
  - destruct s as [|c s]; [reflexivity|].
    cbn [append Js.includes]. now rewrite prefix_refl.
  - cbn [append Js.includes].
    destruct (String.prefix s (String c (a ++ s))); [reflexivity|exact IH].
Qed.

Lemma putItem_sub (item : Item.t) (table : list Item.t) (i : Item.t) :
  In i (putItem item table) -> i = item \/ In i table.
Proof.
  induction table as [|j table IH]; simpl.
  - intros [<-|[]]. now left.
  - destruct (Item.same_key j item).
    + intros [<-|H]; [now left|right; now right].
    + intros [<-|H]; [right; now left|].
      destruct (IH H) as [->|H']; [now left|right; now right].
Qed.

Lemma putItem_other (item : Item.t) (table : list Item.t) (i : Item.t) :
  In i table -> Item.same_key i item = false -> In i (putItem item table).
Proof.
  induction table as [|j table IH]; simpl; [intros []|].
  intros [<-|H] Hk.
  - rewrite Hk. now left.
  - destruct (Item.same_key j item); right; [exact H|now apply IH].
Qed.

(** X28.  What [moveFolderToTrash] leaves in the document table.  Nothing
    is added but the trash entry.  An item is kept when its key is neither
    the key of the trash entry nor the key of an item the scan matched (a
    named item whose sort key contains the folder id).  The number answered
    is the number of items the scan matched.  When the scan observes the
    trash entry it has just written, that entry matches too and is removed
    with the rest: the answer announces a recovery deadline, and the table
    holds no record under the key of the entry. *)
Theorem folder_delete_frame (table : list Item.t)
    (listing : list (string * string)) (scanSeesPut : bool)
    (now answeredAt : Z) (folderId userId : string) :
  let r :=
    moveFolderToTrash table listing scanSeesPut now answeredAt folderId userId in
  let entry :=
    trashItemFor (folderNameOf listing folderId) folderId userId now in
  (forall i, In i (snd r) -> i = entry \/ In i table)
  /\ (forall i, In i table ->
        Item.same_key i entry = false ->
        (forall j, In j table -> scanMatches folderId j = true ->
                   Item.same_key i j = false) ->
        In i (snd r))
  /\ entriesRemoved (fst r)
     = List.length
         (filter (scanMatches folderId)
            (if scanSeesPut then putItem entry table else table))
  /\ (scanSeesPut = true ->
      FolderTrash.scheduledDeletionAt (fst r) = now + 60 * msPerDay
      /\ forall i, In i (snd r) -> Item.same_key i entry = false).
Proof.
  cbv zeta. unfold moveFolderToTrash.
  cbn [fst snd entriesRemoved FolderTrash.scheduledDeletionAt].
  set (entry := trashItemFor _ _ _ _).
  rewrite FolderDelete.delete_loop.
  split; [|split; [|split]].
  - intros i Hi. apply filter_In in Hi. destruct Hi as [Hi _].
    now apply putItem_sub.
  - intros i Hi Hk Hscan. apply filter_In.
    split; [now apply putItem_other|].
    apply negb_true_iff.
    destruct (existsb (Item.same_key i) _) eqn:E; [|reflexivity].
    apply existsb_exists in E. destruct E as (j & Hj & Hij).
    apply filter_In in Hj. destruct Hj as [Hj Hm].
    assert (Hor : j = entry \/ In j table).
    { destruct scanSeesPut; [now apply putItem_sub|now right]. }
    destruct Hor as [->|Hjt]; [congruence|].
    rewrite (Hscan j Hjt Hm) in Hij. discriminate.
  - reflexivity.
  - intros ->. split; [reflexivity|].
    intros i Hi. apply filter_In in Hi. destruct Hi as [_ Hno].
    apply negb_true_iff in Hno.
    destruct (Item.same_key i entry) eqn:E; [|reflexivity].
    assert (Hex : existsb (Item.same_key i)
                    (filter (scanMatches folderId) (putItem entry table))
                  = true).
    { apply existsb_exists. exists entry. split; [|exact E].
      apply filter_In. split; [apply FolderDelete.putItem_In|].
      unfold scanMatches, entry, trashItemFor. cbn [Item.SK Item.name].
      now rewrite includes_suffix. }
    congruence.
Qed.

End FolderFrame.

Module LinkFrame.

Import Links LinkRules.

(** X29.  What a resolution leaves in the store of links.  Through either
    public route, whatever the request: no link is added or removed; every
    link stored under another id is left as it was; the link stored under
    the resolved id keeps its id, resource, tier, visibility, password,
    expiry, cap, creator and active flag, and its counter is left as it was
    or incremented by exactly one. *)
Theorem resolution_frame (linkId : string) (store : Store)
    (a : Access) (k : string) :
  match lookup store k, lookup (access linkId store a) k with
  | Some v, Some v' =>
      (k <> linkId -> v' = v)
      /\ ShareableLink.id v' = ShareableLink.id v
      /\ ShareableLink.resourceType v' = ShareableLink.resourceType v
      /\ ShareableLink.resourceId v' = ShareableLink.resourceId v
      /\ ShareableLink.linkType v' = ShareableLink.linkType v
      /\ ShareableLink.isPublic v' = ShareableLink.isPublic v
      /\ ShareableLink.password v' = ShareableLink.password v
      /\ ShareableLink.expiresAt v' = ShareableLink.expiresAt v
      /\ ShareableLink.maxUses v' = ShareableLink.maxUses v
      /\ ShareableLink.createdBy v' = ShareableLink.createdBy v
      /\ ShareableLink.isActive v' = ShareableLink.isActive v
      /\ (ShareableLink.currentUses v' = ShareableLink.currentUses v
          \/ ShareableLink.currentUses v' = ShareableLink.currentUses v + 1)
  | None, None => True
  | _, _ => False
  end.
Proof.
  destruct (LinkFacts.access_effect linkId store a)
    as [->|(link & Hget & _ & ->)].
  - destruct (lookup store k) as [v|]; [|exact I].
    repeat split; try reflexivity. now left.
  - pose proof (LinkFacts.get_some_valid _ _ _ Hget) as Hv.
    rewrite (LinkFacts.lookup_update _ _ _ _ Hv).
    destruct (lookup store k) as [v|] eqn:Ek; cbn [option_map]; [|exact I].
    destruct (String.eqb_spec k linkId) as [->|Hne].
    + split; [intros H; now contradiction H|].
      repeat split; try reflexivity.
      right. cbn [ShareableLink.set_currentUses ShareableLink.currentUses].
      unfold getShareableLink in Hget. rewrite Hv, Ek in Hget.
      destruct (_ || _)%bool; [discriminate|].
      destruct (_ || _)%bool; [discriminate|].
      injection Hget as <-. reflexivity.
    + repeat split; try reflexivity. now left.
Qed.

End LinkFrame.

Module FallbackListing.

Import AwsStorage Trash.

Lemma putFile_filter_ids (p : File.t -> bool) (item : File.t) :
  forall table old,
  getFile table (File.id item) = Some old ->
  p item = p old ->
  map File.id (filter p (putFile item table)) = map File.id (filter p table).
Proof.
  unfold getFile. induction table as [|g table IH]; simpl; intros old H Hp.
  - discriminate.
  - destruct (File.id g =? File.id item) eqn:E.
    + injection H as ->. simpl. rewrite Hp.
      apply Z.eqb_eq in E. destruct (p old); simpl; now rewrite ?E.
    + simpl. destruct (p g); simpl; [f_equal|]; now apply (IH old).
Qed.

(** X30.  The fallback store does not hide the trash.  After
    [moveFileToTrash] through the fallback store, [MemStorage.getFiles]
    lists, for every project and task filter, the files with the same ids
    as before the delete: the file moved to the trash stays on the regular
    listing, stamped as deleted, and it is on the trash listing as well. *)
Theorem fallback_listing_shows_trashed (s : MemFiles.t)
    (now fileIdNum : Z) (userId : string) (file : File.t)
    (projectId taskId : option Z) :
  MemFiles.getFile s fileIdNum = Some file ->
  fileIdNum <> 0 ->
  let s' :=
    MemFiles.mk
      (snd (moveFileToTrash memory (MemFiles.files s) now (Some fileIdNum)
              userId))
      (MemFiles.nextId s) in
  map File.id (MemFiles.getFiles s' projectId taskId)
  = map File.id (MemFiles.getFiles s projectId taskId)
  /\ In (trashStamp now userId file) (MemFiles.getFiles s' None None)
  /\ forall asked,
       In (TrashListing.safeFile asked (trashStamp now userId file))
         (TrashListing.items
            (TrashListing.getTrashItems (MemFiles.files s') asked)).
Proof.
  unfold MemFiles.getFile. intros Hget Hz. cbv zeta.
  pose proof (StoreFacts.getFile_id _ _ _ Hget) as Hid.
  unfold moveFileToTrash, MemStorage.updateFile. rewrite Hget.
  cbn [snd MemFiles.files MemFiles.nextId].
  set (updated := File.mk _ _ _ _ _ _ _ _ _ _ _ _ _ _).
  assert (Hu : updated = trashStamp now userId file) by reflexivity.
  rewrite Hu.
  assert (Hkey : getFile (MemFiles.files s)
                   (File.id (trashStamp now userId file)) = Some file)
    by (cbn [trashStamp File.set_lifecycle File.id]; now rewrite Hid).
  assert (Hin : In (trashStamp now userId file)
                  (putFile (trashStamp now userId file) (MemFiles.files s))).
  { pose proof (StoreFacts.getFile_putFile _ _ _ Hkey) as Hg.
    unfold getFile in Hg. now apply find_some in Hg. }
  split; [|split].
  - unfold MemFiles.getFiles. cbn [MemFiles.files].
    now apply (putFile_filter_ids _ _ _ file).
  - unfold MemFiles.getFiles. cbn [MemFiles.files Js.truthy_num].
    apply filter_In. split; [exact Hin|reflexivity].
  - intros asked. apply TrashView.listing_In.
    exists (trashStamp now userId file).
    split; [exact Hin|]. split; [reflexivity|]. split; [|reflexivity].
    cbn [trashStamp File.set_lifecycle File.id]. now rewrite Hid.
Qed.

Lemma fallback_listing_shows_trashed_witness :
  let s := MemFiles.mk Examples.uploadedTwiceInMemory 3 in
  let file := Examples.stored 2 "plan.pdf" "1.0" "Current" (Some 1) None in
  let s' :=
    MemFiles.mk
      (snd (moveFileToTrash memory (MemFiles.files s) 5000 (Some 2) "u9"))
      (MemFiles.nextId s) in
  map File.id (MemFiles.getFiles s' (Some 1) None)
  = map File.id (MemFiles.getFiles s (Some 1) None)
  /\ In (trashStamp 5000 "u9" file) (MemFiles.getFiles s' None None)
  /\ forall asked,
       In (TrashListing.safeFile asked (trashStamp 5000 "u9" file))
         (TrashListing.items
            (TrashListing.getTrashItems (MemFiles.files s') asked)).
Proof.
  apply (fallback_listing_shows_trashed
           (MemFiles.mk Examples.uploadedTwiceInMemory 3) 5000 2 "u9"
           (Examples.stored 2 "plan.pdf" "1.0" "Current" (Some 1) None)
           (Some 1) None).
  - reflexivity.
  - discriminate.
Defined.

End FallbackListing.
